(** * Beckhoff BIOS API bridge (api.c): a shallow embedding

    The driver locates the vendor BIOS image in a physical memory window,
    shadows it into executable RAM and mediates every call to its entry
    point: [bbapi_rw] for in-kernel callers, [bbapi_ioctl] for user space.

    Integers are [Z] with the C conversions written out, bytes are
    [Init.Byte.byte], pointers are addresses in [Z] with [NULL = 0].
    Stateful code is a state monad over [world]; every step the C source
    executes against its environment is appended to a log. *)

From Stdlib Require Import ZArith List Lia Bool.
From coqutil Require Import Byte Word.LittleEndianList.
Import ListNotations.
Local Open Scope Z_scope.

(** ** 32-bit machine arithmetic *)

Module Int32.

Definition modulus : Z := 2 ^ 32.

(** Conversion to [unsigned int] / [uint32_t]. *)
Definition wrap (z : Z) : Z := z mod modulus.

(** Unary minus on an [unsigned int]. *)
Definition neg (z : Z) : Z := wrap (- z).

(** Conversion of an [unsigned int] to [int] (two's complement, as gcc
    defines it). *)
Definition to_int (z : Z) : Z := if z <? 2 ^ 31 then z else z - modulus.

End Int32.

(** ** Kernel constants used by api.c *)

Definition NULL : Z := 0.
Definition ENOMEM : Z := 12.
Definition EACCES : Z := 13.
Definition EFAULT : Z := 14.
Definition EINVAL : Z := 22.
Definition PAGE_SHIFT : Z := 12.

(** ** Declarations of api.h and TcBaDevDef.h

    Both headers are outside the translated sources; their constants are
    taken as parameters.  [BBAPI_CMD_LEGACY] is tested with [#ifdef], so
    it may be absent. *)

Class Headers := {
  BIOSAPIERR_OFFSET : Z;
  BIOSAPI_SRVNOTSUPP : Z;
  BIOSAPI_INVALIDSIZE : Z;
  BIOSAPI_INVALIDPARM : Z;
  BBAPI_CMD : Z;
  BBAPI_CMD_LEGACY : option Z;
  BBIOSAPI_SIGNATURE_SEARCH_AREA : Z
}.

(** ** Data model *)

(** [struct bbapi_struct], in the field order the unit test initialises. *)
Record bbapi_struct := mk_bbapi_struct {
  nIndexGroup : Z;
  nIndexOffset : Z;
  pInBuffer : Z;
  nInBufferSize : Z;
  pOutBuffer : Z;
  nOutBufferSize : Z;
  pBytesReturned : Z;
  pMode : Z
}.

(** [struct bbapi_object]: the shadow buffer ([memory], with its contents
    [image]), the entry pointer and the two scratch arrays [in] and [out].
    The mutex shows up as lock events in the log. *)
Record bbapi_object := mk_bbapi_object {
  memory : Z;
  image : list byte;
  entry : Z;
  in_ : list byte;
  out : list byte
}.

(** [sizeof] of a byte array member. *)
Definition sizeof (a : list byte) : Z := Z.of_nat (length a).

(** ** The BIOS behind the entry pointer

    One call maps the BIOS's own state, the seven arguments (buffers by
    content) to a reply: the value left in [eax], the contents of the
    output buffer afterwards and the value left in [*bytes_written]. *)

Record fw_reply (S : Type) := mk_fw_reply {
  fw_next : S;
  fw_status : Z;
  fw_out : list byte;
  fw_written : Z
}.
Arguments mk_fw_reply {S}.
Arguments fw_next {S}.
Arguments fw_status {S}.
Arguments fw_out {S}.
Arguments fw_written {S}.

Class Firmware := {
  fw_state : Type;
  fw_entry : fw_state -> Z -> Z -> list byte -> Z -> list byte -> Z ->
             fw_reply fw_state
}.

(** ** Environment of the gateway *)

(** User space: an address is mapped to a byte or is inaccessible. *)
Definition user_mem : Type := Z -> option byte.

(** Validation tests of the external path, in no particular order. *)
Inductive check_point :=
| ChkInitialized
| ChkCommand
| ChkReserved
| ChkAccess
| ChkInSize
| ChkOutSize.

(** Steps recorded in the log.  [EvCheck c b]: test [c] was evaluated and
    [b] tells whether it rejected.  [EvFirmware g o s n]: the entry point
    was called for group [g], offset [o] and left status [s] and byte
    count [n]. *)
Inductive event :=
| EvCheck (c : check_point) (rejected : bool)
| EvCopyDescriptor (legacy : bool)
| EvMutexLock
| EvMutexUnlock
| EvStage (src : Z) (n : Z)
| EvFirmware (group offset status written : Z)
| EvCopyToUser (dst : Z) (n : Z)
| EvPutUser (value : Z) (dst : Z).

Record world `{Firmware} := mk_world {
  g_bbapi : bbapi_object;
  user : user_mem;
  fw : fw_state;
  log : list event
}.

(** ** A state monad over [world] *)

Section Monad.
Context `{Firmware}.

Definition M (A : Type) : Type := world -> A * world.

Definition ret {A} (a : A) : M A := fun w => (a, w).

Definition bind {A B} (m : M A) (k : A -> M B) : M B :=
  fun w => let (a, w') := m w in k a w'.

Definition get_bbapi : M bbapi_object := fun w => (g_bbapi w, w).

Definition emit (e : event) : M unit :=
  fun w => (tt, mk_world _ (g_bbapi w) (user w) (fw w) (log w ++ [e])).

Definition check (c : check_point) (b : bool) : M bool :=
  fun w => (b, snd (emit (EvCheck c b) w)).

End Monad.

Notation "x <- m ;; k" := (bind m (fun x => k))
  (at level 61, m at next level, right associativity).
Notation "m ;;; k" := (bind m (fun _ => k))
  (at level 61, right associativity).

(** ** Kernel primitives *)

Definition is_zero (z : Z) : bool := z =? 0.

(** The longest readable prefix of [n] bytes of user memory at [src]. *)
Fixpoint read_user (u : user_mem) (src : Z) (n : nat) : list byte :=
  match n with
  | O => []
  | S k =>
      match u src with
      | Some b => b :: read_user u (src + 1) k
      | None => []
      end
  end.

(** Writes [bs] at [dst] up to the first inaccessible address; returns the
    memory and the number of bytes left over. *)
Fixpoint write_user (u : user_mem) (dst : Z) (bs : list byte) : user_mem * Z :=
  match bs with
  | [] => (u, 0)
  | b :: t =>
      match u dst with
      | Some _ =>
          write_user (fun a => if a =? dst then Some b else u a) (dst + 1) t
      | None => (u, sizeof bs)
      end
  end.

(** A 32-bit little-endian store at [dst]; a fault stores nothing. *)
Definition store32 (u : user_mem) (dst v : Z) : user_mem :=
  if Nat.eqb (length (read_user u dst 4)) 4
  then fst (write_user u dst (le_split 4 v))
  else u.

(** Overwrites the front of [dst] with [src]. *)
Definition overwrite (dst src : list byte) : list byte :=
  src ++ skipn (length src) dst.

(** [n] bytes read from the address of a kernel array [a]; past its end
    the read continues into whatever follows it in memory. *)
Definition kernel_read (after : nat -> byte) (a : list byte) (n : Z) : list byte :=
  map (fun i => nth i a (after (i - length a)%nat)) (seq 0 (Z.to_nat n)).

Section Gateway.
Context `{Headers} `{Firmware}.

(** What lies behind [g_bbapi.out] in kernel memory. *)
Variable after_out : nat -> byte.

(** [copy_from_user(bbapi->in, src, n)]: number of bytes not copied; the
    uncopied tail of the destination range is zeroed, as Linux does. *)
Definition copy_from_user_in (src n : Z) : M Z :=
  fun w =>
    let got := read_user (user w) src (Z.to_nat n) in
    let left := Z.of_nat (Z.to_nat n) - sizeof got in
    let staged := got ++ repeat Byte.x00 (Z.to_nat left) in
    let b := g_bbapi w in
    (left,
     mk_world _
       (mk_bbapi_object (memory b) (image b) (entry b)
          (overwrite (in_ b) staged) (out b))
       (user w) (fw w) (log w ++ [EvStage src n])).

(** [copy_to_user(dst, bbapi->out, n)]: number of bytes not copied. *)
Definition copy_to_user_out (dst n : Z) : M Z :=
  fun w =>
    let bs := kernel_read after_out (out (g_bbapi w)) n in
    let r := write_user (user w) dst bs in
    (snd r,
     mk_world _ (g_bbapi w) (fst r) (fw w) (log w ++ [EvCopyToUser dst n])).

(** [put_user(v, dst)] for a [uint32_t] destination; the result is
    discarded by the caller. *)
Definition put_user (v dst : Z) : M unit :=
  fun w =>
    (tt, mk_world _ (g_bbapi w) (store32 (user w) dst v) (fw w)
           (log w ++ [EvPutUser v dst])).

(** [bbapi_call] on the scratch arrays of [g_bbapi]: the status register
    is 32 bits wide, so is [written]. *)
Definition bbapi_call_scratch (cmd : bbapi_struct) : M (Z * Z) :=
  fun w =>
    let b := g_bbapi w in
    let r := fw_entry (fw w) (nIndexGroup cmd) (nIndexOffset cmd)
               (in_ b) (nInBufferSize cmd) (out b) (nOutBufferSize cmd) in
    let status := Int32.wrap (fw_status r) in
    let written := Int32.wrap (fw_written r) in
    (status, written,
     mk_world _
       (mk_bbapi_object (memory b) (image b) (entry b) (in_ b) (fw_out r))
       (user w) (fw_next r)
       (log w ++ [EvFirmware (nIndexGroup cmd) (nIndexOffset cmd) status written])).

(** [bbapi_call] on buffers owned by an in-kernel caller. *)
Definition bbapi_call_kernel (group offset : Z) (inb : list byte) (size_in : Z)
    (outb : list byte) (size_out : Z) : M (Z * list byte * Z) :=
  fun w =>
    let r := fw_entry (fw w) group offset inb size_in outb size_out in
    let status := Int32.wrap (fw_status r) in
    let written := Int32.wrap (fw_written r) in
    (status, fw_out r, written,
     mk_world _ (g_bbapi w) (user w) (fw_next r)
       (log w ++ [EvFirmware group offset status written])).

(** *** Internal path *)

(** [bbapi_rw]: returns the [unsigned int] result, the caller's output
    buffer and [*bytes_written] (initially [bw0]). *)
Definition bbapi_rw (group offset : Z) (inb : list byte) (size_in : Z)
    (outb : list byte) (size_out : Z) (bw0 : Z) : M (Z * list byte * Z) :=
  bbapi <- get_bbapi ;;
  if is_zero (entry bbapi) then ret (Int32.wrap BIOSAPI_SRVNOTSUPP, outb, bw0)
  else
    emit EvMutexLock ;;;
    r <- bbapi_call_kernel group offset inb size_in outb size_out ;;
    emit EvMutexUnlock ;;;
    let '(result, outb', bw) := r in
    if negb (is_zero result)
    then ret (Int32.neg (Z.lor result (Int32.wrap BIOSAPIERR_OFFSET)), outb', bw)
    else ret (result, outb', bw).

Definition bbapi_read (group offset : Z) (outb : list byte) (size : Z)
    : M (Z * list byte) :=
  r <- bbapi_rw group offset [] 0 outb size 0 ;;
  ret (fst (fst r), snd (fst r)).

Definition bbapi_write (group offset : Z) (inb : list byte) (size : Z) : M Z :=
  r <- bbapi_rw group offset inb size [] 0 0 ;;
  ret (fst (fst r)).

(** [bbapi_supports]: the switch compares in [unsigned int]. *)
Definition bbapi_supports (group offset : Z) : M bool :=
  r <- bbapi_read group offset [] 0 ;;
  let v := Int32.neg (fst r) in
  ret ((v =? Int32.wrap BIOSAPI_INVALIDSIZE) || (v =? Int32.wrap BIOSAPI_INVALIDPARM)).

(** *** External path *)

Definition bbapi_ioctl_mutexed (cmd : bbapi_struct) : M Z :=
  bbapi <- get_bbapi ;;
  big_in <- check ChkInSize (nInBufferSize cmd >? sizeof (in_ bbapi)) ;;
  if big_in then ret (- EINVAL) else
  big_out <- check ChkOutSize (nOutBufferSize cmd >? sizeof (out bbapi)) ;;
  if big_out then ret (- EINVAL) else
  left <- copy_from_user_in (pInBuffer cmd) (nInBufferSize cmd) ;;
  if negb (is_zero left) then ret (- EFAULT) else
  r <- bbapi_call_scratch cmd ;;
  let (status, written) := r in
  if negb (is_zero status)
  then ret (Int32.to_int (Int32.neg (Z.lor status (Int32.wrap BIOSAPIERR_OFFSET))))
  else
    left' <- copy_to_user_out (pOutBuffer cmd) written ;;
    if negb (is_zero left') then ret (- EFAULT) else
    (if negb (is_zero (pBytesReturned cmd))
     then put_user written (pBytesReturned cmd)
     else ret tt) ;;;
    ret 0.

(** The descriptor at [arg] as user space holds it ([None]: unreadable).
    The legacy command copies the short form: the two trailing fields
    keep the [NULL] they were given beforehand. *)
Definition copy_descriptor (legacy : bool) (arg : option bbapi_struct)
    : M (option bbapi_struct) :=
  emit (EvCopyDescriptor legacy) ;;;
  match arg with
  | None => ret None
  | Some d =>
      if legacy
      then ret (Some (mk_bbapi_struct (nIndexGroup d) (nIndexOffset d)
                        (pInBuffer d) (nInBufferSize d)
                        (pOutBuffer d) (nOutBufferSize d) NULL NULL))
      else ret (Some d)
  end.

Definition is_legacy (cmd : Z) : bool :=
  match BBAPI_CMD_LEGACY with
  | Some c => cmd =? c
  | None => false
  end.

Definition bbapi_ioctl (cmd : Z) (arg : option bbapi_struct) : M Z :=
  bbapi <- get_bbapi ;;
  unset <- check ChkInitialized (is_zero (entry bbapi)) ;;
  if unset then ret (- EINVAL) else
  wrong <- check ChkCommand (negb (is_legacy cmd) && negb (cmd =? BBAPI_CMD)) ;;
  if wrong then ret (- EINVAL) else
  fetched <- copy_descriptor (is_legacy cmd) arg ;;
  match fetched with
  | None => ret (- EINVAL)
  | Some bbstruct =>
      reserved <- check ChkReserved (negb (is_zero (pMode bbstruct))) ;;
      if reserved then ret (- EINVAL) else
      denied <- check ChkAccess (nIndexOffset bbstruct >=? 0xB0) ;;
      if denied then ret (- EACCES) else
      emit EvMutexLock ;;;
      result <- bbapi_ioctl_mutexed bbstruct ;;
      emit EvMutexUnlock ;;;
      ret result
  end.

End Gateway.

(** ** Discovery: signature scan and shadow copy *)

(** The two builds of api.c differ in the signature they look for. *)
Inductive arch := i386 | x86_64.

(** "BBIOSAPI" and "BBAPIX64", read as little-endian 64-bit words. *)
Definition BBIOSAPI_SIGNATURE (a : arch) : Z :=
  match a with
  | i386 => 0x495041534F494242
  | x86_64 => 0x3436584950414242
  end.

Definition STEP_SIZE : Z := 0x10.

(** A mapped I/O window, addressed by the offset from its start.  Reads
    past the window's size are reads of whatever is mapped there. *)
Definition iomem : Type := Z -> byte.

(** Kernel services used during discovery: [vmalloc] returns an address
    or [NULL], [set_memory_x] returns zero on success, [ioremap] of the
    fixed physical start address returns a window or fails. *)
Class Kernel := {
  vmalloc : Z -> Z;
  set_memory_x : Z -> Z -> Z;
  ioremap : Z -> option iomem
}.

Inductive kstep :=
| KIoremap (size : Z)
| KIounmap
| KVmalloc (size : Z)
| KSetMemoryX (addr pages : Z)
| KVfree (addr : Z)
| KMemcpyFromIo (pos size : Z).

Definition ioread32 (io : iomem) (pos : Z) : Z :=
  le_combine [io pos; io (pos + 1); io (pos + 2); io (pos + 3)].

Definition memcpy_fromio (io : iomem) (pos size : Z) : list byte :=
  map (fun i => io (pos + Z.of_nat i)) (seq 0 (Z.to_nat size)).

(** The 64-bit word the scan compares at [pos]. *)
Definition lword (io : iomem) (pos : Z) : Z :=
  let low := ioread32 io pos in
  let high := ioread32 io (pos + 4) in
  Z.lor (Z.shiftl high 32) low.

Section Discovery.
Context `{Headers} `{Kernel}.

(** [bbapi_copy_bios]: [offset + 4096] is computed in [uint32_t]. *)
Definition bbapi_copy_bios (bbapi : bbapi_object) (io : iomem) (pos : Z)
    : Z * bbapi_object * list kstep :=
  let offset := ioread32 io (pos + 8) in
  let size := Int32.wrap (offset + 4096) in
  let m := vmalloc size in
  let fresh := mk_bbapi_object m [] (entry bbapi) (in_ bbapi) (out bbapi) in
  if is_zero m then (- ENOMEM, fresh, [KVmalloc size])
  else
    let pages := Z.shiftr size PAGE_SHIFT in
    if negb (is_zero (set_memory_x m pages))
    then (- EFAULT, fresh, [KVmalloc size; KSetMemoryX m pages; KVfree m])
    else
      (0,
       mk_bbapi_object m (memcpy_fromio io pos size) (m + offset)
         (in_ bbapi) (out bbapi),
       [KVmalloc size; KSetMemoryX m pages; KMemcpyFromIo pos size]).

(** Inner loop of [bbapi_find_bios]: candidates [pos], [pos + 16], ... up
    to [area - 16]; [fuel] bounds the number of iterations. *)
Fixpoint scan_phase (a : arch) (io : iomem) (area : Z) (fuel : nat) (pos : Z)
    : option Z :=
  match fuel with
  | O => None
  | S k =>
      if pos <=? area - STEP_SIZE then
        if BBIOSAPI_SIGNATURE a =? lword io pos then Some pos
        else scan_phase a io area k (pos + STEP_SIZE)
      else None
  end.

(** Outer loop: phases [off], [off + 1], ..., [n] of them. *)
Fixpoint scan_phases (a : arch) (io : iomem) (area : Z) (n : nat) (off : Z)
    : option Z :=
  match n with
  | O => None
  | S k =>
      match scan_phase a io area (Z.to_nat (area / STEP_SIZE)) off with
      | Some pos => Some pos
      | None => scan_phases a io area k (off + 1)
      end
  end.

Definition scan (a : arch) (io : iomem) (area : Z) : option Z :=
  scan_phases a io area (Z.to_nat STEP_SIZE) 0.

(** [bbapi_find_bios] for the module parameter [search_area]. *)
Definition bbapi_find_bios (a : arch) (bbapi : bbapi_object)
    (g_bbapi_search_area : Z) : Z * bbapi_object * list kstep :=
  if g_bbapi_search_area >? BBIOSAPI_SIGNATURE_SEARCH_AREA
  then (- EFAULT, bbapi, [])
  else
    match ioremap g_bbapi_search_area with
    | None => (- ENOMEM, bbapi, [KIoremap g_bbapi_search_area])
    | Some io =>
        match scan a io g_bbapi_search_area with
        | Some pos =>
            let '(result, bbapi', steps) := bbapi_copy_bios bbapi io pos in
            (result, bbapi',
             KIoremap g_bbapi_search_area :: steps ++ [KIounmap])
        | None =>
            (- EFAULT, bbapi, [KIoremap g_bbapi_search_area; KIounmap])
        end
    end.

End Discovery.

(** [p] is examined no later than [q] by the two nested loops. *)
Definition scanned_no_later (p q : Z) : Prop :=
  p mod STEP_SIZE < q mod STEP_SIZE \/
  (p mod STEP_SIZE = q mod STEP_SIZE /\ p <= q).

(** The eight signature bytes lie in the window at offset [p]. *)
Definition planted (a : arch) (io : iomem) (p : Z) : Prop :=
  memcpy_fromio io p 8 = le_split 8 (BBIOSAPI_SIGNATURE a).

(** ** Vocabulary of the statements *)

(** The steps a computation appends to the log when run from [w]. *)
Definition steps `{Firmware} {A} (m : M A) (w : world) : list event :=
  skipn (length (log w)) (log (snd (m w))).

Definition is_check (e : event) : option check_point :=
  match e with
  | EvCheck c _ => Some c
  | _ => None
  end.

(** The validation tests among the steps, in the order they ran. *)
Fixpoint checks_run (l : list event) : list check_point :=
  match l with
  | [] => []
  | e :: t =>
      match is_check e with
      | Some c => c :: checks_run t
      | None => checks_run t
      end
  end.

(** The order in which [bbapi_ioctl] and [bbapi_ioctl_mutexed] test a
    request. *)
Definition validation_order : list check_point :=
  [ChkInitialized; ChkCommand; ChkReserved; ChkAccess; ChkInSize; ChkOutSize].

(** Steps that move payload bytes or enter the BIOS. *)
Definition moves_data (e : event) : bool :=
  match e with
  | EvStage _ _ | EvFirmware _ _ _ _ | EvCopyToUser _ _ | EvPutUser _ _ => true
  | _ => false
  end.


(** With this command and reserved field the request reaches the access test. *)
Definition passes_front `{Headers} (cmd : Z) (d : bbapi_struct) : Prop :=
  is_legacy cmd = true \/ (cmd = BBAPI_CMD /\ pMode d = NULL).

(** The descriptor [bbapi_ioctl] works on, for the one at [arg]. *)
Definition effective `{Headers} (cmd : Z) (d : bbapi_struct) : bbapi_struct :=
  if is_legacy cmd
  then mk_bbapi_struct (nIndexGroup d) (nIndexOffset d) (pInBuffer d)
         (nInBufferSize d) (pOutBuffer d) (nOutBufferSize d) NULL NULL
  else d.

(** A request declares more bytes than a scratch array holds. *)
Definition oversized (b : bbapi_object) (d : bbapi_struct) : Prop :=
  nInBufferSize d > sizeof (in_ b) \/ nOutBufferSize d > sizeof (out b).

(** The magnitude under which the gateway reports BIOS status [s]. *)
Definition gateway_code `{Headers} (s : Z) : Z :=
  if is_zero s then 0 else Z.lor s (Int32.wrap BIOSAPIERR_OFFSET).

(** Every address of the [k] bytes at [p] is accessible in [u]. *)
Definition accessible (u : user_mem) (p : Z) (k : nat) : bool :=
  forallb (fun i => match u (p + Z.of_nat i) with
                    | Some _ => true
                    | None => false
                    end) (seq 0 k).

(** Address [a] lies among the [n] bytes at [p]. *)
Definition within (p n a : Z) : bool := (p <=? a) && (a <? p + n).

(** ** Sample configurations for closed instances *)

(** [BBAPI_CMD] as the unit test defines it; the other values are one
    admissible choice. *)
Definition sample_headers : Headers := {|
  BIOSAPIERR_OFFSET := 0x20000000;
  BIOSAPI_SRVNOTSUPP := 0x20000001;
  BIOSAPI_INVALIDSIZE := 0x20000002;
  BIOSAPI_INVALIDPARM := 0x20000003;
  BBAPI_CMD := 0x5000;
  BBAPI_CMD_LEGACY := None;
  BBIOSAPI_SIGNATURE_SEARCH_AREA := 0x1FFFFF
|}.

(** A BIOS that counts its invocations and always answers with status
    [s], output bytes [o] and byte count [n]. *)
Definition fixed_firmware (s : Z) (o : list byte) (n : Z) : Firmware := {|
  fw_state := nat;
  fw_entry := fun c _ _ _ _ _ _ => mk_fw_reply (S c) s o n
|}.

(** User space with one accessible page at 0x1000, filled with 'A'. *)
Definition sample_user : user_mem :=
  fun a => if (0x1000 <=? a) && (a <? 0x2000) then Some Byte.x41 else None.

Definition sample_after_out : nat -> byte := fun _ => Byte.xaa.

(** A bridge in its READY state with 4096-byte scratch arrays, and the
    same bridge before discovery. *)
Definition ready_bbapi : bbapi_object :=
  mk_bbapi_object 0x100000 [] 0x102000
    (repeat Byte.x00 4096) (repeat Byte.x00 4096).

Definition unset_bbapi : bbapi_object :=
  mk_bbapi_object NULL [] NULL (repeat Byte.x00 4096) (repeat Byte.x00 4096).

(** A ready bridge with 16-byte scratch arrays. *)
Definition small_bbapi : bbapi_object :=
  mk_bbapi_object 0x100000 [] 0x102000
    (repeat Byte.x00 16) (repeat Byte.x00 16).

Definition sample_world (F : Firmware) (b : bbapi_object) (s0 : @fw_state F)
    : @world F :=
  @mk_world F b sample_user s0 [].

Definition request (group offset pin nin pout nout pret mode : Z) : bbapi_struct :=
  mk_bbapi_struct group offset pin nin pout nout pret mode.

(** An I/O window holding the bytes [l] from offset 0, zeros elsewhere. *)
Definition window_of (l : list byte) : iomem :=
  fun p => if p <? 0 then Byte.x00 else nth (Z.to_nat p) l Byte.x00.

(** Zeros with the signature planted at offset [at_], followed by the
    32-bit length field [field]. *)
Definition marker_bytes (a : arch) (at_ : nat) (field : Z) : list byte :=
  repeat Byte.x00 at_ ++ le_split 8 (BBIOSAPI_SIGNATURE a)
    ++ le_split 4 field ++ repeat Byte.x00 16.

(** A kernel whose allocator hands out one fixed address, grants execute
    permission and maps the window [io]. *)
Definition sample_kernel (io : iomem) : Kernel := {|
  vmalloc := fun size => if size =? 0 then NULL else 0x100000;
  set_memory_x := fun _ _ => 0;
  ioremap := fun _ => Some io
|}.

(** ** Further vocabulary for the gateway *)

(** Lock operations among the steps. *)
Definition touches_lock (e : event) : bool :=
  match e with
  | EvMutexLock | EvMutexUnlock => true
  | _ => false
  end.

Definition enters_firmware (e : event) : bool :=
  match e with
  | EvFirmware _ _ _ _ => true
  | _ => false
  end.

Definition stores_count (e : event) : bool :=
  match e with
  | EvPutUser _ _ => true
  | _ => false
  end.

Definition reads_descriptor (e : event) : bool :=
  match e with
  | EvCopyDescriptor _ => true
  | _ => false
  end.

(** Two descriptors agree on the six fields of the short form. *)
Definition same_short_form (d d' : bbapi_struct) : Prop :=
  nIndexGroup d = nIndexGroup d' /\ nIndexOffset d = nIndexOffset d' /\
  pInBuffer d = pInBuffer d' /\ nInBufferSize d = nInBufferSize d' /\
  pOutBuffer d = pOutBuffer d' /\ nOutBufferSize d = nOutBufferSize d'.

(** [d] with another [pBytesReturned]. *)
Definition with_bytes_returned (d : bbapi_struct) (p : Z) : bbapi_struct :=
  mk_bbapi_struct (nIndexGroup d) (nIndexOffset d) (pInBuffer d)
    (nInBufferSize d) (pOutBuffer d) (nOutBufferSize d) p (pMode d).

(** A request that passes every test of [bbapi_ioctl] and
    [bbapi_ioctl_mutexed] on the bridge of [w]. *)
Definition validated `{Headers} `{Firmware} (w : world) (cmd : Z)
    (d : bbapi_struct) : Prop :=
  entry (g_bbapi w) <> NULL /\ passes_front cmd d /\ nIndexOffset d < 0xB0 /\
  nInBufferSize d <= sizeof (in_ (g_bbapi w)) /\
  nOutBufferSize d <= sizeof (out (g_bbapi w)).

(** The caller's input bytes, as far as they are readable. *)
Definition payload `{Firmware} (w : world) (d : bbapi_struct) : list byte :=
  read_user (user w) (pInBuffer d) (Z.to_nat (nInBufferSize d)).

(** All declared input bytes are readable. *)
Definition input_readable `{Firmware} (w : world) (d : bbapi_struct) : Prop :=
  length (payload w d) = Z.to_nat (nInBufferSize d).

(** The BIOS's reply to request [d] once its payload is staged. *)
Definition gateway_reply `{Firmware} (w : world) (d : bbapi_struct)
    : fw_reply fw_state :=
  fw_entry (fw w) (nIndexGroup d) (nIndexOffset d)
    (overwrite (in_ (g_bbapi w)) (payload w d)) (nInBufferSize d)
    (out (g_bbapi w)) (nOutBufferSize d).

(** ** Further vocabulary for discovery *)

Definition maps_or_unmaps (k : kstep) : bool :=
  match k with
  | KIoremap _ | KIounmap => true
  | _ => false
  end.

Definition copies_image (k : kstep) : bool :=
  match k with
  | KMemcpyFromIo _ _ => true
  | _ => false
  end.

(** Two windows hold the same bytes in their first [area] bytes. *)
Definition agree_within (area : Z) (io io' : iomem) : Prop :=
  forall p, 0 <= p < area -> io p = io' p.

(** ** In-kernel users of the gateway *)

(** Constants of TcBaDevDef.h used by the in-kernel callers; the header
    is outside the translated sources. *)
Class DevDef := {
  CXPWRSUPP_MAX_DISPLAY_LINE : nat;
  BIOSIGRP_GENERAL : Z;
  BIOSIOFFS_GENERAL_GETBOARDNAME : Z;
  BIOSIGRP_CXPWRSUPP : Z;
  BIOSIOFFS_CXPWRSUPP_GETTYPE : Z;
  BIOSIOFFS_CXPWRSUPP_DISPLAYLINE1 : Z;
  BIOSIOFFS_CXPWRSUPP_DISPLAYLINE2 : Z;
  BIOSIOFFS_CXPWRSUPP_ENABLEBACKLIGHT : Z;
  BIOSIGRP_SUPS : Z;
  BIOSIOFFS_SUPS_GPIO_PIN_EX : Z;
  BIOSIOFFS_SUPS_GPIO_PIN : Z
}.

(** What module init and exit need from their host: the two strings of
    the display banner, the stack bytes under [line] before it is
    written, the table handed to the BIOS, and the results of device
    registration. *)
Inductive device := bbapi_power | bbapi_sups.

Class Host := {
  UNAME_S : list byte;
  UTS_RELEASE : list byte;
  stack_bytes : nat -> byte;
  extOsOps : list byte;
  platform_device_register : device -> Z;
  simple_cdev_init : Z
}.

(** [strncmp] on C strings given by their bytes; reading past the end of
    a list reads the terminating NUL. *)
Fixpoint strncmp (s1 s2 : list byte) (n : nat) : Z :=
  match n with
  | O => 0
  | S k =>
      let c1 := byte.unsigned (hd Byte.x00 s1) in
      let c2 := byte.unsigned (hd Byte.x00 s2) in
      if c1 =? c2
      then if c1 =? 0 then 0 else strncmp (tl s1) (tl s2) k
      else c1 - c2
  end.

(** The characters of a C string among its first [n] bytes. *)
Fixpoint c_string (n : nat) (s : list byte) : list byte :=
  match n, s with
  | S k, c :: t => if byte.unsigned c =? 0 then [] else c :: c_string k t
  | _, _ => []
  end.

(** What [%s] prints for the C string held in [s]. *)
Definition printed (s : list byte) : list byte := c_string (length s) s.

(** [snprintf(buffer, n, ...)] for the formatted text [text] on an
    [n]-byte buffer: the text cut to [n - 1] characters, a NUL, and the
    bytes the buffer held before; the value returned is the length of
    the whole text. *)
Definition snprintf (n : nat) (before : nat -> byte) (text : list byte)
    : list byte * Z :=
  (match n with
   | O => []
   | S k =>
       let cut := firstn k text in
       cut ++ Byte.x00 :: map before (seq (S (length cut)) (k - length cut))
   end,
   Z.of_nat (length text)).

(** [snprintf(line, n, "%s %s", a, b)]. *)
Definition snprintf_line (n : nat) (before : nat -> byte) (a b : list byte)
    : list byte :=
  fst (snprintf n before (printed a ++ Byte.x20 :: printed b)).

Section Callers.
Context `{Headers} `{DevDef} `{Host} `{Firmware}.

Definition bbapi_board_is (boardname : list byte) : M bool :=
  let board := repeat Byte.x00 CXPWRSUPP_MAX_DISPLAY_LINE in
  r <- bbapi_read BIOSIGRP_GENERAL BIOSIOFFS_GENERAL_GETBOARDNAME board
         (Int32.wrap (sizeof board - 1)) ;;
  ret (0 =? strncmp (snd r) boardname CXPWRSUPP_MAX_DISPLAY_LINE).

Definition update_display : M unit :=
  let size := Z.of_nat CXPWRSUPP_MAX_DISPLAY_LINE in
  let line := snprintf_line CXPWRSUPP_MAX_DISPLAY_LINE stack_bytes
                UNAME_S UTS_RELEASE in
  bbapi_write BIOSIGRP_CXPWRSUPP BIOSIOFFS_CXPWRSUPP_DISPLAYLINE2 line size ;;;
  r <- bbapi_read BIOSIGRP_GENERAL BIOSIOFFS_GENERAL_GETBOARDNAME line size ;;
  bbapi_write BIOSIGRP_CXPWRSUPP BIOSIOFFS_CXPWRSUPP_DISPLAYLINE1 (snd r) size ;;;
  bbapi_write BIOSIGRP_CXPWRSUPP BIOSIOFFS_CXPWRSUPP_ENABLEBACKLIGHT
    [Byte.xff] 1 ;;;
  ret tt.

Definition bbapi_supports_display : M bool :=
  bbapi_supports BIOSIGRP_CXPWRSUPP BIOSIOFFS_CXPWRSUPP_ENABLEBACKLIGHT.

Definition bbapi_supports_power : M bool :=
  bbapi_supports BIOSIGRP_CXPWRSUPP BIOSIOFFS_CXPWRSUPP_GETTYPE.

(** The second probe is issued only when the first one says no. *)
Definition bbapi_supports_sups : M bool :=
  ex <- bbapi_supports BIOSIGRP_SUPS BIOSIOFFS_SUPS_GPIO_PIN_EX ;;
  if ex then ret true
  else bbapi_supports BIOSIGRP_SUPS BIOSIOFFS_SUPS_GPIO_PIN.

(** [bbapi_init_bios]: the status is logged and dropped. *)
Definition bbapi_init_bios : M Z :=
  bbapi_write 0 0xFE extOsOps (sizeof extOsOps) ;;;
  ret 0.

Definition bbapi_exit_bios : M unit :=
  bbapi_write 0 0xFF [] 0 ;;;
  ret tt.

End Callers.

(** ** Module init and exit

    Their steps against the host interleave with discovery and with
    calls through the gateway; one trace holds them all. *)

Inductive mstep :=
| MMutexInit
| MDiscovery (k : kstep)
| MGateway (e : event)
| MRegister (d : device) (result : Z)
| MUnregister (d : device)
| MCdevInit (result : Z)
| MCdevRemove
| MVfree (addr : Z).

Record machine `{Firmware} := mk_machine {
  mw : world;
  mtrace : list mstep
}.

Section Lifecycle.
Context `{Headers} `{DevDef} `{Host} `{Kernel} `{Firmware}.

Definition I (A : Type) : Type := machine -> A * machine.

Definition iret {A} (a : A) : I A := fun st => (a, st).

Definition ibind {A B} (m : I A) (k : A -> I B) : I B :=
  fun st => let (a, st') := m st in k a st'.

Definition istep (s : mstep) : I unit :=
  fun st => (tt, mk_machine _ (mw st) (mtrace st ++ [s])).

(** Runs a gateway computation and records the steps it logged. *)
Definition lift {A} (m : M A) : I A :=
  fun st =>
    (fst (m (mw st)),
     mk_machine _ (snd (m (mw st)))
       (mtrace st ++ map MGateway (steps m (mw st)))).

(** Runs [bbapi_find_bios] on [g_bbapi]. *)
Definition discover (a : arch) (search_area : Z) : I Z :=
  fun st =>
    let w := mw st in
    let r := bbapi_find_bios a (g_bbapi w) search_area in
    (fst (fst r),
     mk_machine _ (mk_world _ (snd (fst r)) (user w) (fw w) (log w))
       (mtrace st ++ map MDiscovery (snd r))).

Definition register (d : device) : I Z :=
  fun st =>
    let r := platform_device_register d in
    (r, mk_machine _ (mw st) (mtrace st ++ [MRegister d r])).

Definition cdev_init : I Z :=
  fun st =>
    (simple_cdev_init,
     mk_machine _ (mw st) (mtrace st ++ [MCdevInit simple_cdev_init])).

Definition vfree_memory : I unit :=
  fun st =>
    (tt, mk_machine _ (mw st)
           (mtrace st ++ [MVfree (memory (g_bbapi (mw st)))])).

End Lifecycle.

Notation "x <~ m ;; k" := (ibind m (fun x => k))
  (at level 61, m at next level, right associativity).
Notation "m ;;~ k" := (ibind m (fun _ => k))
  (at level 61, right associativity).

Section ModuleInit.
Context `{Headers} `{DevDef} `{Host} `{Kernel} `{Firmware}.

Definition rollback_memory (result : Z) : I Z :=
  vfree_memory ;;~ iret result.

Definition rollback_power (result : Z) : I Z :=
  power <~ lift bbapi_supports_power ;;
  (if power then istep (MUnregister bbapi_power) else iret tt) ;;~
  rollback_memory result.

Definition rollback_sups (result : Z) : I Z :=
  sups <~ lift bbapi_supports_sups ;;
  (if sups then istep (MUnregister bbapi_sups) else iret tt) ;;~
  rollback_power result.

Definition bbapi_init_module (a : arch) (search_area : Z) : I Z :=
  istep MMutexInit ;;~
  result <~ discover a search_area ;;
  if negb (is_zero result) then iret result else
  power <~ lift bbapi_supports_power ;;
  result <~ (if power then register bbapi_power else iret result) ;;
  if negb (is_zero result) then rollback_memory result else
  sups <~ lift bbapi_supports_sups ;;
  result <~ (if sups then register bbapi_sups else iret result) ;;
  if negb (is_zero result) then rollback_power result else
  result <~ cdev_init ;;
  if negb (is_zero result) then rollback_sups result else
  display <~ lift bbapi_supports_display ;;
  (if display then lift update_display else iret tt) ;;~
  lift bbapi_init_bios.

Definition bbapi_exit : I unit :=
  fun st =>
    if is_zero (memory (g_bbapi (mw st))) then (tt, st)
    else
      (lift bbapi_exit_bios ;;~
       istep MCdevRemove ;;~
       sups <~ lift bbapi_supports_sups ;;
       (if sups then istep (MUnregister bbapi_sups) else iret tt) ;;~
       power <~ lift bbapi_supports_power ;;
       (if power then istep (MUnregister bbapi_power) else iret tt) ;;~
       vfree_memory) st.

End ModuleInit.

(** The steps of a trace taken against the host, gateway steps left out. *)
Definition is_gateway_step (s : mstep) : bool :=
  match s with
  | MGateway _ => true
  | _ => false
  end.

Definition host_steps (t : list mstep) : list mstep :=
  filter (fun s => negb (is_gateway_step s)) t.

(** The BIOS calls of a trace, as (group, offset) pairs in order. *)
Fixpoint bios_calls (t : list mstep) : list (Z * Z) :=
  match t with
  | [] => []
  | MGateway (EvFirmware g o _ _) :: t' => (g, o) :: bios_calls t'
  | _ :: t' => bios_calls t'
  end.

(** The status the BIOS leaves for a probe does not depend on its state. *)
Definition probe_stable `{Firmware} : Prop :=
  forall s s' g o,
    Int32.wrap (fw_status (fw_entry s g o [] 0 [] 0)) =
    Int32.wrap (fw_status (fw_entry s' g o [] 0 [] 0)).

(** ** The user-space helpers of the unit test *)

(** What [ioctl(2)] hands back to its caller for the driver's return
    value: values from -4095 to -1 become -1 (with [errno] set), any
    other value is passed through. *)
Definition ioctl_syscall (r : Z) : Z :=
  if (-4095 <=? r) && (r <? 0) then -1 else r.

(** [strncpy(dest, src, n)] on an [n]-byte array: the characters of
    [src], then NULs up to [n] bytes; no NUL when [src] has [n]
    characters or more. *)
Fixpoint strncpy (src : list byte) (n : nat) {struct n} : list byte :=
  match n with
  | O => []
  | S k =>
      match src with
      | c :: t =>
          if byte.unsigned c =? 0 then repeat Byte.x00 (S k)
          else c :: strncpy t k
      | [] => repeat Byte.x00 (S k)
      end
  end.

(** [memcmp] on the first [n] bytes. *)
Fixpoint memcmp (s1 s2 : list byte) (n : nat) : Z :=
  match n with
  | O => 0
  | S k =>
      let c1 := byte.unsigned (hd Byte.x00 s1) in
      let c2 := byte.unsigned (hd Byte.x00 s2) in
      if c1 =? c2 then memcmp (tl s1) (tl s2) k else c1 - c2
  end.

(** [BiosString<N>]: its constructor, [operator==] and [snprintf]. *)
Section BiosStringN.
Variable N : nat.

Definition BiosString (text : option (list byte)) : list byte :=
  match text with
  | Some s => strncpy s N
  | None => repeat Byte.x00 N
  end.

Definition BiosString_eq (x y : list byte) : bool :=
  0 =? memcmp x y N.

(** ["%.*s"] with precision [N]. *)
Definition BiosString_snprintf (data : list byte) (len : nat)
    (before : nat -> byte) : list byte * Z :=
  snprintf len before (c_string N data).

End BiosStringN.

(** The command number unittest.cpp defines for itself. *)
Definition UNITTEST_BBAPI_CMD : Z := 0x5000.

Section UnitTest.
Context `{Headers} `{Firmware}.
Variable after_out : nat -> byte.

Definition ioctl_read (group offset out size : Z) : M Z :=
  let data := mk_bbapi_struct group offset NULL 0 out size NULL NULL in
  r <- bbapi_ioctl after_out UNITTEST_BBAPI_CMD (Some data) ;;
  if ioctl_syscall r =? -1 then ret (-1) else ret 0.

Definition ioctl_write (group offset inp size : Z) : M Z :=
  let data := mk_bbapi_struct group offset inp size NULL 0 NULL NULL in
  r <- bbapi_ioctl after_out UNITTEST_BBAPI_CMD (Some data) ;;
  if ioctl_syscall r =? -1 then ret (-1) else ret 0.

End UnitTest.

(** ** Vocabulary for module init and exit *)

(** The probes of module init, as answered by a BIOS in state [s]. *)
Definition probe_status `{Firmware} (s : fw_state) (g o : Z) : Z :=
  Int32.wrap (fw_status (fw_entry s g o [] 0 [] 0)).

Definition supported `{Headers} `{Firmware} (s : fw_state) (g o : Z) : bool :=
  let st := probe_status s g o in
  let v := Int32.neg (if negb (is_zero st)
                      then Int32.neg (Z.lor st (Int32.wrap BIOSAPIERR_OFFSET))
                      else st) in
  (v =? Int32.wrap BIOSAPI_INVALIDSIZE) || (v =? Int32.wrap BIOSAPI_INVALIDPARM).

Definition power_supported `{Headers} `{DevDef} `{Firmware} (s : fw_state) : bool :=
  supported s BIOSIGRP_CXPWRSUPP BIOSIOFFS_CXPWRSUPP_GETTYPE.

Definition sups_supported `{Headers} `{DevDef} `{Firmware} (s : fw_state) : bool :=
  supported s BIOSIGRP_SUPS BIOSIOFFS_SUPS_GPIO_PIN_EX
  || supported s BIOSIGRP_SUPS BIOSIOFFS_SUPS_GPIO_PIN.

Definition same_device (d d' : device) : bool :=
  match d, d' with
  | bbapi_power, bbapi_power | bbapi_sups, bbapi_sups => true
  | _, _ => false
  end.

(** Successful registrations, unregistrations and frees in a trace. *)
Definition registers (d : device) (s : mstep) : bool :=
  match s with
  | MRegister d' r => same_device d d' && is_zero r
  | _ => false
  end.

Definition unregisters (d : device) (s : mstep) : bool :=
  match s with
  | MUnregister d' => same_device d d'
  | _ => false
  end.

Definition frees (s : mstep) : bool :=
  match s with
  | MVfree _ => true
  | _ => false
  end.

Definition count (p : mstep -> bool) (t : list mstep) : nat :=
  length (filter p t).

(** The steps module init or exit appends to the trace. *)
Definition appended `{Firmware} {A} (m : machine -> A * machine)
    (st : machine) : list mstep :=
  skipn (length (mtrace st)) (mtrace (snd (m st))).

(** Gateway computations that leave the bridge object and user memory
    alone. *)
Definition internal `{Firmware} {A} (m : M A) : Prop :=
  forall w, g_bbapi (snd (m w)) = g_bbapi w /\ user (snd (m w)) = user w.

(** From [st], [m] returns [v], appends [t] to the trace and leaves the
    bridge object [b]. *)
Definition yields `{Firmware} {A} (m : machine -> A * machine) (st : machine)
    (v : A) (t : list mstep) (b : bbapi_object) : Prop :=
  fst (m st) = v /\ mtrace (snd (m st)) = mtrace st ++ t /\
  g_bbapi (mw (snd (m st))) = b.

(** The same, looking only at the steps against the host. *)
Definition outcome `{Firmware} {A} (m : machine -> A * machine) (st : machine)
    (v : A) (hs : list mstep) (b : bbapi_object) : Prop :=
  exists t, yields m st v t b /\ host_steps t = hs.

Section InitOutcome.
Context `{Host}.

(** What module init returns once discovery has succeeded, for the
    answers [p] and [s] of the power and S-UPS probes. *)
Definition init_result (p s : bool) : Z :=
  let rp := platform_device_register bbapi_power in
  let rs := platform_device_register bbapi_sups in
  if p && negb (is_zero rp) then rp
  else if s && negb (is_zero rs) then rs
  else if negb (is_zero simple_cdev_init) then simple_cdev_init
  else 0.

(** The steps it takes against the host after discovery. *)
Definition init_host_steps (p s : bool) (mem : Z) : list mstep :=
  let rp := platform_device_register bbapi_power in
  let rs := platform_device_register bbapi_sups in
  let drop_power := if p then [MUnregister bbapi_power] else [] in
  let drop_sups := if s then [MUnregister bbapi_sups] else [] in
  (if p then [MRegister bbapi_power rp] else []) ++
  if p && negb (is_zero rp) then [MVfree mem]
  else
    (if s then [MRegister bbapi_sups rs] else []) ++
    if s && negb (is_zero rs) then drop_power ++ [MVfree mem]
    else
      MCdevInit simple_cdev_init ::
      if negb (is_zero simple_cdev_init)
      then drop_sups ++ drop_power ++ [MVfree mem]
      else [].

(** The steps module exit takes against the host. *)
Definition exit_host_steps (p s : bool) (mem : Z) : list mstep :=
  MCdevRemove ::
  (if s then [MUnregister bbapi_sups] else []) ++
  (if p then [MUnregister bbapi_power] else []) ++ [MVfree mem].

End InitOutcome.

Section ModuleCycle.
Context `{Headers} `{DevDef} `{Host} `{Kernel} `{Firmware}.

(** One load and unload of the module: [module_init] runs
    [bbapi_init_module], and [module_exit] runs [bbapi_exit] only for a
    module whose init returned 0. *)
Definition load_unload (a : arch) (search_area : Z) : I Z :=
  result <~ bbapi_init_module a search_area ;;
  (if is_zero result then bbapi_exit else iret tt) ;;~
  iret result.

(** The answers module init gets to its first two probes: the power
    probe runs on the world discovery leaves, the S-UPS probe right
    after it. *)
Definition power_answer (a : arch) (search_area : Z) (st : machine) : bool :=
  fst (bbapi_supports_power (mw (snd (discover a search_area st)))).

Definition sups_answer (a : arch) (search_area : Z) (st : machine) : bool :=
  fst (bbapi_supports_sups
         (snd (bbapi_supports_power (mw (snd (discover a search_area st)))))).

End ModuleCycle.

(** The three steps of one BIOS call to group 0, offset [o], made under
    the lock. *)
Definition handshake (o : Z) (l : list mstep) : Prop :=
  exists s n,
    l = [MGateway EvMutexLock; MGateway (EvFirmware 0 o s n);
         MGateway EvMutexUnlock].

(** [m] only appends to the trace. *)
Definition grows `{Firmware} {A} (m : machine -> A * machine) : Prop :=
  forall st, exists t, mtrace (snd (m st)) = mtrace st ++ t.

(** From [st], the steps [m] appends end in steps satisfying [P]. *)
Definition finishes `{Firmware} {A} (m : machine -> A * machine)
    (st : machine) (P : list mstep -> Prop) : Prop :=
  exists pre l, mtrace (snd (m st)) = mtrace st ++ pre ++ l /\ P l.

(** ** Sample configurations for the callers, module init and the tests *)

(** Headers of a driver that also accepts a legacy command. *)
Definition legacy_headers : Headers := {|
  BIOSAPIERR_OFFSET := 0x20000000;
  BIOSAPI_SRVNOTSUPP := 0x20000001;
  BIOSAPI_INVALIDSIZE := 0x20000002;
  BIOSAPI_INVALIDPARM := 0x20000003;
  BBAPI_CMD := 0x5000;
  BBAPI_CMD_LEGACY := Some 0x4000;
  BBIOSAPI_SIGNATURE_SEARCH_AREA := 0x1FFFFF
|}.

(** One admissible choice of the constants of TcBaDevDef.h. *)
Definition sample_devdef : DevDef := {|
  CXPWRSUPP_MAX_DISPLAY_LINE := 17;
  BIOSIGRP_GENERAL := 0x0;
  BIOSIOFFS_GENERAL_GETBOARDNAME := 0x1;
  BIOSIGRP_CXPWRSUPP := 0x9000;
  BIOSIOFFS_CXPWRSUPP_GETTYPE := 0x10;
  BIOSIOFFS_CXPWRSUPP_DISPLAYLINE1 := 0x61;
  BIOSIOFFS_CXPWRSUPP_DISPLAYLINE2 := 0x62;
  BIOSIOFFS_CXPWRSUPP_ENABLEBACKLIGHT := 0x60;
  BIOSIGRP_SUPS := 0x6000;
  BIOSIOFFS_SUPS_GPIO_PIN_EX := 0x11;
  BIOSIOFFS_SUPS_GPIO_PIN := 0x10
|}.

(** A host called "Linux", release "6.1", whose two device registrations
    and character device creation return [rp], [rs] and [rc]. *)
Definition sample_host (rp rs rc : Z) : Host := {|
  UNAME_S := [Byte.x4c; Byte.x69; Byte.x6e; Byte.x75; Byte.x78];
  UTS_RELEASE := [Byte.x36; Byte.x2e; Byte.x31];
  stack_bytes := fun _ => Byte.xcc;
  extOsOps := repeat Byte.x00 112;
  platform_device_register := fun d =>
    match d with
    | bbapi_power => rp
    | bbapi_sups => rs
    end;
  simple_cdev_init := rc
|}.

Definition sample_machine (F : Firmware) (b : bbapi_object) (s0 : @fw_state F)
    : @machine F :=
  @mk_machine F (sample_world F b s0) [].

(** A BIOS that answers its first [n] calls with status 2 and every
    later call with status 0. *)
Definition fading_firmware (n : nat) : Firmware := {|
  fw_state := nat;
  fw_entry := fun c _ _ _ _ _ _ =>
    mk_fw_reply (S c) (if (c <? n)%nat then 2 else 0) [] 0
|}.

(** * Proofs *)

(** ** Lists and machine arithmetic *)

Lemma skipn_length_app {A} (l d : list A) : skipn (length l) (l ++ d) = d.
Proof. induction l; simpl; auto. Qed.

Lemma wrap_range z : 0 <= Int32.wrap z < 2 ^ 32.
Proof. unfold Int32.wrap, Int32.modulus. apply Z.mod_pos_bound. lia. Qed.

Lemma wrap_small z : 0 <= z < 2 ^ 32 -> Int32.wrap z = z.
Proof. intros. unfold Int32.wrap, Int32.modulus. apply Z.mod_small. lia. Qed.

Lemma lor_range a b :
  0 <= a < 2 ^ 32 -> 0 <= b < 2 ^ 32 -> 0 <= Z.lor a b < 2 ^ 32.
Proof.
  intros Ha Hb. split.
  - apply Z.lor_nonneg. lia.
  - destruct (Z.eq_dec (Z.lor a b) 0) as [E | E]; [rewrite E; lia |].
    assert (0 <= Z.lor a b) by (apply Z.lor_nonneg; lia).
    apply Z.log2_lt_pow2; [lia |].
    rewrite Z.log2_lor by lia.
    destruct (Z.eq_dec a 0) as [-> | Na]; destruct (Z.eq_dec b 0) as [-> | Nb];
      simpl Z.log2; try lia.
    + rewrite Z.max_r by apply Z.log2_nonneg. apply Z.log2_lt_pow2; lia.
    + rewrite Z.max_l by apply Z.log2_nonneg. apply Z.log2_lt_pow2; lia.
    + apply Z.max_lub_lt; apply Z.log2_lt_pow2; lia.
Qed.

Lemma lor_nonzero a b : a <> 0 -> Z.lor a b <> 0.
Proof. intros Na E. apply Z.lor_eq_0_iff in E. tauto. Qed.

Lemma neg_pos x : 0 < x < 2 ^ 32 -> Int32.neg x = 2 ^ 32 - x.
Proof.
  intros Hx. unfold Int32.neg, Int32.wrap, Int32.modulus.
  symmetry. apply Z.mod_unique with (q := -1); lia.
Qed.

Lemma neg_involutive x : 0 <= x < 2 ^ 32 -> Int32.neg (Int32.neg x) = x.
Proof.
  intros Hx. destruct (Z.eq_dec x 0) as [-> | N]; [reflexivity |].
  rewrite (neg_pos x) by lia. rewrite neg_pos by lia. lia.
Qed.

Lemma to_int_neg x : 0 < x <= 2 ^ 31 -> Int32.to_int (Int32.neg x) = - x.
Proof.
  intros Hx. rewrite neg_pos by lia. unfold Int32.to_int, Int32.modulus.
  destruct (2 ^ 32 - x <? 2 ^ 31) eqn:E; lia.
Qed.

Lemma to_int_neg_nonzero x : 0 < x < 2 ^ 32 -> Int32.to_int (Int32.neg x) <> 0.
Proof.
  intros Hx. rewrite neg_pos by lia. unfold Int32.to_int, Int32.modulus.
  destruct (2 ^ 32 - x <? 2 ^ 31) eqn:E; lia.
Qed.

(** The translated status of a failed call is a nonzero 32-bit value. *)
Lemma translated_range `{Headers} z :
  Int32.wrap z <> 0 ->
  0 < Z.lor (Int32.wrap z) (Int32.wrap BIOSAPIERR_OFFSET) < 2 ^ 32.
Proof.
  intros N.
  pose proof (lor_range _ _ (wrap_range z) (wrap_range BIOSAPIERR_OFFSET)).
  pose proof (lor_nonzero _ (Int32.wrap BIOSAPIERR_OFFSET) N). lia.
Qed.

Lemma kernel_read_length after a n :
  length (kernel_read after a n) = Z.to_nat n.
Proof. unfold kernel_read. rewrite length_map, length_seq. reflexivity. Qed.

(** ** Copies to user memory, byte by byte *)

Lemma accessible_spec (u : user_mem) p k :
  accessible u p k = true <->
  forall i, (i < k)%nat -> u (p + Z.of_nat i) <> None.
Proof.
  unfold accessible. rewrite forallb_forall. split.
  - intros Hall i Hi. specialize (Hall i). rewrite in_seq in Hall.
    destruct (u (p + Z.of_nat i)); [discriminate | ].
    assert (false = true) by (apply Hall; lia). discriminate.
  - intros Hall i Hi. apply in_seq in Hi. specialize (Hall i).
    destruct (u (p + Z.of_nat i)); [reflexivity |].
    exfalso. apply Hall; [lia | reflexivity].
Qed.

Lemma write_user_outside bs : forall (u : user_mem) dst a,
  a < dst \/ dst + sizeof bs <= a -> fst (write_user u dst bs) a = u a.
Proof.
  unfold sizeof.
  induction bs as [| b t IH]; intros u dst a Ha; [reflexivity |].
  cbn [write_user]. cbn [length] in Ha.
  destruct (u dst) eqn:E; [| reflexivity].
  rewrite IH by lia.
  destruct (a =? dst) eqn:Ea; [apply Z.eqb_eq in Ea; lia | reflexivity].
Qed.

Lemma write_user_keeps_access bs : forall (u : user_mem) dst a,
  fst (write_user u dst bs) a = None <-> u a = None.
Proof.
  induction bs as [| b t IH]; intros u dst a; [reflexivity |].
  cbn [write_user].
  destruct (u dst) eqn:E; [| reflexivity].
  rewrite IH.
  destruct (a =? dst) eqn:Ea; [| reflexivity].
  apply Z.eqb_eq in Ea. subst a. rewrite E. split; discriminate.
Qed.

Lemma write_user_full bs : forall (u : user_mem) dst,
  (forall i, (i < length bs)%nat -> u (dst + Z.of_nat i) <> None) ->
  snd (write_user u dst bs) = 0 /\
  forall i, (i < length bs)%nat ->
    fst (write_user u dst bs) (dst + Z.of_nat i) = Some (nth i bs Byte.x00).
Proof.
  induction bs as [| b t IH]; intros u dst Hall.
  - split; [reflexivity |]. cbn [length]. intros i Hi. lia.
  - cbn [write_user]. cbn [length] in Hall.
    destruct (u dst) eqn:E.
    2:{ exfalso. apply (Hall 0%nat); [lia |]. rewrite Z.add_0_r. exact E. }
    set (u' := fun a => if a =? dst then Some b else u a).
    assert (Hall' : forall i, (i < length t)%nat ->
                      u' (dst + 1 + Z.of_nat i) <> None).
    { intros i Hi. unfold u'.
      destruct (dst + 1 + Z.of_nat i =? dst) eqn:Ea;
        [apply Z.eqb_eq in Ea; lia |].
      replace (dst + 1 + Z.of_nat i) with (dst + Z.of_nat (S i)) by lia.
      apply Hall. lia. }
    destruct (IH u' (dst + 1) Hall') as (Hz & Hb).
    split; [exact Hz |]. intros i Hi. cbn [length] in Hi.
    destruct i as [| j].
    + rewrite Z.add_0_r, write_user_outside by lia.
      unfold u'. rewrite Z.eqb_refl. reflexivity.
    + replace (dst + Z.of_nat (S j)) with (dst + 1 + Z.of_nat j) by lia.
      rewrite Hb by lia. reflexivity.
Qed.

Lemma write_user_done bs : forall (u : user_mem) dst,
  snd (write_user u dst bs) = 0 ->
  forall i, (i < length bs)%nat -> u (dst + Z.of_nat i) <> None.
Proof.
  induction bs as [| b t IH]; intros u dst Hz i Hi; [cbn [length] in Hi; lia |].
  cbn [write_user] in Hz.
  destruct (u dst) eqn:E.
  2:{ unfold sizeof in Hz. cbn [snd length] in Hz. lia. }
  destruct i as [| j].
  - rewrite Z.add_0_r, E. discriminate.
  - cbn [length] in Hi.
    pose proof (IH _ _ Hz j ltac:(lia)) as Hj. cbv beta in Hj.
    replace (dst + Z.of_nat (S j)) with (dst + 1 + Z.of_nat j) by lia.
    destruct (dst + 1 + Z.of_nat j =? dst) eqn:Ea;
      [apply Z.eqb_eq in Ea; lia | exact Hj].
Qed.

Lemma write_user_status bs (u : user_mem) dst :
  snd (write_user u dst bs) = 0 <-> accessible u dst (length bs) = true.
Proof.
  rewrite accessible_spec. split.
  - apply write_user_done.
  - intros Hall. apply (write_user_full bs u dst Hall).
Qed.

Lemma read_user_full (u : user_mem) k : forall p,
  length (read_user u p k) = k <-> accessible u p k = true.
Proof.
  induction k as [| k IH]; intros p.
  - split; reflexivity.
  - rewrite accessible_spec. cbn [read_user]. split.
    + intros Hl i Hi. destruct (u p) eqn:E; [| discriminate Hl].
      cbn [length] in Hl. injection Hl as Hl.
      destruct i as [| j]; [rewrite Z.add_0_r, E; discriminate |].
      apply IH in Hl. rewrite accessible_spec in Hl.
      replace (p + Z.of_nat (S j)) with (p + 1 + Z.of_nat j) by lia.
      apply Hl. lia.
    + intros Hall. destruct (u p) eqn:E.
      2:{ exfalso. apply (Hall 0%nat); [lia |]. rewrite Z.add_0_r. exact E. }
      cbn [length]. f_equal. apply IH. rewrite accessible_spec.
      intros i Hi.
      replace (p + 1 + Z.of_nat i) with (p + Z.of_nat (S i)) by lia.
      apply Hall. lia.
Qed.

Lemma accessible_ext (u u' : user_mem) p k :
  (forall a, u a = None <-> u' a = None) ->
  accessible u p k = accessible u' p k.
Proof.
  intros Hsame. apply eq_true_iff_eq. rewrite !accessible_spec.
  split; intros Hall i Hi E; apply (Hall i Hi); apply Hsame; exact E.
Qed.

Lemma within_offset p n a :
  within p n a = true ->
  a = p + Z.of_nat (Z.to_nat (a - p)) /\ (Z.to_nat (a - p) < Z.to_nat n)%nat.
Proof.
  unfold within. rewrite andb_true_iff, Z.leb_le, Z.ltb_lt. lia.
Qed.

Lemma within_outside p n a :
  within p n a = false -> 0 <= n -> a < p \/ p + n <= a.
Proof.
  unfold within. rewrite andb_false_iff, Z.leb_gt, Z.ltb_ge. lia.
Qed.

(** What a complete copy of [bs] to [dst] leaves in user memory. *)
Lemma write_user_image bs (u : user_mem) dst a :
  accessible u dst (length bs) = true ->
  fst (write_user u dst bs) a =
    if within dst (sizeof bs) a
    then Some (nth (Z.to_nat (a - dst)) bs Byte.x00)
    else u a.
Proof.
  intros Hacc. rewrite accessible_spec in Hacc.
  destruct (within dst (sizeof bs) a) eqn:Ew.
  - apply within_offset in Ew. destruct Ew as (Ea & Hi).
    unfold sizeof in Hi. rewrite Nat2Z.id in Hi.
    rewrite Ea at 1. apply (write_user_full bs u dst Hacc). exact Hi.
  - apply within_outside in Ew; [| unfold sizeof; lia].
    apply write_user_outside. exact Ew.
Qed.

(** What [put_user] of a 32-bit value leaves in user memory. *)
Lemma store32_image (u : user_mem) dst v a :
  store32 u dst v a =
    if accessible u dst 4 && within dst 4 a
    then Some (nth (Z.to_nat (a - dst)) (le_split 4 v) Byte.x00)
    else u a.
Proof.
  unfold store32.
  destruct (accessible u dst 4) eqn:Ea.
  - apply read_user_full in Ea. rewrite Ea. cbn [Nat.eqb andb].
    apply read_user_full in Ea.
    rewrite write_user_image by (rewrite length_le_split; exact Ea).
    unfold sizeof. rewrite length_le_split. reflexivity.
  - destruct (Nat.eqb (length (read_user u dst 4)) 4) eqn:El.
    + apply Nat.eqb_eq, read_user_full in El. congruence.
    + reflexivity.
Qed.

Lemma kernel_read_nth after a n i :
  (i < Z.to_nat n)%nat ->
  nth i (kernel_read after a n) Byte.x00 = nth i a (after (i - length a)%nat).
Proof.
  intros Hi. unfold kernel_read.
  set (f := fun j => nth j a (after (j - length a)%nat)).
  rewrite (nth_indep _ Byte.x00 (f 0%nat))
    by (rewrite length_map, length_seq; exact Hi).
  rewrite (map_nth f), seq_nth by exact Hi. reflexivity.
Qed.

(** ** Symbolic execution of the gateway *)

Ltac gateway_unfold :=
  unfold steps, bbapi_ioctl, bbapi_ioctl_mutexed, copy_descriptor,
    bbapi_call_scratch, copy_from_user_in, copy_to_user_out, put_user,
    check, emit, bind, ret, get_bbapi.

Ltac split_run :=
  repeat (simpl; match goal with
  | |- context [if ?c then _ else _] => destruct c eqn:?
  | |- context [let (_, _) := ?p in _] => destruct p eqn:?
  end); simpl.

Ltac log_steps :=
  repeat rewrite <- app_assoc; rewrite ?skipn_length_app; simpl.

Ltac plain_codes := unfold passes_front, is_zero, NULL, EACCES, EINVAL, EFAULT in *.

Ltac pick_event H :=
  simpl in H;
  repeat (destruct H as [H | H]; [try discriminate H |]);
  try contradiction.

Section GatewayProofs.
Context `{Headers} `{Firmware}.
Variable after_out : nat -> byte.

(** C1 (as amended).  A request whose offset is at or above 0xB0 moves no
    payload byte and never enters the BIOS, whatever its other fields; it
    is answered [-EACCES] exactly when the bridge is initialised, the
    command is a BBAPI command and the reserved field is null, and
    [-EINVAL] otherwise. *)
Theorem access_denied_at_threshold (w : world) (cmd : Z) (d : bbapi_struct) :
  0xB0 <= nIndexOffset d ->
  let run := bbapi_ioctl after_out cmd (Some d) w in
  (fst run = - EACCES <-> entry (g_bbapi w) <> NULL /\ passes_front cmd d) /\
  (fst run = - EACCES \/ fst run = - EINVAL) /\
  g_bbapi (snd run) = g_bbapi w /\
  user (snd run) = user w /\
  fw (snd run) = fw w /\
  existsb moves_data (steps (bbapi_ioctl after_out cmd (Some d)) w) = false.
Proof.
  intros Hoff. gateway_unfold. split_run; log_steps.
  all: try (exfalso; lia).
  all: plain_codes.
  all: repeat split; auto; try lia.
  all: try (intros [? [? | [? ?]]]; exfalso;
            destruct (is_legacy cmd); simpl in *; try discriminate; lia).
  all: try (destruct (is_legacy cmd); simpl in *; auto; right; lia).
Qed.

(** C2 (as amended).  The tests of a request run in one fixed order:
    initialisation, command, reserved field, access threshold, input
    size, output size.  The access test is thus preceded by the
    reserved-field test and precedes both size tests, and every step
    that moves payload or enters the BIOS comes after it has passed. *)
Theorem access_check_position (w : world) (cmd : Z) (arg : option bbapi_struct) :
  let l := steps (bbapi_ioctl after_out cmd arg) w in
  (exists n, checks_run l = firstn n validation_order) /\
  (existsb moves_data l = true ->
   exists post,
     l = [EvCheck ChkInitialized false; EvCheck ChkCommand false;
          EvCopyDescriptor (is_legacy cmd); EvCheck ChkReserved false;
          EvCheck ChkAccess false] ++ post /\
     checks_run post = [ChkInSize; ChkOutSize]).
Proof.
  gateway_unfold. destruct arg as [d |]; split_run; log_steps.
  all: split;
    [ first [ exists 1%nat; reflexivity | exists 2%nat; reflexivity
            | exists 3%nat; reflexivity | exists 4%nat; reflexivity
            | exists 5%nat; reflexivity | exists 6%nat; reflexivity ]
    | try discriminate; intros _; eexists; split; reflexivity ].
Qed.

(** C3.  While no entry point is published, [bbapi_rw], [bbapi_read] and
    [bbapi_write] return [BIOSAPI_SRVNOTSUPP] and leave the world as it
    is, and [bbapi_ioctl] returns [-EINVAL] after its first test; none of
    them enters the BIOS. *)
Theorem uninitialized_fails_fast (w : world) :
  entry (g_bbapi w) = NULL ->
  (forall g o inb n outb m bw,
     bbapi_rw g o inb n outb m bw w
     = (Int32.wrap BIOSAPI_SRVNOTSUPP, outb, bw, w)) /\
  (forall g o outb n,
     bbapi_read g o outb n w = (Int32.wrap BIOSAPI_SRVNOTSUPP, outb, w)) /\
  (forall g o inb n,
     bbapi_write g o inb n w = (Int32.wrap BIOSAPI_SRVNOTSUPP, w)) /\
  (forall cmd arg,
     let run := bbapi_ioctl after_out cmd arg w in
     fst run = - EINVAL /\
     steps (bbapi_ioctl after_out cmd arg) w = [EvCheck ChkInitialized true] /\
     g_bbapi (snd run) = g_bbapi w /\
     user (snd run) = user w /\
     fw (snd run) = fw w).
Proof.
  intros E.
  assert (R : forall g o inb n outb m bw,
             bbapi_rw g o inb n outb m bw w
             = (Int32.wrap BIOSAPI_SRVNOTSUPP, outb, bw, w)).
  { intros. unfold bbapi_rw, bind, get_bbapi, ret. rewrite E. reflexivity. }
  repeat split.
  - exact R.
  - intros. unfold bbapi_read, bind, ret. rewrite R. reflexivity.
  - intros. unfold bbapi_write, bind, ret. rewrite R. reflexivity.
  - gateway_unfold. rewrite E. reflexivity.
  - gateway_unfold. rewrite E. simpl. log_steps. reflexivity.
  - gateway_unfold. rewrite E. reflexivity.
  - gateway_unfold. rewrite E. reflexivity.
  - gateway_unfold. rewrite E. reflexivity.
Qed.

(** C4 (as amended).  A request declaring more input or output bytes than
    the scratch arrays hold leaves them and everything else unchanged and
    never enters the BIOS.  [bbapi_ioctl_mutexed] answers it [-EINVAL];
    through [bbapi_ioctl] the answer is [-EINVAL] unless the access test,
    which runs first, answers [-EACCES]. *)
Theorem oversized_rejected (w : world) (cmd : Z) (d : bbapi_struct) :
  oversized (g_bbapi w) d ->
  (let run := bbapi_ioctl_mutexed after_out d w in
   fst run = - EINVAL /\
   g_bbapi (snd run) = g_bbapi w /\
   user (snd run) = user w /\
   fw (snd run) = fw w /\
   existsb moves_data (steps (bbapi_ioctl_mutexed after_out d) w) = false) /\
  (let run := bbapi_ioctl after_out cmd (Some d) w in
   (nIndexOffset d < 0xB0 -> fst run = - EINVAL) /\
   (fst run = - EACCES <->
    entry (g_bbapi w) <> NULL /\ passes_front cmd d /\ 0xB0 <= nIndexOffset d) /\
   (fst run = - EINVAL \/ fst run = - EACCES) /\
   g_bbapi (snd run) = g_bbapi w /\
   user (snd run) = user w /\
   fw (snd run) = fw w /\
   existsb moves_data (steps (bbapi_ioctl after_out cmd (Some d)) w) = false).
Proof.
  unfold oversized. intros Hbig. split.
  - gateway_unfold. split_run; log_steps.
    all: try (exfalso; lia).
    all: repeat split; auto.
  - gateway_unfold. split_run; log_steps.
    all: try (exfalso; lia).
    all: plain_codes.
    all: repeat split; auto; try lia.
    all: try (intros [? [[? | [? ?]] ?]]; exfalso;
              destruct (is_legacy cmd); simpl in *; try discriminate; lia).
    all: try (destruct (is_legacy cmd); simpl in *; auto; right; lia).
Qed.

(** C5 (as amended).  A nonzero BIOS status [s] comes back as the 32-bit
    two's-complement negation of [s | BIOSAPIERR_OFFSET]: as an
    [unsigned int] from [bbapi_rw], and converted to [int] from
    [bbapi_ioctl], where it is the negative number [-(s | OFFSET)]
    whenever [s | OFFSET] is at most 2^31.  The shadow buffer and the
    entry pointer stay as they were; [bbapi_rw] changes nothing of
    [g_bbapi] at all. *)
Theorem firmware_error_translated :
  (forall (w : world) g o inb n outb m bw,
     entry (g_bbapi w) <> NULL ->
     let s := Int32.wrap (fw_status (fw_entry (fw w) g o inb n outb m)) in
     s <> 0 ->
     let run := bbapi_rw g o inb n outb m bw w in
     fst (fst (fst run)) = Int32.neg (Z.lor s (Int32.wrap BIOSAPIERR_OFFSET)) /\
     g_bbapi (snd run) = g_bbapi w) /\
  (forall (w : world) cmd arg g o s n,
     In (EvFirmware g o s n) (steps (bbapi_ioctl after_out cmd arg) w) ->
     s <> 0 ->
     let run := bbapi_ioctl after_out cmd arg w in
     let code := Z.lor s (Int32.wrap BIOSAPIERR_OFFSET) in
     fst run = Int32.to_int (Int32.neg code) /\
     (code <= 2 ^ 31 -> fst run = - code) /\
     memory (g_bbapi (snd run)) = memory (g_bbapi w) /\
     image (g_bbapi (snd run)) = image (g_bbapi w) /\
     entry (g_bbapi (snd run)) = entry (g_bbapi w)).
Proof.
  split.
  - intros w g o inb n outb m bw He s Hs.
    unfold bbapi_rw, bbapi_call_kernel, emit, bind, ret, get_bbapi.
    unfold is_zero, NULL in *.
    destruct (entry (g_bbapi w) =? 0) eqn:E; [lia |]. simpl.
    fold s. destruct (s =? 0) eqn:Es; [lia |]. simpl. auto.
  - intros w cmd arg g o s n Hin Hs. revert Hin.
    gateway_unfold. destruct arg as [d |]; split_run; log_steps.
    all: intros Hin; pick_event Hin.
    all: injection Hin as <- <- <- <-.
    all: unfold is_zero in *; try (exfalso; lia).
    all: repeat split; auto.
    all: intros Hle; apply to_int_neg.
    all: pose proof (translated_range _ Hs); lia.
Qed.

(** C8 (as amended).  With the bridge initialised, a probe reports the
    feature as supported exactly when the status the BIOS left for the
    zero-length read, in the form the gateway reports it (0, or the
    status with the offset constant OR-ed in), is [BIOSAPI_INVALIDSIZE]
    or [BIOSAPI_INVALIDPARM].  In a build whose offset constant is zero
    that form is the raw status itself. *)
Theorem probe_supported_iff (w : world) (g o : Z) :
  entry (g_bbapi w) <> NULL ->
  let s := Int32.wrap (fw_status (fw_entry (fw w) g o [] 0 [] 0)) in
  (fst (bbapi_supports g o w) = true <->
   gateway_code s = Int32.wrap BIOSAPI_INVALIDSIZE \/
   gateway_code s = Int32.wrap BIOSAPI_INVALIDPARM) /\
  (Int32.wrap BIOSAPIERR_OFFSET = 0 -> gateway_code s = s).
Proof.
  intros He s. split.
  - unfold bbapi_supports, bbapi_read, bbapi_rw, bbapi_call_kernel, emit,
      bind, ret, get_bbapi, gateway_code.
    unfold is_zero, NULL in *.
    destruct (entry (g_bbapi w) =? 0) eqn:E; [lia |]. simpl.
    fold s. destruct (s =? 0) eqn:Es; simpl.
    + assert (Z0 : s = 0) by lia. rewrite Z0.
      change (Int32.neg 0) with 0.
      rewrite orb_true_iff, !Z.eqb_eq. tauto.
    + rewrite neg_involutive.
      * rewrite orb_true_iff, !Z.eqb_eq. tauto.
      * assert (Hs : s <> 0) by lia.
        pose proof (translated_range _ Hs) as R. fold s in R. lia.
  - intros Hoff. unfold gateway_code, is_zero. rewrite Hoff.
    destruct (s =? 0) eqn:Es; [lia | apply Z.lor_0_r].
Qed.


(** The run of a request once the BIOS has left status 0 and count [n]. *)
Lemma zero_status_run (w : world) (cmd : Z) (d : bbapi_struct) (g o n : Z) :
  let run := bbapi_ioctl after_out cmd (Some d) w in
  let l := steps (bbapi_ioctl after_out cmd (Some d)) w in
  let reply :=
    fw_entry (fw w) (nIndexGroup d) (nIndexOffset d)
      (in_ (g_bbapi (snd run))) (nInBufferSize d)
      (out (g_bbapi w)) (nOutBufferSize d) in
  let copied := write_user (user w) (pOutBuffer d)
                  (kernel_read after_out (fw_out reply) n) in
  let ret_ptr := pBytesReturned (effective cmd d) in
  In (EvFirmware g o 0 n) l ->
  g = nIndexGroup d /\ o = nIndexOffset d /\
  Int32.wrap (fw_status reply) = 0 /\ n = Int32.wrap (fw_written reply) /\
  out (g_bbapi (snd run)) = fw_out reply /\
  In (EvCopyToUser (pOutBuffer d) n) l /\
  (snd copied = 0 ->
   fst run = 0 /\ existsb stores_count l = negb (is_zero ret_ptr) /\
   user (snd run) =
     (if is_zero ret_ptr then fst copied else store32 (fst copied) ret_ptr n)) /\
  (snd copied <> 0 ->
   fst run = - EFAULT /\ existsb stores_count l = false /\
   user (snd run) = fst copied).
Proof.
  unfold effective. gateway_unfold. split_run; log_steps.
  all: intros Hin; pick_event Hin.
  all: injection Hin as <- <- Hs <-.
  all: unfold is_zero in *; try (exfalso; lia).
  all: do 5 (split; [solve [auto] |]).
  all: split; [simpl; tauto |].
  all: split; intros Hc; try (exfalso; lia).
  all: repeat split; try reflexivity.
Qed.

(** C10 (as amended).  When the BIOS leaves status 0 and byte count [n],
    the copy to the caller's output buffer is issued for exactly [n]
    bytes, [n] being the count the BIOS reported: neither the declared
    output size nor the capacity of the scratch array enters into it.
    If all [n] bytes of the caller's buffer are writable, the request is
    answered 0 and user memory afterwards is byte for byte: the [n]
    bytes read from the start of the output scratch array (and, past its
    end, from what follows it) at the output buffer; [n] in four
    little-endian bytes at [pBytesReturned], when that pointer is not
    null and its four bytes are writable; everything else as before.
    If some byte of the caller's buffer is not writable, the request is
    answered [-EFAULT], the count is not stored, and memory outside the
    output buffer is as before. *)
Theorem success_copies_written_bytes (w : world) (cmd : Z) (d : bbapi_struct)
    (g o n : Z) :
  let run := bbapi_ioctl after_out cmd (Some d) w in
  let l := steps (bbapi_ioctl after_out cmd (Some d)) w in
  let dst := pOutBuffer d in
  let ret_ptr := pBytesReturned (effective cmd d) in
  let reply :=
    fw_entry (fw w) (nIndexGroup d) (nIndexOffset d)
      (in_ (g_bbapi (snd run))) (nInBufferSize d)
      (out (g_bbapi w)) (nOutBufferSize d) in
  let scratch := out (g_bbapi (snd run)) in
  let stored := negb (is_zero ret_ptr) && accessible (user w) ret_ptr 4 in
  In (EvFirmware g o 0 n) l ->
  (g = nIndexGroup d /\ o = nIndexOffset d /\
   Int32.wrap (fw_status reply) = 0 /\
   n = Int32.wrap (fw_written reply) /\ scratch = fw_out reply) /\
  In (EvCopyToUser dst n) l /\
  (accessible (user w) dst (Z.to_nat n) = true ->
   fst run = 0 /\
   existsb stores_count l = negb (is_zero ret_ptr) /\
   forall a,
     user (snd run) a =
       if stored && within ret_ptr 4 a
       then Some (nth (Z.to_nat (a - ret_ptr)) (le_split 4 n) Byte.x00)
       else if within dst n a
       then Some (nth (Z.to_nat (a - dst)) scratch
                    (after_out (Z.to_nat (a - dst) - length scratch)))
       else user w a) /\
  (accessible (user w) dst (Z.to_nat n) = false ->
   fst run = - EFAULT /\
   existsb stores_count l = false /\
   forall a, within dst n a = false -> user (snd run) a = user w a).
Proof.
  intros run l dst ret_ptr reply scratch stored Hin.
  destruct (zero_status_run w cmd d g o n Hin)
    as (Hg & Ho & Hs & Hn & Hout & Hcopy & Hok & Hfault).
  fold run l dst ret_ptr reply in Hg, Ho, Hs, Hn, Hout, Hcopy, Hok, Hfault.
  fold scratch in Hout.
  set (bytes := kernel_read after_out (fw_out reply) n) in *.
  assert (Rn : 0 <= n < 2 ^ 32) by (rewrite Hn; apply wrap_range).
  assert (Lb : length bytes = Z.to_nat n) by apply kernel_read_length.
  assert (Sb : sizeof bytes = n) by (unfold sizeof; rewrite Lb; lia).
  split; [auto |]. split; [exact Hcopy |]. split.
  - intros Hacc. rewrite <- Lb in Hacc.
    pose proof (proj2 (write_user_status bytes (user w) dst) Hacc) as Hz.
    destruct (Hok Hz) as (Hr & Hput & Hu).
    split; [exact Hr |]. split; [exact Hput |].
    intros a. rewrite Hu. unfold stored.
    assert (Hcopied : fst (write_user (user w) dst bytes) a =
              if within dst n a
              then Some (nth (Z.to_nat (a - dst)) scratch
                           (after_out (Z.to_nat (a - dst) - length scratch)))
              else user w a).
    { rewrite write_user_image by exact Hacc. rewrite Sb.
      destruct (within dst n a) eqn:Ew; [| reflexivity].
      apply within_offset in Ew. destruct Ew as (_ & Hi).
      unfold bytes. rewrite kernel_read_nth by exact Hi.
      rewrite Hout. reflexivity. }
    destruct (is_zero ret_ptr); cbn [negb andb]; [exact Hcopied |].
    rewrite store32_image.
    rewrite (accessible_ext (fst (write_user (user w) dst bytes)) (user w))
      by (intros; apply write_user_keeps_access).
    destruct (accessible (user w) ret_ptr 4 && within ret_ptr 4 a);
      [reflexivity | exact Hcopied].
  - intros Hacc. rewrite <- Lb in Hacc.
    assert (Hnz : snd (write_user (user w) dst bytes) <> 0).
    { intros Hz. apply write_user_status in Hz. congruence. }
    destruct (Hfault Hnz) as (Hr & Hput & Hu).
    split; [exact Hr |]. split; [exact Hput |].
    intros a Ha. rewrite Hu. apply write_user_outside. rewrite Sb.
    apply within_outside; [exact Ha | lia].
Qed.

End GatewayProofs.

(** ** Discovery *)

Lemma memcpy_fromio_length io pos size :
  sizeof (memcpy_fromio io pos size) = Z.max 0 size.
Proof.
  unfold sizeof, memcpy_fromio. rewrite length_map, length_seq. lia.
Qed.

Lemma eight_bytes io p :
  memcpy_fromio io p 8 =
  [io p; io (p + 1); io (p + 2); io (p + 3)] ++
  [io (p + 4); io (p + 4 + 1); io (p + 4 + 2); io (p + 4 + 3)].
Proof.
  unfold memcpy_fromio. simpl.
  rewrite Z.add_0_r.
  replace (p + 4 + 1) with (p + 5) by lia.
  replace (p + 4 + 2) with (p + 6) by lia.
  replace (p + 4 + 3) with (p + 7) by lia.
  reflexivity.
Qed.

(** The word compared by the scan is the little-endian value of the
    eight bytes at the candidate position. *)
Lemma lword_le_combine io p : lword io p = le_combine (memcpy_fromio io p 8).
Proof.
  rewrite eight_bytes, le_combine_app. unfold lword, ioread32.
  rewrite Z.lor_comm. reflexivity.
Qed.

Lemma lword_planted a io p :
  lword io p = BBIOSAPI_SIGNATURE a <-> planted a io p.
Proof.
  unfold planted. rewrite lword_le_combine. split; intros E.
  - rewrite <- E.
    pose proof (split_le_combine (memcpy_fromio io p 8)) as S.
    change (length (memcpy_fromio io p 8)) with 8%nat in S.
    symmetry. exact S.
  - rewrite E, le_combine_split. destruct a; reflexivity.
Qed.

Lemma ioread32_field io p :
  ioread32 io p = le_combine (memcpy_fromio io p 4).
Proof.
  unfold ioread32, memcpy_fromio. simpl. rewrite Z.add_0_r. reflexivity.
Qed.

Lemma ioread32_range io p : 0 <= ioread32 io p < 2 ^ 32.
Proof. unfold ioread32. apply (le_combine_bound [_; _; _; _]). Qed.

Section DiscoveryProofs.
Context `{Headers} `{Kernel}.

Lemma scan_phase_spec a io area fuel : forall pos,
  match scan_phase a io area fuel pos with
  | Some p =>
      exists k, 0 <= k < Z.of_nat fuel /\ p = pos + STEP_SIZE * k /\
                p <= area - STEP_SIZE /\ lword io p = BBIOSAPI_SIGNATURE a /\
                forall j, 0 <= j < k ->
                  lword io (pos + STEP_SIZE * j) <> BBIOSAPI_SIGNATURE a
  | None =>
      forall j, 0 <= j < Z.of_nat fuel ->
        pos + STEP_SIZE * j <= area - STEP_SIZE ->
        lword io (pos + STEP_SIZE * j) <> BBIOSAPI_SIGNATURE a
  end.
Proof.
  unfold STEP_SIZE.
  induction fuel as [| fuel IH]; intros pos; cbn [scan_phase]; unfold STEP_SIZE.
  - intros j Hj. lia.
  - destruct (pos <=? area - 16) eqn:Hle; cbv beta iota.
    + destruct (BBIOSAPI_SIGNATURE a =? lword io pos) eqn:Hm; cbv beta iota.
      * exists 0. repeat split; try lia.
      * specialize (IH (pos + 16)). unfold STEP_SIZE in IH.
        destruct (scan_phase a io area fuel (pos + 16)) as [p |].
        -- destruct IH as (k & Hk & Hp & Hb & Hs & Hfirst).
           exists (k + 1). repeat split; try lia. 
           intros j Hj. destruct (Z.eq_dec j 0) as [-> | Nj].
           ++ rewrite Z.add_0_r. lia.
           ++ replace (pos + 16 * j) with (pos + 16 + 16 * (j - 1)) by lia.
              apply Hfirst. lia.
        -- intros j Hj Hb. destruct (Z.eq_dec j 0) as [-> | Nj].
           ++ rewrite Z.add_0_r. lia.
           ++ replace (pos + 16 * j) with (pos + 16 + 16 * (j - 1)) by lia.
              apply IH; lia.
    + intros j Hj Hb. lia.
Qed.

Lemma scan_phases_spec a io area n : forall off,
  match scan_phases a io area n off with
  | Some p =>
      exists i, 0 <= i < Z.of_nat n /\
        scan_phase a io area (Z.to_nat (area / STEP_SIZE)) (off + i) = Some p /\
        forall i', 0 <= i' < i ->
          scan_phase a io area (Z.to_nat (area / STEP_SIZE)) (off + i') = None
  | None =>
      forall i, 0 <= i < Z.of_nat n ->
        scan_phase a io area (Z.to_nat (area / STEP_SIZE)) (off + i) = None
  end.
Proof.
  induction n as [| n IH]; intros off; simpl scan_phases.
  - intros i Hi. lia.
  - destruct (scan_phase a io area (Z.to_nat (area / STEP_SIZE)) off) as [p |] eqn:E.
    + exists 0. rewrite Z.add_0_r. repeat split; try lia. exact E.
    + specialize (IH (off + 1)).
      destruct (scan_phases a io area n (off + 1)) as [p |].
      * destruct IH as (i & Hi & Hp & Hfirst).
        exists (i + 1). repeat split; try lia.
        -- rewrite <- Hp. f_equal. lia.
        -- intros i' Hi'. destruct (Z.eq_dec i' 0) as [-> | Ni].
           ++ rewrite Z.add_0_r. exact E.
           ++ replace (off + i') with (off + 1 + (i' - 1)) by lia.
              apply Hfirst. lia.
      * intros i Hi. destruct (Z.eq_dec i 0) as [-> | Ni].
        -- rewrite Z.add_0_r. exact E.
        -- replace (off + i) with (off + 1 + (i - 1)) by lia. apply IH. lia.
Qed.

(** A phase that finds nothing has looked at every candidate of its
    residue class: the iteration bound never cuts the loop short. *)
Lemma phase_exhaustive a io area off q :
  0 <= off < STEP_SIZE ->
  scan_phase a io area (Z.to_nat (area / STEP_SIZE)) off = None ->
  0 <= q <= area - STEP_SIZE -> q mod STEP_SIZE = off ->
  lword io q <> BBIOSAPI_SIGNATURE a.
Proof.
  unfold STEP_SIZE. intros Hoff Hnone Hq Hmod.
  pose proof (scan_phase_spec a io area (Z.to_nat (area / STEP_SIZE)) off) as S.
  unfold STEP_SIZE in S. rewrite Hnone in S.
  pose proof (Z.div_mod q 16 ltac:(lia)) as D.
  replace q with (off + 16 * (q / 16)) by lia.
  apply S.
  - assert (0 <= q / 16) by (apply Z.div_pos; lia).
    assert (q / 16 < area / 16).
    { assert (q / 16 <= (area - 16) / 16) by (apply Z.div_le_mono; lia).
      replace (area - 16) with (area + (-1) * 16) in * by lia.
      rewrite Z.div_add in * by lia. lia. }
    lia.
  - lia.
Qed.

Lemma scan_sound a io area pos :
  scan a io area = Some pos ->
  lword io pos = BBIOSAPI_SIGNATURE a /\
  0 <= pos <= area - STEP_SIZE /\
  forall q, 0 <= q <= area - STEP_SIZE ->
    lword io q = BBIOSAPI_SIGNATURE a -> scanned_no_later pos q.
Proof.
  unfold scan. intros E.
  pose proof (scan_phases_spec a io area (Z.to_nat STEP_SIZE) 0) as S.
  rewrite E in S. destruct S as (i & Hi & Hp & Hearlier).
  pose proof (scan_phase_spec a io area (Z.to_nat (area / STEP_SIZE)) (0 + i)) as P.
  rewrite Hp in P. destruct P as (k & Hk & Hpos & Hb & Hs & Hfirst).
  unfold STEP_SIZE in *. simpl in Hi.
  assert (Hmod : pos mod 16 = i).
  { rewrite Hpos. replace (0 + i + 16 * k) with (i + k * 16) by lia.
    rewrite Z.mod_add by lia. apply Z.mod_small. lia. }
  repeat split; try lia.
  intros q Hq Hmatch. unfold scanned_no_later, STEP_SIZE.
  pose proof (Z.mod_pos_bound q 16 ltac:(lia)) as Bq.
  rewrite Hmod.
  destruct (Z.lt_trichotomy (q mod 16) i) as [Lt | [Eq | Gt]].
  - exfalso. specialize (Hearlier (q mod 16) ltac:(lia)).
    rewrite Z.add_0_l in Hearlier.
    apply (phase_exhaustive a io area (q mod 16) q); unfold STEP_SIZE; auto; lia.
  - right. split; [lia |].
    destruct (Z_le_gt_dec pos q) as [L | G]; [exact L | exfalso].
    pose proof (Z.div_mod q 16 ltac:(lia)) as D.
    apply (Hfirst (q / 16)).
    + assert (0 <= q / 16) by (apply Z.div_pos; lia). lia.
    + replace (0 + i + 16 * (q / 16)) with q by lia. exact Hmatch.
  - left. lia.
Qed.


(** C6 (as amended).  When the allocation and the execute permission are
    granted, [bbapi_copy_bios] reads the little-endian 32-bit field at
    [pos + 8], allocates [(field + 4096) mod 2^32] bytes, copies that
    many bytes from [pos] and sets the entry pointer to the buffer's
    address plus the field.  The size is [field + 4096] itself for every
    field up to 0xFFFFEFFF; a field of 0x2000 gives 0x3000 bytes. *)
Theorem shadow_copy_layout (bbapi : bbapi_object) (io : iomem) (pos : Z) :
  let field := ioread32 io (pos + 8) in
  let size := Int32.wrap (field + 4096) in
  let base := vmalloc size in
  base <> NULL ->
  set_memory_x base (Z.shiftr size PAGE_SHIFT) = 0 ->
  field = le_combine (memcpy_fromio io (pos + 8) 4) /\
  bbapi_copy_bios bbapi io pos =
    (0,
     mk_bbapi_object base (memcpy_fromio io pos size) (base + field)
       (in_ bbapi) (out bbapi),
     [KVmalloc size; KSetMemoryX base (Z.shiftr size PAGE_SHIFT);
      KMemcpyFromIo pos size]) /\
  sizeof (memcpy_fromio io pos size) = size /\
  (field <= 0xFFFFEFFF -> size = field + 4096) /\
  (field = 0x2000 -> size = 0x3000).
Proof.
  intros field size base Hbase Hx.
  repeat split.
  - apply ioread32_field.
  - unfold bbapi_copy_bios. fold field. fold size. fold base.
    unfold is_zero, NULL in *.
    destruct (base =? 0) eqn:E; [lia |].
    rewrite Hx. reflexivity.
  - rewrite memcpy_fromio_length.
    pose proof (wrap_range (field + 4096)) as R. fold size in R. lia.
  - intros Hf. pose proof (ioread32_range io (pos + 8)) as R. fold field in R.
    unfold size. apply wrap_small. lia.
  - intros Hf. unfold size. rewrite Hf. reflexivity.
Qed.


End DiscoveryProofs.

(** ** Closed instances *)

(** The scenario of the specification: offset 0xB5 on a ready bridge is
    answered [-EACCES] and the BIOS was entered zero times. *)
Lemma access_denied_at_threshold_witness :
  let F := fixed_firmware 0 [] 0 in
  let run := @bbapi_ioctl sample_headers F sample_after_out 0x5000
               (Some (request 0 0xB5 0x1000 4 0x1800 4 0 0))
               (sample_world F ready_bbapi 0%nat) in
  0xB0 <= 0xB5 /\ fst run = - EACCES /\ fw (snd run) = 0%nat.
Proof.
  intros F run.
  assert (Hoff : 0xB0 <= 0xB5) by (vm_compute; discriminate).
  split; [exact Hoff |].
  destruct (@access_denied_at_threshold sample_headers F sample_after_out
              (sample_world F ready_bbapi 0%nat) 0x5000
              (request 0 0xB5 0x1000 4 0x1800 4 0 0) Hoff)
    as (Hiff & _ & _ & _ & Hfw & _).
  split.
  - apply Hiff. split.
    + vm_compute. discriminate.
    + right. split; reflexivity.
  - exact Hfw.
Defined.

(** C1 fails as stated: with a non-null reserved field, a request at
    offset 0xB5 is answered [-EINVAL], not [-EACCES]. *)
Lemma reserved_field_preempts_access_error :
  let F := fixed_firmware 0 [] 0 in
  let run := @bbapi_ioctl sample_headers F sample_after_out 0x5000
               (Some (request 0 0xB5 0x1000 4 0x1800 4 0 0x1))
               (sample_world F ready_bbapi 0%nat) in
  0xB0 <= 0xB5 /\ fst run = - EINVAL /\ fst run <> - EACCES.
Proof.
  vm_compute. repeat split; intro; discriminate.
Qed.

(** C2 fails as stated: the reserved-field test runs, and rejects, before
    any access test has taken place. *)
Lemma reserved_check_runs_before_access_check :
  let F := fixed_firmware 0 [] 0 in
  let m := @bbapi_ioctl sample_headers F sample_after_out 0x5000
             (Some (request 3 0xFF 0x1000 4 0x1800 4 0 0x7)) in
  let w := sample_world F ready_bbapi 0%nat in
  steps m w =
    [EvCheck ChkInitialized false; EvCheck ChkCommand false;
     EvCopyDescriptor false; EvCheck ChkReserved true] /\
  fst (m w) = - EINVAL.
Proof.
  vm_compute. split; reflexivity.
Qed.

Lemma access_check_position_witness :
  let F := fixed_firmware 0 [] 0 in
  let w := sample_world F ready_bbapi 0%nat in
  let m := @bbapi_ioctl sample_headers F sample_after_out 0x5000
             (Some (request 1 0x10 0x1000 4 0x1800 4 0 0)) in
  existsb moves_data (steps m w) = true /\
  exists post,
    steps m w =
      [EvCheck ChkInitialized false; EvCheck ChkCommand false;
       EvCopyDescriptor false; EvCheck ChkReserved false;
       EvCheck ChkAccess false] ++ post.
Proof.
  intros F w m.
  assert (Hmoves : existsb moves_data (steps m w) = true) by reflexivity.
  split; [exact Hmoves |].
  destruct (@access_check_position sample_headers F sample_after_out w 0x5000
              (Some (request 1 0x10 0x1000 4 0x1800 4 0 0)))
    as (_ & Hafter).
  destruct (Hafter Hmoves) as (post & Hpost & _).
  exists post. exact Hpost.
Defined.

Lemma uninitialized_fails_fast_witness :
  let F := fixed_firmware 0 [] 0 in
  let w := sample_world F unset_bbapi 0%nat in
  entry (g_bbapi w) = NULL /\
  @bbapi_read sample_headers F 0 0x10 [] 0 w = (0x20000001, [], w) /\
  fst (@bbapi_ioctl sample_headers F sample_after_out 0x5000
         (Some (request 0 0x10 0x1000 4 0x1800 4 0 0)) w) = - EINVAL.
Proof.
  intros F w.
  assert (He : entry (g_bbapi w) = NULL) by reflexivity.
  split; [exact He |].
  destruct (@uninitialized_fails_fast sample_headers F sample_after_out w He)
    as (_ & Hread & _ & Hioctl).
  split.
  - exact (Hread 0 0x10 [] 0).
  - exact (proj1 (Hioctl 0x5000 (Some (request 0 0x10 0x1000 4 0x1800 4 0 0)))).
Defined.

(** The scenario of the specification: 5000 input bytes against 4096-byte
    scratch arrays. *)
Lemma oversized_rejected_witness :
  let F := fixed_firmware 0 [] 0 in
  let d := request 0 0x10 0x1000 5000 0x1800 4 0 0 in
  let run := @bbapi_ioctl sample_headers F sample_after_out 0x5000 (Some d)
               (sample_world F ready_bbapi 0%nat) in
  oversized ready_bbapi d /\ fst run = - EINVAL /\ fw (snd run) = 0%nat /\
  g_bbapi (snd run) = ready_bbapi.
Proof.
  intros F d run.
  assert (Hbig : oversized ready_bbapi d) by (left; reflexivity).
  split; [exact Hbig |].
  destruct (@oversized_rejected sample_headers F sample_after_out
              (sample_world F ready_bbapi 0%nat) 0x5000 d Hbig)
    as (_ & Hlow & _ & _ & Hb & _ & Hfw & _).
  split; [| split].
  - apply Hlow. reflexivity.
  - exact Hfw.
  - exact Hb.
Defined.

(** C4 fails as stated: an oversized request at offset 0xB5 is answered
    [-EACCES], because the access test comes first. *)
Lemma access_error_preempts_size_error :
  let F := fixed_firmware 0 [] 0 in
  let d := request 0 0xB5 0x1000 5000 0x1800 4 0 0 in
  let run := @bbapi_ioctl sample_headers F sample_after_out 0x5000 (Some d)
               (sample_world F ready_bbapi 0%nat) in
  oversized ready_bbapi d /\ fst run = - EACCES /\ fst run <> - EINVAL.
Proof.
  split; [left; reflexivity |].
  vm_compute. split; [reflexivity | intro; discriminate].
Qed.

(** The scenario of the specification: status 0x02. *)
Lemma firmware_error_translated_witness :
  let F := fixed_firmware 0x02 [] 0 in
  let w := sample_world F ready_bbapi 0%nat in
  fst (fst (fst (@bbapi_rw sample_headers F 1 0x10 [] 0 [] 0 0 w)))
    = Int32.neg (Z.lor 0x02 0x20000000) /\
  fst (@bbapi_ioctl sample_headers F sample_after_out 0x5000
         (Some (request 1 0x10 0x1000 4 0x1800 4 0 0)) w)
    = - Z.lor 0x02 0x20000000.
Proof.
  intros F w.
  destruct (@firmware_error_translated sample_headers F sample_after_out)
    as (Hin & Hex).
  split.
  - refine (proj1 (Hin w 1 0x10 [] 0 [] 0 0 _ _)).
    + vm_compute. discriminate.
    + vm_compute. discriminate.
  - refine (proj1 (proj2 (Hex w 0x5000
              (Some (request 1 0x10 0x1000 4 0x1800 4 0 0)) 1 0x10 0x02 0 _ _)) _).
    + vm_compute. do 9 right. left. reflexivity.
    + discriminate.
    + vm_compute. discriminate.
Defined.

(** C5 fails as stated: a status with the top bit set comes back to the
    ioctl caller as a positive number, and the failed request has
    replaced the front of the input scratch array by the staged payload. *)
Lemma high_status_returns_positive :
  let F := fixed_firmware 0xFFFFFFFE [] 0 in
  let w := sample_world F ready_bbapi 0%nat in
  let run := @bbapi_ioctl sample_headers F sample_after_out 0x5000
               (Some (request 1 0x10 0x1000 4 0x1800 4 0 0)) w in
  fst run = 2 /\
  fst run <> - Z.lor 0xFFFFFFFE 0x20000000 /\
  firstn 4 (in_ (g_bbapi w)) = [Byte.x00; Byte.x00; Byte.x00; Byte.x00] /\
  firstn 4 (in_ (g_bbapi (snd run))) = [Byte.x41; Byte.x41; Byte.x41; Byte.x41].
Proof.
  vm_compute. repeat split; intro; discriminate.
Qed.

Lemma probe_supported_iff_witness :
  let F := fixed_firmware 0x02 [] 0 in
  let w := sample_world F ready_bbapi 0%nat in
  entry (g_bbapi w) <> NULL /\
  fst (@bbapi_supports sample_headers F 9 0x60 w) = true.
Proof.
  intros F w.
  assert (He : entry (g_bbapi w) <> NULL) by (vm_compute; discriminate).
  split; [exact He |].
  apply (proj1 (@probe_supported_iff sample_headers F w 9 0x60 He)).
  left. reflexivity.
Defined.

(** C8 fails as stated: the BIOS answers the probe with status 0x03,
    which is neither [BIOSAPI_INVALIDSIZE] nor [BIOSAPI_INVALIDPARM], and
    the probe reports the feature as supported. *)
Lemma unlisted_status_reports_supported :
  let F := fixed_firmware 0x03 [] 0 in
  let w := sample_world F ready_bbapi 0%nat in
  let s := Int32.wrap (fw_status (fw_entry (fw w) 9 0x60 [] 0 [] 0)) in
  s = 0x03 /\
  s <> @BIOSAPI_INVALIDSIZE sample_headers /\
  s <> @BIOSAPI_INVALIDPARM sample_headers /\
  fst (@bbapi_supports sample_headers F 9 0x60 w) = true.
Proof.
  vm_compute. repeat split; intro; discriminate.
Qed.


(** The BIOS reports 32 bytes for a request that declared 8, on 16-byte
    scratch arrays: 32 bytes reach the caller's buffer, 16 from the
    scratch array and 16 from what follows it in kernel memory, the byte
    after them is untouched, and 32 is stored in four little-endian
    bytes at [pBytesReturned]. *)
Lemma success_copies_written_bytes_witness :
  let F := fixed_firmware 0 (repeat Byte.x55 16) 32 in
  let w := sample_world F small_bbapi 0%nat in
  let m := @bbapi_ioctl sample_headers F sample_after_out 0x5000
             (Some (request 1 0x10 0x1000 4 0x1800 8 0x1900 0)) in
  let u := user (snd (m w)) in
  In (EvFirmware 1 0x10 0 32) (steps m w) /\
  accessible (user w) 0x1800 (Z.to_nat 32) = true /\
  fst (m w) = 0 /\
  u 0x1800 = Some Byte.x55 /\ u 0x180F = Some Byte.x55 /\
  u 0x1810 = Some Byte.xaa /\ u 0x181F = Some Byte.xaa /\
  u 0x1820 = Some Byte.x41 /\
  u 0x1900 = Some Byte.x20 /\ u 0x1901 = Some Byte.x00 /\
  u 0x1902 = Some Byte.x00 /\ u 0x1903 = Some Byte.x00 /\
  u 0x1904 = Some Byte.x41.
Proof.
  intros F w m u.
  assert (Hin : In (EvFirmware 1 0x10 0 32) (steps m w))
    by (vm_compute; do 9 right; left; reflexivity).
  assert (Hacc : accessible (user w) 0x1800 (Z.to_nat 32) = true)
    by (vm_compute; reflexivity).
  split; [exact Hin |]. split; [exact Hacc |].
  destruct (@success_copies_written_bytes sample_headers F sample_after_out
              w 0x5000 (request 1 0x10 0x1000 4 0x1800 8 0x1900 0)
              1 0x10 32 Hin) as (_ & _ & Hok & _).
  destruct (Hok Hacc) as (Hz & _ & Hmem).
  split; [exact Hz |].
  repeat split; unfold u; (etransitivity; [apply Hmem | reflexivity]).
Defined.

(** C10 fails as stated: the BIOS leaves status 0 and byte count 4 and
    [pBytesReturned] is not null.  With an output buffer whose last two
    bytes are not writable, two bytes are copied, not four, and the count
    is not stored; with a count pointer that is not writable, the four
    bytes are copied and the request is answered 0, yet no count is
    stored. *)
Lemma zero_status_without_write_back :
  let F := fixed_firmware 0 [Byte.x01; Byte.x02; Byte.x03; Byte.x04] 4 in
  let w := sample_world F ready_bbapi 0%nat in
  let short := @bbapi_ioctl sample_headers F sample_after_out 0x5000
                 (Some (request 1 0x10 0x1000 4 0x1FFE 4 0x1900 0)) in
  let lost := @bbapi_ioctl sample_headers F sample_after_out 0x5000
                (Some (request 1 0x10 0x1000 4 0x1800 4 0x3000 0)) in
  (In (EvFirmware 1 0x10 0 4) (steps short w) /\
   fst (short w) = - EFAULT /\
   user (snd (short w)) 0x1FFE = Some Byte.x01 /\
   user (snd (short w)) 0x1FFF = Some Byte.x02 /\
   user (snd (short w)) 0x2000 = None /\
   user (snd (short w)) 0x1900 = Some Byte.x41 /\
   existsb stores_count (steps short w) = false) /\
  (In (EvFirmware 1 0x10 0 4) (steps lost w) /\
   fst (lost w) = 0 /\
   user (snd (lost w)) 0x1800 = Some Byte.x01 /\
   user (snd (lost w)) 0x1803 = Some Byte.x04 /\
   user (snd (lost w)) 0x3000 = None).
Proof.
  vm_compute. repeat split; do 9 right; left; reflexivity.
Qed.

(** The scenario of the specification: a length field of 0x2000. *)
Lemma shadow_copy_layout_witness :
  let io := window_of (marker_bytes x86_64 0 0x2000) in
  let K := sample_kernel io in
  let r := @bbapi_copy_bios K unset_bbapi io 0 in
  fst (fst r) = 0 /\
  snd r = [KVmalloc 0x3000; KSetMemoryX 0x100000 3; KMemcpyFromIo 0 0x3000] /\
  sizeof (image (snd (fst r))) = 0x3000 /\
  entry (snd (fst r)) = 0x100000 + 0x2000.
Proof.
  intros io K r.
  destruct (@shadow_copy_layout K unset_bbapi io 0)
    as (_ & Hrun & Hlen & _ & _).
  - vm_compute. discriminate.
  - reflexivity.
  - unfold r. rewrite Hrun. cbn [fst snd image entry].
    split; [reflexivity |]. split; [reflexivity |].
    split; [exact Hlen | reflexivity].
Defined.

(** C6 fails as stated: for a length field of 0xFFFFFFFF the request is
    for 4095 bytes, not for the field plus 4096, and the entry pointer
    lies far beyond the buffer. *)
Lemma length_field_wraps :
  let io := window_of (marker_bytes x86_64 0 0xFFFFFFFF) in
  let K := sample_kernel io in
  let r := @bbapi_copy_bios K unset_bbapi io 0 in
  ioread32 io 8 = 0xFFFFFFFF /\
  fst (fst r) = 0 /\
  snd r = [KVmalloc 4095; KSetMemoryX 0x100000 0; KMemcpyFromIo 0 4095] /\
  4095 <> 0xFFFFFFFF + 4096 /\
  entry (snd (fst r)) = 0x100000 + 0xFFFFFFFF.
Proof.
  vm_compute. repeat split; intro; discriminate.
Qed.



(** * Further properties of the gateway *)

Lemma read_user_length u : forall n src, (length (read_user u src n) <= n)%nat.
Proof.
  induction n as [| n IH]; intros src; simpl; [lia |].
  destruct (u src); simpl; [specialize (IH (src + 1)); lia | lia].
Qed.

(** What [copy_from_user] leaves in the destination range has the
    declared size, and is the payload itself when nothing faulted. *)
Lemma staged_length u src n :
  let got := read_user u src (Z.to_nat n) in
  length (got ++ repeat Byte.x00 (Z.to_nat (Z.of_nat (Z.to_nat n) - sizeof got)))
  = Z.to_nat n.
Proof.
  intros got. pose proof (read_user_length u (Z.to_nat n) src) as L.
  fold got in L. rewrite length_app, repeat_length. unfold sizeof. lia.
Qed.

Lemma staged_all u src n :
  let got := read_user u src (Z.to_nat n) in
  Z.of_nat (Z.to_nat n) - sizeof got = 0 ->
  got ++ repeat Byte.x00 (Z.to_nat (Z.of_nat (Z.to_nat n) - sizeof got)) = got.
Proof. intros got E. rewrite E. simpl. apply app_nil_r. Qed.

Lemma overwrite_length dst src :
  (length src <= length dst)%nat -> length (overwrite dst src) = length dst.
Proof.
  intros L. unfold overwrite. rewrite length_app, length_skipn. lia.
Qed.

(** Turns the outcomes of the tests met on a path into propositions. *)
Ltac tests_to_prop :=
  repeat match goal with
  | H : negb _ = true |- _ => apply negb_true_iff in H
  | H : negb _ = false |- _ => apply negb_false_iff in H
  | H : (_ =? _) = true |- _ => apply Z.eqb_eq in H
  | H : (_ =? _) = false |- _ => apply Z.eqb_neq in H
  | H : (_ >? _) = true |- _ => rewrite Z.gtb_ltb in H; apply Z.ltb_lt in H
  | H : (_ >? _) = false |- _ => rewrite Z.gtb_ltb in H; apply Z.ltb_ge in H
  | H : (_ >=? _) = true |- _ => rewrite Z.geb_leb in H; apply Z.leb_le in H
  | H : (_ >=? _) = false |- _ => rewrite Z.geb_leb in H; apply Z.leb_gt in H
  end.

(** Splits on the command and discards the branches a validated request
    cannot take. *)
Ltac run_validated Hfront :=
  gateway_unfold;
  match goal with
  | |- context [is_legacy ?c] => destruct (is_legacy c) eqn:?
  end;
  [| destruct Hfront as [Hfront | [? Hfront]]; [discriminate Hfront |] ];
  split_run; log_steps;
  unfold is_zero, NULL, sizeof in *; tests_to_prop; try (exfalso; lia).

Section GatewayExtras.
Context `{Headers} `{Firmware}.
Variable after_out : nat -> byte.

(** X1.  Under the full-size command a non-null reserved field is always
    answered [-EINVAL], whatever the other fields and the state of the
    bridge; nothing is staged, the BIOS is not entered. *)
Theorem reserved_field_rejected (w : world) (cmd : Z) (d : bbapi_struct) :
  is_legacy cmd = false ->
  pMode d <> NULL ->
  let run := bbapi_ioctl after_out cmd (Some d) w in
  fst run = - EINVAL /\
  g_bbapi (snd run) = g_bbapi w /\
  user (snd run) = user w /\
  fw (snd run) = fw w /\
  existsb moves_data (steps (bbapi_ioctl after_out cmd (Some d)) w) = false.
Proof.
  intros Hleg Hmode. gateway_unfold. rewrite Hleg. split_run; log_steps.
  all: unfold is_zero, NULL in *; try (exfalso; lia).
  all: repeat split; reflexivity.
Qed.

(** X2.  Under the legacy command only the six fields of the short form
    count: two descriptors that agree on them are treated alike, and no
    byte count is ever stored through [pBytesReturned]. *)
Theorem legacy_ignores_trailing_fields (w : world) (cmd : Z)
    (d d' : bbapi_struct) :
  is_legacy cmd = true ->
  same_short_form d d' ->
  bbapi_ioctl after_out cmd (Some d) w = bbapi_ioctl after_out cmd (Some d') w /\
  existsb stores_count (steps (bbapi_ioctl after_out cmd (Some d)) w) = false.
Proof.
  intros Hleg (E1 & E2 & E3 & E4 & E5 & E6). split.
  - unfold bbapi_ioctl, copy_descriptor, bind, ret, emit, check, get_bbapi.
    rewrite Hleg, E1, E2, E3, E4, E5, E6. reflexivity.
  - gateway_unfold. rewrite Hleg. split_run; log_steps.
    all: try reflexivity.
    all: unfold is_zero, NULL in *; exfalso; lia.
Qed.

(** X3.  A command that is neither BBAPI command is answered [-EINVAL]
    before the descriptor is read, and so is an unreadable descriptor
    under any command; in both cases nothing changes. *)
Theorem malformed_call_rejected (w : world) (cmd : Z) :
  (is_legacy cmd = false -> cmd <> BBAPI_CMD ->
   forall arg,
     let run := bbapi_ioctl after_out cmd arg w in
     fst run = - EINVAL /\
     existsb reads_descriptor (steps (bbapi_ioctl after_out cmd arg) w) = false /\
     g_bbapi (snd run) = g_bbapi w /\ user (snd run) = user w /\
     fw (snd run) = fw w) /\
  (let run := bbapi_ioctl after_out cmd None w in
   fst run = - EINVAL /\
   existsb moves_data (steps (bbapi_ioctl after_out cmd None) w) = false /\
   g_bbapi (snd run) = g_bbapi w /\ user (snd run) = user w /\
   fw (snd run) = fw w).
Proof.
  split.
  - intros Hleg Hcmd arg. gateway_unfold. rewrite Hleg.
    destruct arg as [d |]; split_run; log_steps.
    all: try (exfalso; lia).
    all: repeat split; reflexivity.
  - gateway_unfold. split_run; log_steps.
    all: repeat split; reflexivity.
Qed.

(** X4.  The mutex brackets all work on the scratch arrays: a call
    either takes no lock and moves no data, or takes the lock once,
    releases it as its very last step on every exit path, and stages,
    enters the BIOS and copies back only in between. *)
Theorem ioctl_lock_discipline (w : world) (cmd : Z) (arg : option bbapi_struct) :
  let l := steps (bbapi_ioctl after_out cmd arg) w in
  (existsb touches_lock l = false /\ existsb moves_data l = false) \/
  (exists pre mid,
     l = pre ++ EvMutexLock :: mid ++ [EvMutexUnlock] /\
     existsb touches_lock pre = false /\
     existsb moves_data pre = false /\
     existsb touches_lock mid = false).
Proof.
  gateway_unfold. destruct arg as [d |]; split_run; log_steps.
  all: first
    [ left; split; reflexivity
    | right;
      match goal with
      | |- exists pre mid, ?l = _ /\ _ =>
          exists (firstn 5 l), (removelast (skipn 6 l))
      end; simpl; repeat split; reflexivity ].
Qed.

(** X5.  No call changes the shadow buffer, the entry pointer or the
    capacity of the input scratch array: a bridge that is READY stays
    READY, whatever the request and however it ends. *)
Theorem ioctl_preserves_lifecycle (w : world) (cmd : Z)
    (arg : option bbapi_struct) :
  let b := g_bbapi w in
  let b' := g_bbapi (snd (bbapi_ioctl after_out cmd arg w)) in
  memory b' = memory b /\ image b' = image b /\ entry b' = entry b /\
  length (in_ b') = length (in_ b).
Proof.
  gateway_unfold. destruct arg as [d |]; split_run.
  all: repeat split; try reflexivity.
  all: apply overwrite_length; rewrite staged_length; unfold sizeof in *; lia.
Qed.

(** X6.  A validated request whose input is readable enters the BIOS
    exactly once, for its own group and offset, on the input scratch
    array overlaid with the caller's bytes; the rest of that array is
    left as it was. *)
Theorem valid_request_enters_firmware (w : world) (cmd : Z) (d : bbapi_struct) :
  validated w cmd d ->
  input_readable w d ->
  let run := bbapi_ioctl after_out cmd (Some d) w in
  let l := steps (bbapi_ioctl after_out cmd (Some d)) w in
  let r := gateway_reply w d in
  filter enters_firmware l =
    [EvFirmware (nIndexGroup d) (nIndexOffset d)
       (Int32.wrap (fw_status r)) (Int32.wrap (fw_written r))] /\
  fw (snd run) = fw_next r /\
  out (g_bbapi (snd run)) = fw_out r /\
  in_ (g_bbapi (snd run)) = payload w d ++ skipn (length (payload w d)) (in_ (g_bbapi w)).
Proof.
  unfold validated, input_readable, gateway_reply, payload, passes_front.
  intros (He & Hfront & Hoff & Hin & Hout) Hread.
  run_validated Hfront.
  all: rewrite ?staged_all by (unfold sizeof; lia).
  all: repeat split; reflexivity.
Qed.

(** X7.  A validated request whose input range is not fully readable is
    answered [-EFAULT]: the BIOS is not entered, user memory and the
    output scratch array are unchanged, and the lock is released. *)
Theorem input_fault_rejected (w : world) (cmd : Z) (d : bbapi_struct) :
  validated w cmd d ->
  ~ input_readable w d ->
  let run := bbapi_ioctl after_out cmd (Some d) w in
  let l := steps (bbapi_ioctl after_out cmd (Some d)) w in
  fst run = - EFAULT /\
  existsb enters_firmware l = false /\
  fw (snd run) = fw w /\
  user (snd run) = user w /\
  out (g_bbapi (snd run)) = out (g_bbapi w) /\
  last l EvMutexLock = EvMutexUnlock.
Proof.
  unfold validated, input_readable, payload, passes_front.
  intros (He & Hfront & Hoff & Hin & Hout) Hread.
  run_validated Hfront.
  all: repeat split; reflexivity.
Qed.

(** X8.  When the BIOS succeeds but the copy to the caller's output
    buffer faults, the request is answered [-EFAULT] and the byte count
    is not stored through [pBytesReturned]. *)
Theorem output_fault_rejected (w : world) (cmd : Z) (d : bbapi_struct) :
  validated w cmd d ->
  input_readable w d ->
  let r := gateway_reply w d in
  Int32.wrap (fw_status r) = 0 ->
  snd (write_user (user w) (pOutBuffer d)
         (kernel_read after_out (fw_out r) (Int32.wrap (fw_written r)))) <> 0 ->
  let run := bbapi_ioctl after_out cmd (Some d) w in
  let l := steps (bbapi_ioctl after_out cmd (Some d)) w in
  fst run = - EFAULT /\
  existsb stores_count l = false /\
  last l EvMutexLock = EvMutexUnlock.
Proof.
  unfold validated, input_readable, gateway_reply, payload, passes_front.
  cbv zeta. intros (He & Hfront & Hoff & Hin & Hout) Hread.
  run_validated Hfront.
  all: rewrite ?staged_all in * by (unfold sizeof; lia).
  all: intros Hs Hcopy; try (exfalso; lia).
  all: repeat split; reflexivity.
Qed.

(** X9.  The answer to a request, the bridge and the BIOS state after it
    do not depend on [pBytesReturned]: a store of the byte count that
    faults is not reported, and the request still succeeds. *)
Theorem result_independent_of_bytes_returned (w : world) (cmd : Z)
    (d : bbapi_struct) (p : Z) :
  let run := bbapi_ioctl after_out cmd (Some d) w in
  let run' := bbapi_ioctl after_out cmd (Some (with_bytes_returned d p)) w in
  fst run = fst run' /\
  g_bbapi (snd run) = g_bbapi (snd run') /\
  fw (snd run) = fw (snd run').
Proof.
  unfold with_bytes_returned. gateway_unfold. split_run.
  all: repeat split; reflexivity.
Qed.

(** X10.  Every answer of [bbapi_ioctl] is 0, [-EINVAL], [-EACCES],
    [-EFAULT] or the translation of a nonzero BIOS status, and such a
    translation is never 0. *)
Theorem ioctl_results (w : world) (cmd : Z) (arg : option bbapi_struct) :
  let r := fst (bbapi_ioctl after_out cmd arg w) in
  r = 0 \/ r = - EINVAL \/ r = - EACCES \/ r = - EFAULT \/
  (exists s, 0 < s < 2 ^ 32 /\ r <> 0 /\
     r = Int32.to_int (Int32.neg (Z.lor s (Int32.wrap BIOSAPIERR_OFFSET)))).
Proof.
  gateway_unfold. destruct arg as [d |]; split_run.
  all: try (left; reflexivity).
  all: try (right; left; reflexivity).
  all: try (right; right; left; reflexivity).
  all: try (right; right; right; left; reflexivity).
  all: right; right; right; right.
  all: unfold is_zero in *; tests_to_prop.
  all: match goal with
       | E : Int32.wrap ?z <> 0 |- _ =>
           exists (Int32.wrap z); pose proof (wrap_range z);
           pose proof (translated_range z E)
       end.
  all: repeat split; try lia.
  all: apply to_int_neg_nonzero; assumption.
Qed.

(** X11.  On an initialised bridge [bbapi_rw] enters the BIOS exactly
    once under the lock, for any group, offset and sizes: no test
    guards the internal path.  It hands back the output buffer and byte
    count the BIOS left, returns 0 exactly when the BIOS status is 0,
    and touches neither the bridge object nor user memory. *)
Theorem rw_enters_firmware_once (w : world) (g o : Z) (inb : list byte) (n : Z)
    (outb : list byte) (m bw : Z) :
  entry (g_bbapi w) <> NULL ->
  let r := fw_entry (fw w) g o inb n outb m in
  let s := Int32.wrap (fw_status r) in
  let run := bbapi_rw g o inb n outb m bw w in
  steps (bbapi_rw g o inb n outb m bw) w =
    [EvMutexLock; EvFirmware g o s (Int32.wrap (fw_written r)); EvMutexUnlock] /\
  snd (fst (fst run)) = fw_out r /\
  snd (fst run) = Int32.wrap (fw_written r) /\
  (fst (fst (fst run)) = 0 <-> s = 0) /\
  g_bbapi (snd run) = g_bbapi w /\
  user (snd run) = user w /\
  fw (snd run) = fw_next r.
Proof.
  intros He r s.
  unfold steps, bbapi_rw, bbapi_call_kernel, emit, bind, ret, get_bbapi.
  unfold is_zero, NULL in *.
  destruct (entry (g_bbapi w) =? 0) eqn:E; [lia |]. simpl.
  fold r. fold s.
  destruct (s =? 0) eqn:Es; simpl; log_steps; tests_to_prop.
  - repeat split; try reflexivity; auto.
  - repeat split; try reflexivity.
    + intros Z0. exfalso.
      pose proof (translated_range (fw_status r) Es) as R. fold s in R.
      rewrite neg_pos in Z0 by lia. lia.
    + intros Z0. contradiction.
Qed.

(** X12.  A probe on an initialised bridge is one zero-length call to
    the BIOS that leaves the bridge object and user memory alone; when
    that call succeeds (status 0) the feature is reported absent,
    provided neither of the two status constants is 0. *)
Theorem probe_effects (w : world) (g o : Z) :
  entry (g_bbapi w) <> NULL ->
  let r := fw_entry (fw w) g o [] 0 [] 0 in
  let run := bbapi_supports g o w in
  steps (bbapi_supports g o) w =
    [EvMutexLock;
     EvFirmware g o (Int32.wrap (fw_status r)) (Int32.wrap (fw_written r));
     EvMutexUnlock] /\
  g_bbapi (snd run) = g_bbapi w /\
  user (snd run) = user w /\
  fw (snd run) = fw_next r /\
  (Int32.wrap (fw_status r) = 0 ->
   Int32.wrap BIOSAPI_INVALIDSIZE <> 0 ->
   Int32.wrap BIOSAPI_INVALIDPARM <> 0 ->
   fst run = false).
Proof.
  intros He r.
  unfold steps, bbapi_supports, bbapi_read, bbapi_rw, bbapi_call_kernel, emit,
    bind, ret, get_bbapi.
  unfold is_zero, NULL in *.
  destruct (entry (g_bbapi w) =? 0) eqn:E; [lia |]. simpl.
  fold r.
  destruct (Int32.wrap (fw_status r) =? 0) eqn:Es; simpl; log_steps;
    tests_to_prop.
  - repeat split; try reflexivity.
    intros _ Hs Hp. rewrite Es. change (Int32.neg 0) with 0.
    apply orb_false_iff. split; apply Z.eqb_neq; lia.
  - repeat split; try reflexivity. intros Z0. contradiction.
Qed.

End GatewayExtras.

(** * Further properties of discovery *)

Lemma firstn_seq_min n : forall start len,
  firstn n (seq start len) = seq start (Nat.min n len).
Proof.
  induction n as [| n IH]; intros start [| len]; simpl; try reflexivity.
  rewrite IH. reflexivity.
Qed.

Lemma seq_offset k : forall len start,
  seq (start + k) len = map (fun i => (i + k)%nat) (seq start len).
Proof.
  induction len as [| len IH]; intros start; simpl; [reflexivity |].
  f_equal. apply (IH (S start)).
Qed.

Lemma memcpy_fromio_firstn io pos size k :
  0 <= k <= size ->
  firstn (Z.to_nat k) (memcpy_fromio io pos size) = memcpy_fromio io pos k.
Proof.
  intros Hk. unfold memcpy_fromio.
  rewrite firstn_map, firstn_seq_min. f_equal. f_equal. lia.
Qed.

Lemma memcpy_fromio_skipn io pos size k :
  0 <= k <= size ->
  skipn (Z.to_nat k) (memcpy_fromio io pos size)
  = memcpy_fromio io (pos + k) (size - k).
Proof.
  intros Hk. unfold memcpy_fromio.
  rewrite skipn_map, skipn_seq, seq_offset, map_map.
  replace (Z.to_nat size - Z.to_nat k)%nat with (Z.to_nat (size - k)) by lia.
  apply map_ext. intros i. f_equal. lia.
Qed.

Lemma lword_agree area io io' pos :
  agree_within area io io' -> 0 <= pos <= area - STEP_SIZE ->
  lword io pos = lword io' pos.
Proof.
  unfold agree_within, STEP_SIZE, lword, ioread32. intros A Hpos.
  rewrite !(A pos), !(A (pos + 1)), !(A (pos + 2)), !(A (pos + 3)),
    !(A (pos + 4)), !(A (pos + 4 + 1)), !(A (pos + 4 + 2)),
    !(A (pos + 4 + 3)) by lia.
  reflexivity.
Qed.

Lemma scan_phase_agree a area io io' :
  agree_within area io io' ->
  forall fuel pos, 0 <= pos ->
    scan_phase a io area fuel pos = scan_phase a io' area fuel pos.
Proof.
  intros A. induction fuel as [| fuel IH]; intros pos Hpos; simpl; [reflexivity |].
  destruct (pos <=? area - STEP_SIZE) eqn:E; [| reflexivity].
  rewrite (lword_agree area io io' pos A) by lia.
  rewrite IH by (unfold STEP_SIZE; lia). reflexivity.
Qed.

Lemma scan_phases_agree a area io io' :
  agree_within area io io' ->
  forall n off, 0 <= off ->
    scan_phases a io area n off = scan_phases a io' area n off.
Proof.
  intros A. induction n as [| n IH]; intros off Hoff; simpl; [reflexivity |].
  rewrite (scan_phase_agree a area io io' A) by lia.
  rewrite IH by lia. reflexivity.
Qed.

Section DiscoveryExtras.
Context `{Headers} `{Kernel}.

(** X13.  The scan reads no byte outside the window: two windows that
    agree on their first [area] bytes give the same scan result. *)
Theorem scan_reads_inside_window (a : arch) (area : Z) (io io' : iomem) :
  agree_within area io io' ->
  scan a io area = scan a io' area.
Proof.
  intros A. unfold scan. apply scan_phases_agree; [exact A | lia].
Qed.

(** X14.  Windows that cannot be searched: a search area above the
    configured maximum is refused with [-EFAULT] before anything is
    mapped; a failed mapping gives [-ENOMEM] and nothing to unmap; and a
    mapped window shorter than 16 bytes never yields a match, whatever it
    contains.  The bridge object is returned as it was in all three
    cases. *)
Theorem unsearchable_windows (a : arch) (bbapi : bbapi_object) (area : Z) :
  (area > BBIOSAPI_SIGNATURE_SEARCH_AREA ->
   bbapi_find_bios a bbapi area = (- EFAULT, bbapi, [])) /\
  (area <= BBIOSAPI_SIGNATURE_SEARCH_AREA -> ioremap area = None ->
   bbapi_find_bios a bbapi area = (- ENOMEM, bbapi, [KIoremap area])) /\
  (area <= BBIOSAPI_SIGNATURE_SEARCH_AREA -> area < STEP_SIZE ->
   forall io, ioremap area = Some io ->
   bbapi_find_bios a bbapi area = (- EFAULT, bbapi, [KIoremap area; KIounmap])).
Proof.
  unfold bbapi_find_bios. repeat split.
  - intros Hbig.
    destruct (area >? BBIOSAPI_SIGNATURE_SEARCH_AREA) eqn:E; [reflexivity | lia].
  - intros Hok Hmap.
    destruct (area >? BBIOSAPI_SIGNATURE_SEARCH_AREA) eqn:E; [lia |].
    rewrite Hmap. reflexivity.
  - intros Hok Hsmall io Hmap.
    destruct (area >? BBIOSAPI_SIGNATURE_SEARCH_AREA) eqn:E; [lia |].
    rewrite Hmap.
    destruct (scan a io area) as [pos |] eqn:Es; [exfalso | reflexivity].
    destruct (scan_sound a io area pos Es) as (_ & Hb & _). lia.
Qed.

(** X15.  Whatever the outcome, a window that was mapped is unmapped
    exactly once, as the last step, and nothing is mapped twice. *)
Theorem mapping_released (a : arch) (bbapi : bbapi_object) (area : Z)
    (io : iomem) :
  area <= BBIOSAPI_SIGNATURE_SEARCH_AREA ->
  ioremap area = Some io ->
  exists mid,
    snd (bbapi_find_bios a bbapi area) = KIoremap area :: mid ++ [KIounmap] /\
    existsb maps_or_unmaps mid = false.
Proof.
  intros Hok Hmap. unfold bbapi_find_bios.
  destruct (area >? BBIOSAPI_SIGNATURE_SEARCH_AREA) eqn:E; [lia |].
  rewrite Hmap.
  destruct (scan a io area) as [pos |].
  - unfold bbapi_copy_bios.
    destruct (is_zero (vmalloc _)); [| destruct (negb (is_zero (set_memory_x _ _)))];
      simpl;
      match goal with
      | |- exists mid, ?l = _ /\ _ => exists (removelast (tl l))
      end; split; reflexivity.
  - exists []. split; reflexivity.
Qed.

(** X16.  Discovery answers 0, [-EFAULT] or [-ENOMEM].  When it fails,
    the entry pointer and the scratch arrays are as before, nothing was
    copied out of the window, and a buffer whose execute permission was
    refused has been freed. *)
Theorem failed_discovery_publishes_nothing (a : arch) (bbapi : bbapi_object)
    (area : Z) :
  let r := bbapi_find_bios a bbapi area in
  (fst (fst r) = 0 \/ fst (fst r) = - EFAULT \/ fst (fst r) = - ENOMEM) /\
  (fst (fst r) <> 0 ->
   entry (snd (fst r)) = entry bbapi /\
   in_ (snd (fst r)) = in_ bbapi /\
   out (snd (fst r)) = out bbapi /\
   existsb copies_image (snd r) = false /\
   forall m pages, In (KSetMemoryX m pages) (snd r) -> In (KVfree m) (snd r)).
Proof.
  unfold bbapi_find_bios.
  destruct (area >? BBIOSAPI_SIGNATURE_SEARCH_AREA).
  { simpl. split; [auto |]. intros _. repeat split. intros m p []. }
  destruct (ioremap area) as [io |].
  2: { simpl. split; [auto |]. intros _. repeat split.
       intros m p [E | []]. discriminate E. }
  destruct (scan a io area) as [pos |].
  2: { simpl. split; [auto |]. intros _. repeat split.
       intros m p [E | [E | []]]; discriminate E. }
  unfold bbapi_copy_bios.
  destruct (is_zero (vmalloc _)).
  { simpl. split; [auto |]. intros _. repeat split.
    intros m p [E | [E | [E | []]]]; discriminate E. }
  destruct (negb (is_zero (set_memory_x _ _))).
  { simpl. split; [auto |]. intros _. repeat split.
    intros m p [E | [E | [E | [E | [E | []]]]]]; try discriminate E.
    injection E as <- _. auto 6. }
  simpl. split; [auto |]. intros N. contradiction.
Qed.

(** X17.  When discovery succeeds, the scan found a position [pos] in
    the mapped window, the bridge owns a non-null buffer holding a
    verbatim copy of the window from [pos] on, and the entry pointer is
    the buffer's address plus the length field.  For a field up to
    0xFFFFEFFF the entry pointer lies inside the buffer, exactly 4096
    bytes before its end, the copy starts with the eight signature
    bytes, and the four bytes after them encode the distance from the
    buffer's start to the entry pointer. *)
Theorem successful_discovery_publishes_image (a : arch) (bbapi : bbapi_object)
    (area : Z) :
  let r := bbapi_find_bios a bbapi area in
  let b := snd (fst r) in
  fst (fst r) = 0 ->
  exists io pos,
    ioremap area = Some io /\ scan a io area = Some pos /\
    let field := ioread32 io (pos + 8) in
    memory b <> NULL /\
    entry b = memory b + field /\
    image b = memcpy_fromio io pos (Int32.wrap (field + 4096)) /\
    (field <= 0xFFFFEFFF ->
     memory b <= entry b < memory b + sizeof (image b) /\
     entry b + 4096 = memory b + sizeof (image b) /\
     firstn 8 (image b) = le_split 8 (BBIOSAPI_SIGNATURE a) /\
     le_combine (firstn 4 (skipn 8 (image b))) = entry b - memory b).
Proof.
  unfold bbapi_find_bios.
  destruct (area >? BBIOSAPI_SIGNATURE_SEARCH_AREA); [discriminate |].
  destruct (ioremap area) as [io |]; [| discriminate].
  destruct (scan a io area) as [pos |] eqn:Es; [| discriminate].
  unfold bbapi_copy_bios.
  set (field := ioread32 io (pos + 8)).
  set (size := Int32.wrap (field + 4096)).
  destruct (is_zero (vmalloc size)) eqn:Em; [discriminate |].
  destruct (negb (is_zero (set_memory_x _ _))); [discriminate |].
  cbn [fst snd memory entry image]. intros _. exists io, pos.
  split; [reflexivity |]. split; [exact Es |].
  unfold is_zero, NULL in *. tests_to_prop.
  split; [exact Em |]. split; [reflexivity |]. split; [reflexivity |].
  intros Hf.
  pose proof (ioread32_range io (pos + 8)) as R. fold field in R.
  assert (Hsize : size = field + 4096) by (apply wrap_small; lia).
  rewrite memcpy_fromio_length, Hsize.
  destruct (scan_sound a io area pos Es) as (Hs & _ & _).
  apply lword_planted in Hs. unfold planted in Hs.
  repeat split; try lia.
  - change 8%nat with (Z.to_nat 8).
    rewrite memcpy_fromio_firstn by lia. exact Hs.
  - change 8%nat with (Z.to_nat 8). change 4%nat with (Z.to_nat 4).
    rewrite memcpy_fromio_skipn by lia.
    rewrite memcpy_fromio_firstn by lia.
    rewrite <- ioread32_field. fold field. lia.
Qed.

End DiscoveryExtras.

(** * In-kernel callers and the test helpers *)

(** ** Runs of the internal path *)

(** The value [bbapi_rw] returns for BIOS status [s]. *)
Lemma rw_run `{Headers} `{Firmware} (w : world) g o inb n outb m bw :
  entry (g_bbapi w) <> NULL ->
  let r := fw_entry (fw w) g o inb n outb m in
  let s := Int32.wrap (fw_status r) in
  bbapi_rw g o inb n outb m bw w =
    ((if negb (is_zero s)
      then Int32.neg (Z.lor s (Int32.wrap BIOSAPIERR_OFFSET)) else s,
      fw_out r, Int32.wrap (fw_written r)),
     mk_world _ (g_bbapi w) (user w) (fw_next r)
       (log w ++ [EvMutexLock;
                  EvFirmware g o s (Int32.wrap (fw_written r));
                  EvMutexUnlock])).
Proof.
  intros He r s.
  unfold bbapi_rw, bbapi_call_kernel, emit, bind, ret, get_bbapi.
  unfold is_zero at 1. unfold NULL in He.
  destruct (entry (g_bbapi w) =? 0) eqn:E; [apply Z.eqb_eq in E; contradiction |].
  simpl. fold r. fold s. repeat rewrite <- app_assoc. simpl.
  destruct (negb (is_zero s)); reflexivity.
Qed.

Lemma rw_unset `{Headers} `{Firmware} (w : world) g o inb n outb m bw :
  entry (g_bbapi w) = NULL ->
  bbapi_rw g o inb n outb m bw w = (Int32.wrap BIOSAPI_SRVNOTSUPP, outb, bw, w).
Proof.
  intros E. unfold bbapi_rw, bind, get_bbapi, ret. rewrite E. reflexivity.
Qed.

Lemma internal_ret `{Firmware} {A} (a : A) : internal (ret a).
Proof. intros w. split; reflexivity. Qed.

Lemma internal_bind `{Firmware} {A B} (m : M A) (k : A -> M B) :
  internal m -> (forall a, internal (k a)) -> internal (bind m k).
Proof.
  intros Hm Hk w. unfold bind. destruct (m w) as [a w'] eqn:E.
  destruct (Hm w) as (G & U). rewrite E in G, U. simpl in G, U.
  destruct (Hk a w') as (G' & U'). split; congruence.
Qed.

Lemma internal_rw `{Headers} `{Firmware} g o inb n outb m bw :
  internal (bbapi_rw g o inb n outb m bw).
Proof.
  intros w. destruct (Z.eq_dec (entry (g_bbapi w)) NULL) as [E | N].
  - rewrite rw_unset by exact E. split; reflexivity.
  - rewrite rw_run by exact N. split; reflexivity.
Qed.

Lemma internal_read `{Headers} `{Firmware} g o outb n :
  internal (bbapi_read g o outb n).
Proof.
  apply internal_bind; [apply internal_rw | intros; apply internal_ret].
Qed.

Lemma internal_write `{Headers} `{Firmware} g o inb n :
  internal (bbapi_write g o inb n).
Proof.
  apply internal_bind; [apply internal_rw | intros; apply internal_ret].
Qed.

Lemma internal_supports `{Headers} `{Firmware} g o :
  internal (bbapi_supports g o).
Proof.
  apply internal_bind; [apply internal_read | intros; apply internal_ret].
Qed.

Lemma supports_value `{Headers} `{Firmware} (w : world) g o :
  entry (g_bbapi w) <> NULL ->
  fst (bbapi_supports g o w) = supported (fw w) g o.
Proof.
  intros He. unfold bbapi_supports, bbapi_read, bind, ret.
  rewrite rw_run by exact He. reflexivity.
Qed.

(** ** [strncmp] *)

Lemma strncmp_zero_iff n : forall s1 s2,
  strncmp s1 s2 n = 0 <-> c_string n s1 = c_string n s2.
Proof.
  induction n as [| n IH]; intros s1 s2; [simpl; tauto |].
  destruct s1 as [| c1 t1]; destruct s2 as [| c2 t2];
    cbn [strncmp c_string hd tl];
    change (byte.unsigned Byte.x00) with 0.
  - simpl. tauto.
  - destruct (0 =? byte.unsigned c2) eqn:E;
      destruct (byte.unsigned c2 =? 0) eqn:E2; tests_to_prop;
      try lia; simpl; split; intros Q; try reflexivity; try discriminate; lia.
  - destruct (byte.unsigned c1 =? 0) eqn:E; tests_to_prop;
      simpl; split; intros Q; try reflexivity; try discriminate; lia.
  - destruct (byte.unsigned c1 =? byte.unsigned c2) eqn:E; tests_to_prop.
    + apply byte.unsigned_inj in E. subst c2.
      destruct (byte.unsigned c1 =? 0); [tauto |].
      rewrite IH. split; [intros ->; reflexivity | intros Q; injection Q; auto].
    + destruct (byte.unsigned c1 =? 0) eqn:E1;
        destruct (byte.unsigned c2 =? 0) eqn:E2; tests_to_prop;
        split; intros Q; try discriminate; try lia.
      injection Q as Q _. subst. lia.
Qed.

Lemma c_string_zeros n k : c_string n (repeat Byte.x00 k) = [].
Proof. destruct n; destruct k; reflexivity. Qed.

Section CallerProofs.
Context `{Headers} `{DevDef} `{Host} `{Firmware}.

(** X18.  [bbapi_board_is] answers true exactly when the board buffer
    and the given name agree as C strings over the buffer's size.  It
    does not look at the result of the read: on a bridge without entry
    point the buffer is still all zero, so the answer is true exactly for
    a name with no character, and the BIOS is not entered; otherwise the
    buffer is what one zero-input call for the board name left in it. *)
Theorem board_is_compares_c_strings (w : world) (boardname : list byte) :
  let n := CXPWRSUPP_MAX_DISPLAY_LINE in
  let zeros := repeat Byte.x00 n in
  let size := Int32.wrap (sizeof zeros - 1) in
  let run := bbapi_board_is boardname w in
  (entry (g_bbapi w) = NULL ->
   (fst run = true <-> c_string n boardname = []) /\ snd run = w) /\
  (entry (g_bbapi w) <> NULL ->
   let r := fw_entry (fw w) BIOSIGRP_GENERAL BIOSIOFFS_GENERAL_GETBOARDNAME
              [] 0 zeros size in
   (fst run = true <-> c_string n (fw_out r) = c_string n boardname) /\
   fw (snd run) = fw_next r /\
   g_bbapi (snd run) = g_bbapi w).
Proof.
  intros n zeros size. unfold bbapi_board_is, bbapi_read, bind, ret.
  fold n. fold zeros. fold size. split.
  - intros E. rewrite rw_unset by exact E. cbn [fst snd].
    split; [| reflexivity].
    rewrite Z.eqb_eq. split.
    + intros Q. symmetry in Q. apply strncmp_zero_iff in Q.
      unfold zeros in Q. rewrite c_string_zeros in Q. auto.
    + intros Q. symmetry. apply strncmp_zero_iff.
      unfold zeros. rewrite c_string_zeros. auto.
  - intros N. rewrite rw_run by exact N. cbn [fst snd fw g_bbapi].
    repeat split.
    + rewrite Z.eqb_eq. intros Q. symmetry in Q.
      apply strncmp_zero_iff in Q. exact Q.
    + rewrite Z.eqb_eq. intros Q. symmetry. apply strncmp_zero_iff. exact Q.
Qed.

End CallerProofs.

Section UnitTestProofs.
Context `{Headers} `{Firmware}.
Variable after_out : nat -> byte.

(** X19.  [ioctl_read] as the unit test uses it, for an offset below the
    threshold and a size the output scratch array holds, on a ready
    bridge whose driver knows the test's command number: its request
    stages nothing and reaches the BIOS.  A BIOS failure makes it return
    -1 only when the translated status is at most 4095; any larger
    translated status is passed through by the system call and the helper
    returns 0.  After a BIOS success it returns -1 exactly when the copy
    to [out] faults. *)
Theorem ioctl_read_outcome (w : world) (group offset outp size : Z) :
  is_legacy UNITTEST_BBAPI_CMD = true \/ UNITTEST_BBAPI_CMD = BBAPI_CMD ->
  entry (g_bbapi w) <> NULL ->
  offset < 0xB0 ->
  size <= sizeof (out (g_bbapi w)) ->
  let b := g_bbapi w in
  let r := fw_entry (fw w) group offset (in_ b) 0 (out b) size in
  let s := Int32.wrap (fw_status r) in
  let code := Z.lor s (Int32.wrap BIOSAPIERR_OFFSET) in
  let run := ioctl_read after_out group offset outp size w in
  in_ (g_bbapi (snd run)) = in_ b /\
  fw (snd run) = fw_next r /\
  (s <> 0 -> (fst run = -1 <-> code <= 4095) /\ (4095 < code -> fst run = 0)) /\
  (s = 0 ->
   (fst run = -1 <->
    snd (write_user (user w) outp
           (kernel_read after_out (fw_out r) (Int32.wrap (fw_written r)))) <> 0) /\
   (fst run = 0 \/ fst run = -1)).
Proof.
  intros Hcmd He Hoff Hsize b r s code. subst b r s code.
  unfold ioctl_read.
  unfold bind at 1.
  remember UNITTEST_BBAPI_CMD as c eqn:Hc. clear Hc.
  assert (Hfront : passes_front c
                     (mk_bbapi_struct group offset NULL 0 outp size NULL NULL)).
  { destruct Hcmd as [L | C]; [left; exact L | right; split; [exact C | reflexivity]]. }
  unfold passes_front in Hfront. clear Hcmd.
  run_validated Hfront.
  all: cbn [fst snd g_bbapi in_ fw].
  all: unfold overwrite in *; cbn [app length skipn] in *.
  all: repeat split; try reflexivity; try (intros; exfalso; lia).
  all: unfold ret, ioctl_syscall, EFAULT in *; cbn [fst snd] in *.
  all: try match goal with
       | E : Int32.wrap ?z <> 0 |- _ =>
           pose proof (translated_range z E);
           pose proof (neg_pos _ (translated_range z E))
       end.
  all: unfold Int32.to_int, Int32.modulus in *.
  all: repeat match goal with
       | |- context [if ?c then _ else _] => destruct c eqn:?
       | H : context [if ?c then _ else _] |- _ => destruct c eqn:?
       end.
  all: cbn [fst snd] in *; tests_to_prop.
  all: repeat match goal with
       | H : _ && _ = true |- _ => apply andb_true_iff in H; destruct H
       | H : _ && _ = false |- _ => apply andb_false_iff in H
       | H : (_ <=? _) = true |- _ => apply Z.leb_le in H
       | H : (_ <=? _) = false |- _ => apply Z.leb_gt in H
       | H : (_ <? _) = true |- _ => apply Z.ltb_lt in H
       | H : (_ <? _) = false |- _ => apply Z.ltb_ge in H
       end.
  all: try lia.
  all: try (intros; lia).
  all: try (intros; intuition lia).
  all: auto.
Qed.

(** X20.  [ioctl_write] passes a null output buffer of size 0.  When the
    BIOS succeeds, the helper therefore returns 0 only if the BIOS
    reported no output bytes: any other byte count makes the driver's
    copy to the null address fault, and the helper returns -1. *)
Theorem ioctl_write_outcome (w : world) (group offset inp size : Z) :
  is_legacy UNITTEST_BBAPI_CMD = true \/ UNITTEST_BBAPI_CMD = BBAPI_CMD ->
  entry (g_bbapi w) <> NULL ->
  offset < 0xB0 ->
  size <= sizeof (in_ (g_bbapi w)) ->
  length (read_user (user w) inp (Z.to_nat size)) = Z.to_nat size ->
  user w NULL = None ->
  let b := g_bbapi w in
  let staged := overwrite (in_ b) (read_user (user w) inp (Z.to_nat size)) in
  let r := fw_entry (fw w) group offset staged size (out b) 0 in
  Int32.wrap (fw_status r) = 0 ->
  fst (ioctl_write after_out group offset inp size w)
  = (if Int32.wrap (fw_written r) =? 0 then 0 else -1).
Proof.
  intros Hcmd He Hoff Hsize Hread Hnull b staged r. subst b staged r.
  assert (Hcopy : forall o n, 0 <= n ->
            snd (write_user (user w) NULL (kernel_read after_out o n))
            = if n =? 0 then 0 else Z.of_nat (Z.to_nat n)).
  { intros o n Hn. unfold kernel_read.
    destruct (n =? 0) eqn:E; tests_to_prop.
    - subst n. reflexivity.
    - destruct (Z.to_nat n) as [| k] eqn:Ek; [lia |].
      cbn [seq map write_user]. rewrite Hnull.
      unfold sizeof. cbn [length]. rewrite length_map, length_seq. reflexivity. }
  unfold ioctl_write. unfold bind at 1.
  remember UNITTEST_BBAPI_CMD as c eqn:Hc. clear Hc.
  assert (Hfront : passes_front c
                     (mk_bbapi_struct group offset inp size NULL 0 NULL NULL)).
  { destruct Hcmd as [L | C]; [left; exact L | right; split; [exact C | reflexivity]]. }
  unfold passes_front in Hfront. clear Hcmd.
  run_validated Hfront.
  all: rewrite ?staged_all in * by (unfold sizeof; lia).
  all: intros Hs; try (exfalso; lia).
  all: match goal with
       | H : context [write_user _ 0 (kernel_read _ ?o (Int32.wrap ?n))] |- _ =>
           pose proof (wrap_range n);
           rewrite (Hcopy o (Int32.wrap n)) in H by lia
       end.
  all: unfold ret, ioctl_syscall, EFAULT; cbn [fst snd].
  all: repeat match goal with
       | |- context [if ?c then _ else _] => destruct c eqn:?
       | H : context [if ?c then _ else _] |- _ => destruct c eqn:?
       end; tests_to_prop.
  all: try reflexivity; exfalso; lia.
Qed.

End UnitTestProofs.

(** ** The display banner and the BIOS handshake *)

Lemma snprintf_line_length n before a b : length (snprintf_line n before a b) = n.
Proof.
  destruct n as [| k]; [reflexivity |].
  unfold snprintf_line, snprintf. cbn [fst].
  set (text := firstn k (printed a ++ Byte.x20 :: printed b)).
  assert (L : (length text <= k)%nat) by apply firstn_le_length.
  rewrite length_app. cbn [length]. rewrite length_map, length_seq. lia.
Qed.

Lemma c_string_cut k : forall (s rest : list byte),
  c_string (S k) (firstn k s ++ Byte.x00 :: rest) = c_string k s.
Proof.
  induction k as [| k IH]; intros s rest.
  - reflexivity.
  - destruct s as [| c t]; [reflexivity |].
    change (firstn (S k) (c :: t)) with (c :: firstn k t).
    change ((c :: firstn k t) ++ Byte.x00 :: rest)
      with (c :: (firstn k t ++ Byte.x00 :: rest)).
    change (c_string (S (S k)) (c :: (firstn k t ++ Byte.x00 :: rest)))
      with (if byte.unsigned c =? 0 then []
            else c :: c_string (S k) (firstn k t ++ Byte.x00 :: rest)).
    change (c_string (S k) (c :: t))
      with (if byte.unsigned c =? 0 then [] else c :: c_string k t).
    rewrite IH. reflexivity.
Qed.

Lemma c_string_no_nul k : forall (s : list byte),
  Forall (fun c => byte.unsigned c <> 0) s -> c_string k s = firstn k s.
Proof.
  induction k as [| k IH]; intros s Hs; [reflexivity |].
  destruct Hs as [| c t Hc Ht]; [reflexivity |].
  cbn [c_string firstn]. apply Z.eqb_neq in Hc. rewrite Hc, IH by exact Ht.
  reflexivity.
Qed.

Lemma c_string_chars k : forall (s : list byte),
  Forall (fun c => byte.unsigned c <> 0) (c_string k s).
Proof.
  induction k as [| k IH]; intros s; [constructor |].
  destruct s as [| c t]; [constructor |].
  cbn [c_string]. destruct (byte.unsigned c =? 0) eqn:E; [constructor |].
  constructor; [apply Z.eqb_neq; exact E | apply IH].
Qed.

Lemma write_run `{Headers} `{Firmware} (w : world) g o inb n :
  entry (g_bbapi w) <> NULL ->
  let r := fw_entry (fw w) g o inb n [] 0 in
  snd (bbapi_write g o inb n w) =
    mk_world _ (g_bbapi w) (user w) (fw_next r)
      (log w ++ [EvMutexLock;
                 EvFirmware g o (Int32.wrap (fw_status r))
                   (Int32.wrap (fw_written r));
                 EvMutexUnlock]).
Proof.
  intros He r. unfold bbapi_write, bind, ret.
  rewrite rw_run by exact He. reflexivity.
Qed.

Lemma read_run `{Headers} `{Firmware} (w : world) g o outb n :
  entry (g_bbapi w) <> NULL ->
  let r := fw_entry (fw w) g o [] 0 outb n in
  snd (fst (bbapi_read g o outb n w)) = fw_out r /\
  snd (bbapi_read g o outb n w) =
    mk_world _ (g_bbapi w) (user w) (fw_next r)
      (log w ++ [EvMutexLock;
                 EvFirmware g o (Int32.wrap (fw_status r))
                   (Int32.wrap (fw_written r));
                 EvMutexUnlock]).
Proof.
  intros He r. unfold bbapi_read, bind, ret.
  rewrite rw_run by exact He. split; reflexivity.
Qed.

Lemma write_unset `{Headers} `{Firmware} (w : world) g o inb n :
  entry (g_bbapi w) = NULL -> snd (bbapi_write g o inb n w) = w.
Proof.
  intros E. unfold bbapi_write, bind, ret. rewrite rw_unset by exact E.
  reflexivity.
Qed.

Lemma read_unset `{Headers} `{Firmware} (w : world) g o outb n :
  entry (g_bbapi w) = NULL -> snd (bbapi_read g o outb n w) = w.
Proof.
  intros E. unfold bbapi_read, bind, ret. rewrite rw_unset by exact E.
  reflexivity.
Qed.

Lemma bind_run `{Firmware} {A B} (m : M A) (k : A -> M B) (w : world) :
  bind m k w = k (fst (m w)) (snd (m w)).
Proof. unfold bind. destruct (m w). reflexivity. Qed.

Lemma init_bios_steps `{Headers} `{DevDef} `{Host} `{Firmware} (w : world) :
  entry (g_bbapi w) <> NULL ->
  exists s n,
    steps bbapi_init_bios w = [EvMutexLock; EvFirmware 0 0xFE s n; EvMutexUnlock].
Proof.
  intros He. unfold steps, bbapi_init_bios. rewrite bind_run.
  rewrite write_run by exact He. cbn [ret snd log].
  rewrite skipn_length_app. eauto.
Qed.

Lemma exit_bios_steps `{Headers} `{DevDef} `{Host} `{Firmware} (w : world) :
  entry (g_bbapi w) <> NULL ->
  exists s n,
    steps bbapi_exit_bios w = [EvMutexLock; EvFirmware 0 0xFF s n; EvMutexUnlock].
Proof.
  intros He. unfold steps, bbapi_exit_bios. rewrite bind_run.
  rewrite write_run by exact He. cbn [ret snd log].
  rewrite skipn_length_app. eauto.
Qed.

Section HandshakeProofs.
Context `{Headers} `{DevDef} `{Host} `{Firmware}.

(** X21.  The banner [update_display] builds always fills the whole
    line buffer and is NUL-terminated: read as a C string it is the text
    "UNAME_S UTS_RELEASE" cut to one character less than the buffer.  On an initialised
    bridge the function enters the BIOS four times, whatever the BIOS
    answers: line 2 gets the banner, the board name is read into the
    same buffer, line 1 gets what that read left in the buffer, and the
    backlight is switched on.  On a bridge without entry point nothing
    happens. *)
Theorem update_display_sequence (w : world) :
  let n := CXPWRSUPP_MAX_DISPLAY_LINE in
  let size := Z.of_nat n in
  let line := snprintf_line n stack_bytes UNAME_S UTS_RELEASE in
  let run := update_display w in
  length line = n /\
  c_string n line =
    firstn (n - 1) (printed UNAME_S ++ Byte.x20 :: printed UTS_RELEASE) /\
  (entry (g_bbapi w) = NULL -> snd run = w) /\
  (entry (g_bbapi w) <> NULL ->
   let r1 := fw_entry (fw w) BIOSIGRP_CXPWRSUPP
               BIOSIOFFS_CXPWRSUPP_DISPLAYLINE2 line size [] 0 in
   let r2 := fw_entry (fw_next r1) BIOSIGRP_GENERAL
               BIOSIOFFS_GENERAL_GETBOARDNAME [] 0 line size in
   let r3 := fw_entry (fw_next r2) BIOSIGRP_CXPWRSUPP
               BIOSIOFFS_CXPWRSUPP_DISPLAYLINE1 (fw_out r2) size [] 0 in
   let r4 := fw_entry (fw_next r3) BIOSIGRP_CXPWRSUPP
               BIOSIOFFS_CXPWRSUPP_ENABLEBACKLIGHT [Byte.xff] 1 [] 0 in
   fw (snd run) = fw_next r4 /\
   bios_calls (map MGateway (steps update_display w)) =
     [(BIOSIGRP_CXPWRSUPP, BIOSIOFFS_CXPWRSUPP_DISPLAYLINE2);
      (BIOSIGRP_GENERAL, BIOSIOFFS_GENERAL_GETBOARDNAME);
      (BIOSIGRP_CXPWRSUPP, BIOSIOFFS_CXPWRSUPP_DISPLAYLINE1);
      (BIOSIGRP_CXPWRSUPP, BIOSIOFFS_CXPWRSUPP_ENABLEBACKLIGHT)] /\
   filter touches_lock (steps update_display w) =
     [EvMutexLock; EvMutexUnlock; EvMutexLock; EvMutexUnlock;
      EvMutexLock; EvMutexUnlock; EvMutexLock; EvMutexUnlock] /\
   g_bbapi (snd run) = g_bbapi w /\ user (snd run) = user w).
Proof.
  intros n size line run.
  split; [apply snprintf_line_length |]. split.
  { unfold line, snprintf_line, snprintf. cbn [fst].
    destruct n as [| k]; [reflexivity |].
    rewrite c_string_cut. cbn [Nat.sub]. rewrite Nat.sub_0_r.
    apply c_string_no_nul. apply Forall_app. split; [apply c_string_chars |].
    constructor; [discriminate | apply c_string_chars]. }
  split.
  - intros E. unfold run, update_display. fold n size line.
    rewrite !bind_run.
    rewrite (write_unset w) by exact E.
    rewrite (read_unset w) by exact E.
    rewrite (write_unset w) by exact E.
    rewrite (write_unset w) by exact E.
    reflexivity.
  - intros He r1 r2 r3 r4.
    unfold steps, run, update_display. fold n size line.
    rewrite !bind_run.
    rewrite (write_run w) by exact He. fold r1.
    set (w1 := mk_world _ _ _ (fw_next r1) _).
    destruct (read_run w1 BIOSIGRP_GENERAL BIOSIOFFS_GENERAL_GETBOARDNAME
                line size He) as (Ho & Hw).
    rewrite Ho, Hw. cbn [fw g_bbapi user log w1]. fold r2.
    set (w2 := mk_world _ _ _ (fw_next r2) _).
    rewrite (write_run w2) by exact He. cbn [fw g_bbapi user log w2]. fold r3.
    set (w3 := mk_world _ _ _ (fw_next r3) _).
    rewrite (write_run w3) by exact He. cbn [fw g_bbapi user log w3]. fold r4.
    cbn [ret snd fw g_bbapi user log].
    rewrite <- !app_assoc, skipn_length_app.
    repeat split.
Qed.

(** X22.  The two handshake calls of module init and exit go to group 0,
    offsets 0xFE and 0xFF, once each and under the lock; the first
    carries the table of OS operations, the second no data.  The status
    the BIOS answers is dropped: [bbapi_init_bios] returns 0 whatever
    happens, also on a bridge without entry point, where neither call
    reaches the BIOS. *)
Theorem bios_handshake (w : world) :
  fst (bbapi_init_bios w) = 0 /\
  (entry (g_bbapi w) = NULL ->
   snd (bbapi_init_bios w) = w /\ snd (bbapi_exit_bios w) = w) /\
  (entry (g_bbapi w) <> NULL ->
   let ri := fw_entry (fw w) 0 0xFE extOsOps (sizeof extOsOps) [] 0 in
   let re := fw_entry (fw w) 0 0xFF [] 0 [] 0 in
   steps bbapi_init_bios w =
     [EvMutexLock;
      EvFirmware 0 0xFE (Int32.wrap (fw_status ri)) (Int32.wrap (fw_written ri));
      EvMutexUnlock] /\
   fw (snd (bbapi_init_bios w)) = fw_next ri /\
   steps bbapi_exit_bios w =
     [EvMutexLock;
      EvFirmware 0 0xFF (Int32.wrap (fw_status re)) (Int32.wrap (fw_written re));
      EvMutexUnlock] /\
   fw (snd (bbapi_exit_bios w)) = fw_next re).
Proof.
  split; [| split].
  - unfold bbapi_init_bios. rewrite bind_run. reflexivity.
  - intros E. unfold bbapi_init_bios, bbapi_exit_bios. rewrite !bind_run.
    rewrite !write_unset by exact E. split; reflexivity.
  - intros He ri re. unfold steps, bbapi_init_bios, bbapi_exit_bios.
    rewrite !bind_run. rewrite !write_run by exact He.
    cbn [ret snd fw log]. rewrite !skipn_length_app. repeat split.
Qed.

End HandshakeProofs.

(** ** [BiosString] of the unit test *)

Lemma strncpy_length n : forall s, length (strncpy s n) = n.
Proof.
  induction n as [| k IH]; intros s; [reflexivity |].
  destruct s as [| c t]; cbn [strncpy].
  - apply repeat_length.
  - destruct (byte.unsigned c =? 0); [apply repeat_length |].
    cbn [length]. rewrite IH. reflexivity.
Qed.

Lemma c_string_strncpy n : forall s, c_string n (strncpy s n) = c_string n s.
Proof.
  induction n as [| k IH]; intros s; [reflexivity |].
  destruct s as [| c t]; cbn [strncpy]; [reflexivity |].
  destruct (byte.unsigned c =? 0) eqn:E.
  - cbn [repeat c_string]. rewrite E. reflexivity.
  - cbn [c_string]. rewrite E, IH. reflexivity.
Qed.

Lemma strncpy_c_string n : forall s,
  strncpy s n = c_string n s ++ repeat Byte.x00 (n - length (c_string n s)).
Proof.
  induction n as [| k IH]; intros s; [reflexivity |].
  destruct s as [| c t]; cbn [strncpy c_string]; [reflexivity |].
  destruct (byte.unsigned c =? 0); [reflexivity |].
  rewrite IH at 1. reflexivity.
Qed.

Lemma memcmp_zero_iff n : forall x y,
  length x = n -> length y = n -> (memcmp x y n = 0 <-> x = y).
Proof.
  induction n as [| k IH]; intros x y Hx Hy.
  - destruct x; [| discriminate]. destruct y; [| discriminate].
    split; reflexivity.
  - destruct x as [| a x]; [discriminate |].
    destruct y as [| b y]; [discriminate |].
    cbn [memcmp hd tl]. injection Hx as Hx. injection Hy as Hy.
    destruct (byte.unsigned a =? byte.unsigned b) eqn:E.
    + apply Z.eqb_eq, byte.unsigned_inj in E. subst b.
      rewrite (IH x y Hx Hy). split; congruence.
    + apply Z.eqb_neq in E. split.
      * intros D. exfalso. lia.
      * intros D. injection D as -> _. contradiction.
Qed.

Section BiosStringProofs.
Variable N : nat.

(** X23.  A [BiosString<N>] built from a text holds exactly [N] bytes;
    printed back it gives the text cut to [N] characters, and the value
    [snprintf] returns is that text's length.  Two of them compare equal
    exactly when their texts agree on the first [N] characters, and one
    built from no text equals one built from the empty text. *)
Theorem biosstring_round_trip (a b : list byte) (len : nat)
    (before : nat -> byte) :
  let x := BiosString N (Some a) in
  let y := BiosString N (Some b) in
  let out := BiosString_snprintf N x len before in
  length x = N /\
  snd out = Z.of_nat (length (c_string N a)) /\
  c_string len (fst out) = firstn (len - 1) (c_string N a) /\
  (BiosString_eq N x y = true <-> c_string N a = c_string N b) /\
  BiosString N None = BiosString N (Some []).
Proof.
  intros x y out. unfold out, BiosString_snprintf, snprintf, x, y, BiosString.
  cbn [fst snd]. rewrite c_string_strncpy.
  split; [apply strncpy_length |]. split; [reflexivity |]. split; [| split].
  - destruct len as [| k]; [reflexivity |].
    rewrite c_string_cut. cbn [Nat.sub]. rewrite Nat.sub_0_r.
    apply c_string_no_nul, c_string_chars.
  - unfold BiosString_eq. rewrite Z.eqb_eq.
    split.
    + intros E. symmetry in E.
      apply (memcmp_zero_iff N) in E; try apply strncpy_length.
      rewrite <- (c_string_strncpy N a), <- (c_string_strncpy N b), E.
      reflexivity.
    + intros E. symmetry.
      apply (memcmp_zero_iff N); try apply strncpy_length.
      rewrite (strncpy_c_string N a), (strncpy_c_string N b), E. reflexivity.
  - destruct N; reflexivity.
Qed.

End BiosStringProofs.

(** * Module init and exit *)

Lemma host_steps_app t t' : host_steps (t ++ t') = host_steps t ++ host_steps t'.
Proof. apply filter_app. Qed.

Lemma host_steps_gateway l : host_steps (map MGateway l) = [].
Proof. induction l; simpl; auto. Qed.

Lemma host_steps_discovery l : host_steps (map MDiscovery l) = map MDiscovery l.
Proof. induction l; simpl; [reflexivity | f_equal; assumption]. Qed.

Lemma count_app p t t' : (count p (t ++ t') = count p t + count p t')%nat.
Proof. unfold count. rewrite filter_app, length_app. reflexivity. Qed.

Lemma count_discovery p l :
  (forall k, p (MDiscovery k) = false) -> count p (map MDiscovery l) = 0%nat.
Proof.
  intros Hp. unfold count. induction l; simpl; [reflexivity |].
  rewrite Hp. assumption.
Qed.

Lemma stable_supported `{Headers} `{Firmware} (s s' : fw_state) g o :
  probe_stable -> supported s g o = supported s' g o.
Proof. intros St. unfold supported, probe_status. rewrite (St s s'). reflexivity. Qed.

Section LifecycleProofs.
Context `{Headers} `{DevDef} `{Host} `{Kernel} `{Firmware}.

Lemma ibind_run {A B} (m : I A) (k : A -> I B) (st : machine) :
  ibind m k st = k (fst (m st)) (snd (m st)).
Proof. unfold ibind. destruct (m st). reflexivity. Qed.

Lemma yields_bind {A B} (m : I A) (k : A -> I B) st v t b v' t' b' :
  yields m st v t b ->
  (g_bbapi (mw (snd (m st))) = b -> yields (k v) (snd (m st)) v' t' b') ->
  yields (ibind m k) st v' (t ++ t') b'.
Proof.
  intros (V & T & B0) Y. destruct (Y B0) as (V' & T' & B').
  unfold yields. rewrite ibind_run, V.
  repeat split; [exact V' | | exact B'].
  rewrite T', T, app_assoc. reflexivity.
Qed.

Lemma outcome_bind {A B} (m : I A) (k : A -> I B) st v hs b v' hs' b' :
  outcome m st v hs b ->
  (g_bbapi (mw (snd (m st))) = b -> outcome (k v) (snd (m st)) v' hs' b') ->
  outcome (ibind m k) st v' (hs ++ hs') b'.
Proof.
  intros (t & Y & Ht) O.
  destruct (O (proj2 (proj2 Y))) as (t' & Y' & Ht').
  exists (t ++ t'). split.
  - apply (yields_bind m k st v t b v' t' b' Y). intros _. exact Y'.
  - rewrite host_steps_app, Ht, Ht'. reflexivity.
Qed.

Lemma outcome_ret {A} (a : A) st b :
  g_bbapi (mw st) = b -> outcome (iret a) st a [] b.
Proof.
  intros G. exists []. split; [| reflexivity].
  repeat split; [| exact G]. simpl. rewrite app_nil_r. reflexivity.
Qed.

Lemma outcome_step (s : mstep) st b :
  is_gateway_step s = false -> g_bbapi (mw st) = b ->
  outcome (istep s) st tt [s] b.
Proof.
  intros Gs G. exists [s]. split; [repeat split; exact G |].
  unfold host_steps. simpl. rewrite Gs. reflexivity.
Qed.

Lemma outcome_lift {A} (m : M A) st b :
  internal m -> g_bbapi (mw st) = b ->
  outcome (lift m) st (fst (m (mw st))) [] b.
Proof.
  intros Hm G. exists (map MGateway (steps m (mw st))). split.
  - repeat split. simpl. rewrite (proj1 (Hm (mw st))). exact G.
  - apply host_steps_gateway.
Qed.

Lemma outcome_register d st b :
  g_bbapi (mw st) = b ->
  outcome (register d) st (platform_device_register d)
    [MRegister d (platform_device_register d)] b.
Proof. intros G. eexists. split; [repeat split; exact G | reflexivity]. Qed.

Lemma outcome_cdev_init st b :
  g_bbapi (mw st) = b ->
  outcome cdev_init st simple_cdev_init [MCdevInit simple_cdev_init] b.
Proof. intros G. eexists. split; [repeat split; exact G | reflexivity]. Qed.

Lemma outcome_vfree st b :
  g_bbapi (mw st) = b ->
  outcome vfree_memory st tt [MVfree (memory b)] b.
Proof.
  intros G. exists [MVfree (memory b)]. split; [| reflexivity].
  repeat split; [| exact G]. simpl. rewrite G. reflexivity.
Qed.

Lemma outcome_discover a area st :
  let r := bbapi_find_bios a (g_bbapi (mw st)) area in
  outcome (discover a area) st (fst (fst r)) (map MDiscovery (snd r))
    (snd (fst r)).
Proof.
  intros r. exists (map MDiscovery (snd r)). split; [repeat split |].
  apply host_steps_discovery.
Qed.

Lemma outcome_eq {A} (m : I A) st v v' hs hs' b :
  outcome m st v hs b -> v = v' -> hs = hs' -> outcome m st v' hs' b.
Proof. intros O -> ->. exact O. Qed.

Lemma outcome_hs {A} (m : I A) st v hs hs' b :
  outcome m st v hs b -> hs = hs' -> outcome m st v hs' b.
Proof. intros O ->. exact O. Qed.

(** *** The probes of init and exit *)

Lemma internal_supports_power : internal bbapi_supports_power.
Proof. apply internal_supports. Qed.

Lemma internal_supports_display : internal bbapi_supports_display.
Proof. apply internal_supports. Qed.

Lemma internal_supports_sups : internal bbapi_supports_sups.
Proof.
  apply internal_bind; [apply internal_supports |].
  intros [|]; [apply internal_ret | apply internal_supports].
Qed.

Lemma internal_update_display : internal update_display.
Proof.
  unfold update_display. cbv zeta.
  apply internal_bind; [apply internal_write | intros _].
  apply internal_bind; [apply internal_read | intros r].
  apply internal_bind; [apply internal_write | intros _].
  apply internal_bind; [apply internal_write | intros _].
  apply internal_ret.
Qed.

Lemma internal_init_bios : internal bbapi_init_bios.
Proof.
  apply internal_bind; [apply internal_write | intros; apply internal_ret].
Qed.

Lemma internal_exit_bios : internal bbapi_exit_bios.
Proof.
  apply internal_bind; [apply internal_write | intros; apply internal_ret].
Qed.

Lemma power_value (w : world) (s0 : fw_state) :
  probe_stable -> entry (g_bbapi w) <> NULL ->
  fst (bbapi_supports_power w) = power_supported s0.
Proof.
  intros St He. unfold bbapi_supports_power, power_supported.
  rewrite supports_value by exact He. apply stable_supported. exact St.
Qed.

Lemma sups_value (w : world) (s0 : fw_state) :
  probe_stable -> entry (g_bbapi w) <> NULL ->
  fst (bbapi_supports_sups w) = sups_supported s0.
Proof.
  intros St He. unfold bbapi_supports_sups, sups_supported, bind.
  pose proof (supports_value w BIOSIGRP_SUPS BIOSIOFFS_SUPS_GPIO_PIN_EX He) as V.
  pose proof (internal_supports BIOSIGRP_SUPS BIOSIOFFS_SUPS_GPIO_PIN_EX w) as (G & _).
  destruct (bbapi_supports BIOSIGRP_SUPS BIOSIOFFS_SUPS_GPIO_PIN_EX w) as [ex w'].
  simpl in V, G. rewrite (stable_supported (fw w) s0) in V by exact St.
  rewrite <- V. destruct ex; [reflexivity |].
  rewrite supports_value by (rewrite G; exact He).
  apply stable_supported. exact St.
Qed.

Lemma outcome_power st b (s0 : fw_state) :
  probe_stable -> g_bbapi (mw st) = b -> entry b <> NULL ->
  outcome (lift bbapi_supports_power) st (power_supported s0) [] b.
Proof.
  intros St G He.
  rewrite <- (power_value (mw st) s0 St) by (rewrite G; exact He).
  apply outcome_lift; [apply internal_supports_power | exact G].
Qed.

Lemma outcome_sups st b (s0 : fw_state) :
  probe_stable -> g_bbapi (mw st) = b -> entry b <> NULL ->
  outcome (lift bbapi_supports_sups) st (sups_supported s0) [] b.
Proof.
  intros St G He.
  rewrite <- (sups_value (mw st) s0 St) by (rewrite G; exact He).
  apply outcome_lift; [apply internal_supports_sups | exact G].
Qed.

(** *** Rollback *)

Lemma rollback_memory_outcome (r : Z) st b :
  g_bbapi (mw st) = b ->
  outcome (rollback_memory r) st r [MVfree (memory b)] b.
Proof.
  intros G. unfold rollback_memory.
  eapply outcome_hs.
  - eapply outcome_bind; [apply outcome_vfree; exact G |].
    intros G'. apply outcome_ret. exact G'.
  - reflexivity.
Qed.

Lemma unregister_outcome (c : bool) (d : device) st b :
  g_bbapi (mw st) = b ->
  outcome (if c then istep (MUnregister d) else iret tt) st tt
    (if c then [MUnregister d] else []) b.
Proof.
  intros G. destruct c; [apply outcome_step; [reflexivity | exact G] |].
  apply outcome_ret. exact G.
Qed.

Lemma rollback_power_outcome (r : Z) st b (s0 : fw_state) :
  probe_stable -> g_bbapi (mw st) = b -> entry b <> NULL ->
  outcome (rollback_power r) st r
    ((if power_supported s0 then [MUnregister bbapi_power] else [])
     ++ [MVfree (memory b)]) b.
Proof.
  intros St G He. unfold rollback_power.
  eapply outcome_hs.
  - eapply outcome_bind; [apply (outcome_power st b s0 St G He) |].
    intros G1.
    eapply outcome_bind; [apply unregister_outcome; exact G1 |].
    intros G2. apply rollback_memory_outcome. exact G2.
  - reflexivity.
Qed.

Lemma rollback_sups_outcome (r : Z) st b (s0 : fw_state) :
  probe_stable -> g_bbapi (mw st) = b -> entry b <> NULL ->
  outcome (rollback_sups r) st r
    ((if sups_supported s0 then [MUnregister bbapi_sups] else [])
     ++ (if power_supported s0 then [MUnregister bbapi_power] else [])
     ++ [MVfree (memory b)]) b.
Proof.
  intros St G He. unfold rollback_sups.
  eapply outcome_hs.
  - eapply outcome_bind; [apply (outcome_sups st b s0 St G He) |].
    intros G1.
    eapply outcome_bind; [apply unregister_outcome; exact G1 |].
    intros G2. apply (rollback_power_outcome r _ b s0 St G2 He).
  - reflexivity.
Qed.

(** *** Module init, once discovery has succeeded *)

Lemma register_if_outcome (c : bool) (d : device) st b :
  g_bbapi (mw st) = b ->
  outcome (if c then register d else iret 0) st
    (if c then platform_device_register d else 0)
    (if c then [MRegister d (platform_device_register d)] else []) b.
Proof.
  intros G. destruct c; [apply outcome_register | apply outcome_ret]; exact G.
Qed.

Lemma init_bios_value (w : world) : fst (bbapi_init_bios w) = 0.
Proof.
  unfold bbapi_init_bios, bind, ret.
  destruct (bbapi_write 0 254 extOsOps (sizeof extOsOps) w). reflexivity.
Qed.

Lemma update_display_if_outcome (c : bool) st b :
  g_bbapi (mw st) = b ->
  outcome (if c then lift update_display else iret tt) st tt [] b.
Proof.
  intros G. destruct c; [| apply outcome_ret; exact G].
  eapply outcome_eq;
    [ apply outcome_lift; [apply internal_update_display | exact G]
    | destruct (fst (update_display (mw st))); reflexivity
    | reflexivity ].
Qed.

Lemma display_outcome st b :
  g_bbapi (mw st) = b ->
  outcome
    (display <~ lift bbapi_supports_display ;;
     (if display then lift update_display else iret tt) ;;~
     lift bbapi_init_bios) st 0 [] b.
Proof.
  intros G. eapply outcome_eq.
  - eapply outcome_bind;
      [apply outcome_lift; [apply internal_supports_display | exact G] |].
    intros G1.
    eapply outcome_bind; [apply update_display_if_outcome; exact G1 |].
    intros G2. apply outcome_lift; [apply internal_init_bios | exact G2].
  - apply init_bios_value.
  - reflexivity.
Qed.

Ltac bind_with L :=
  eapply outcome_bind; [L | let G := fresh "G" in intros G; cbv beta iota].

(** The run of module init for probe answers [p] and [s]. *)
Lemma init_run (a : arch) (area : Z) st (s0 : fw_state) :
  let r := bbapi_find_bios a (g_bbapi (mw st)) area in
  let b := snd (fst r) in
  let p := power_supported s0 in
  let s := sups_supported s0 in
  fst (fst r) = 0 -> entry b <> NULL -> probe_stable ->
  outcome (bbapi_init_module a area) st (init_result p s)
    (MMutexInit :: map MDiscovery (snd r) ++ init_host_steps p s (memory b)) b.
Proof.
  intros r b p s Hr He St.
  pose proof (fun st' G => outcome_power st' b s0 St G He) as Op.
  pose proof (fun st' G => outcome_sups st' b s0 St G He) as Os.
  fold p in Op. fold s in Os.
  assert (Hp : power_supported s0 = p) by reflexivity.
  assert (Hs : sups_supported s0 = s) by reflexivity.
  clearbody p s.
  assert (Od : outcome (discover a area) (snd (istep MMutexInit st))
                 (fst (fst r)) (map MDiscovery (snd r)) b)
    by exact (outcome_discover a area (snd (istep MMutexInit st))).
  clearbody b r.
  unfold bbapi_init_module, init_result, init_host_steps.
  destruct (negb (is_zero (platform_device_register bbapi_power))) eqn:Ep;
  destruct (negb (is_zero (platform_device_register bbapi_sups))) eqn:Es;
  destruct (negb (is_zero simple_cdev_init)) eqn:Ec;
  destruct p; destruct s; cbn [andb app].
  all: eapply outcome_eq.
  all: try (bind_with ltac:(apply outcome_step; [reflexivity | reflexivity]);
      bind_with ltac:(exact Od);
      rewrite Hr; cbn [is_zero Z.eqb negb];
      bind_with ltac:(apply Op; assumption);
      bind_with ltac:(first [apply outcome_register | apply outcome_ret]; eassumption);
      rewrite ?Ep; cbn [is_zero Z.eqb negb];
      first
        [ apply rollback_memory_outcome; assumption
        | bind_with ltac:(apply Os; assumption);
          bind_with ltac:(first [apply outcome_register | apply outcome_ret]; eassumption);
          rewrite ?Es, ?Ep; cbn [is_zero Z.eqb negb];
          first
            [ apply (rollback_power_outcome _ _ b s0 St); assumption
            | bind_with ltac:(apply outcome_cdev_init; eassumption);
              rewrite ?Ec;
              first [ apply (rollback_sups_outcome _ _ b s0 St); assumption
                    | apply display_outcome; assumption ] ] ]).
  all: rewrite ?Hp, ?Hs.
  all: reflexivity.
Qed.

Lemma outcome_ext {A} (m m' : I A) st v hs b :
  m st = m' st -> outcome m' st v hs b -> outcome m st v hs b.
Proof.
  intros E (t & (Hv & Ht & Hb) & Hh). exists t.
  unfold yields. rewrite E. auto.
Qed.

(** The run of module exit on a bridge that holds an image. *)
Lemma exit_run st b (s0 : fw_state) :
  probe_stable -> g_bbapi (mw st) = b -> entry b <> NULL -> memory b <> NULL ->
  outcome bbapi_exit st tt
    (exit_host_steps (power_supported s0) (sups_supported s0) (memory b)) b.
Proof.
  intros St G He Hm.
  eapply outcome_ext.
  { unfold bbapi_exit. rewrite G.
    destruct (is_zero (memory b)) eqn:Ez; [| reflexivity].
    unfold is_zero in Ez. apply Z.eqb_eq in Ez. contradiction. }
  unfold exit_host_steps.
  eapply outcome_hs.
  - bind_with ltac:(apply outcome_lift; [apply internal_exit_bios | exact G]).
    bind_with ltac:(apply outcome_step; [reflexivity | eassumption]).
    bind_with ltac:(apply (outcome_sups _ b s0 St); assumption).
    bind_with ltac:(apply unregister_outcome; eassumption).
    bind_with ltac:(apply (outcome_power _ b s0 St); assumption).
    bind_with ltac:(apply unregister_outcome; eassumption).
    apply outcome_vfree; assumption.
  - reflexivity.
Qed.

Lemma outcome_appended {A} (m : I A) st v hs b :
  outcome m st v hs b ->
  fst (m st) = v /\ host_steps (appended m st) = hs /\
  g_bbapi (mw (snd (m st))) = b.
Proof.
  intros (t & (Hv & Ht & Hb) & Hh). unfold appended.
  rewrite Ht, skipn_length_app. auto.
Qed.

Lemma count_host_steps (p : mstep -> bool) (t : list mstep) :
  (forall e, p (MGateway e) = false) -> count p (host_steps t) = count p t.
Proof.
  intros Hp. unfold count, host_steps.
  induction t as [| x t IH]; [reflexivity |].
  destruct x; cbn [filter is_gateway_step negb];
    try (destruct (p _); cbn [length]; congruence).
  rewrite Hp. exact IH.
Qed.

Lemma found_memory (a : arch) (bbapi : bbapi_object) (area : Z) :
  fst (fst (bbapi_find_bios a bbapi area)) = 0 ->
  memory (snd (fst (bbapi_find_bios a bbapi area))) <> NULL.
Proof.
  unfold bbapi_find_bios.
  destruct (area >? BBIOSAPI_SIGNATURE_SEARCH_AREA); [discriminate |].
  destruct (ioremap area) as [io |]; [| discriminate].
  destruct (scan a io area) as [pos |]; [| discriminate].
  unfold bbapi_copy_bios.
  destruct (is_zero (vmalloc _)) eqn:Em; [discriminate |].
  destruct (negb (is_zero (set_memory_x _ _))); [discriminate |].
  cbn [fst snd memory]. intros _.
  unfold is_zero, NULL in *. tests_to_prop. exact Em.
Qed.

Ltac host_cases :=
  unfold init_result, init_host_steps, exit_host_steps in *;
  destruct (is_zero (platform_device_register bbapi_power)) eqn:Ep;
  destruct (is_zero (platform_device_register bbapi_sups)) eqn:Es;
  destruct (is_zero simple_cdev_init) eqn:Ec;
  destruct (power_supported _);
  destruct (sups_supported _);
  cbn [andb negb app is_zero Z.eqb] in *.

Ltac count_steps :=
  unfold count;
  repeat progress
    (cbn [filter registers unregisters frees same_device andb length app];
     repeat match goal with
            | E : is_zero _ = _ |- _ => rewrite E
            end);
  try reflexivity.

Lemma count_trace (p : mstep -> bool) (t : list mstep) (l : list kstep)
    (hs : list mstep) :
  (forall e, p (MGateway e) = false) ->
  (forall k, p (MDiscovery k) = false) ->
  p MMutexInit = false ->
  host_steps t = MMutexInit :: map MDiscovery l ++ hs ->
  count p t = count p hs.
Proof.
  intros Hg Hd Hm Ht. rewrite <- (count_host_steps p t Hg), Ht.
  change (MMutexInit :: map MDiscovery l ++ hs)
    with ([MMutexInit] ++ map MDiscovery l ++ hs).
  rewrite !count_app, (count_discovery p l Hd).
  unfold count. cbn [filter]. rewrite Hm. reflexivity.
Qed.

(** X24.  When discovery fails, module init returns discovery's error
    at once: after the mutex is set up and the window searched there is
    no probe, no BIOS call, no registration and nothing to roll back. *)
Theorem init_stops_when_discovery_fails (a : arch) (area : Z) (st : machine) :
  let r := bbapi_find_bios a (g_bbapi (mw st)) area in
  let run := bbapi_init_module a area st in
  fst (fst r) <> 0 ->
  fst run = fst (fst r) /\
  appended (bbapi_init_module a area) st = MMutexInit :: map MDiscovery (snd r) /\
  g_bbapi (mw (snd run)) = snd (fst r) /\
  fw (mw (snd run)) = fw (mw st) /\
  user (mw (snd run)) = user (mw st) /\
  log (mw (snd run)) = log (mw st).
Proof.
  intros r run Hr. unfold run, appended, bbapi_init_module.
  rewrite !ibind_run.
  cbn [istep discover fst snd mw mtrace]. fold r.
  destruct (is_zero (fst (fst r))) eqn:Ez.
  { unfold is_zero in Ez. apply Z.eqb_eq in Ez. contradiction. }
  cbn [negb iret fst snd mw mtrace g_bbapi fw user log].
  rewrite <- app_assoc, skipn_length_app. repeat split.
Qed.

(** X25.  When module init fails after discovery succeeded, everything
    it set up is undone: each device it registered is unregistered
    again, the image buffer is freed exactly once, as the last step, and
    the value returned is the nonzero result of the registration that
    failed.  The bridge object is left as discovery filled it, so its
    [memory] still holds the address of the freed buffer. *)
Theorem failed_init_rolls_back (a : arch) (area : Z) (st : machine) :
  let r := bbapi_find_bios a (g_bbapi (mw st)) area in
  let b := snd (fst r) in
  let run := bbapi_init_module a area st in
  let t := appended (bbapi_init_module a area) st in
  fst (fst r) = 0 -> entry b <> NULL -> probe_stable ->
  fst run <> 0 ->
  (forall d, count (registers d) t = count (unregisters d) t) /\
  count frees t = 1%nat /\
  last (host_steps t) MMutexInit = MVfree (memory b) /\
  (fst run = platform_device_register bbapi_power \/
   fst run = platform_device_register bbapi_sups \/
   fst run = simple_cdev_init) /\
  g_bbapi (mw (snd run)) = b.
Proof.
  intros r b run t Hr He St.
  destruct (outcome_appended _ _ _ _ _
              (init_run a area st (fw (mw st)) Hr He St)) as (Hv & Ht & Hb).
  fold run in Hv, Hb. fold t in Ht. fold r b in Ht, Hb.
  rewrite Hv. intros Hne.
  assert (Hlast : exists pre,
            init_host_steps (power_supported (fw (mw st)))
              (sups_supported (fw (mw st))) (memory b) = pre ++ [MVfree (memory b)]).
  { exists (removelast (init_host_steps (power_supported (fw (mw st)))
              (sups_supported (fw (mw st))) (memory b))).
    clear Ht. host_cases; try reflexivity; congruence. }
  split; [| split; [| split; [| split]]].
  - intros d.
    rewrite (count_trace (registers d) t _ _ (fun _ => eq_refl)
               (fun _ => eq_refl) eq_refl Ht).
    rewrite (count_trace (unregisters d) t _ _ (fun _ => eq_refl)
               (fun _ => eq_refl) eq_refl Ht).
    clear Ht Hlast. destruct d; host_cases; count_steps; congruence.
  - rewrite (count_trace frees t _ _ (fun _ => eq_refl)
               (fun _ => eq_refl) eq_refl Ht).
    clear Ht Hlast. host_cases; count_steps; congruence.
  - rewrite Ht. destruct Hlast as (pre & ->).
    change (MMutexInit :: map MDiscovery (snd r) ++ pre ++ [MVfree (memory b)])
      with ((MMutexInit :: map MDiscovery (snd r)) ++ pre ++ [MVfree (memory b)]).
    rewrite !app_assoc. apply last_last.
  - clear Ht Hlast. host_cases; auto; congruence.
  - exact Hb.
Qed.

(** *** Module init, whatever the BIOS answers *)

Lemma value_bind {A B} (m : I A) (k : A -> I B) st v hs b v' b' :
  outcome m st v hs b ->
  (g_bbapi (mw (snd (m st))) = b ->
   exists hs', outcome (k v) (snd (m st)) v' hs' b') ->
  exists hs', outcome (ibind m k) st v' hs' b'.
Proof.
  intros O K.
  assert (G : g_bbapi (mw (snd (m st))) = b)
    by (destruct O as (t & Y & _); exact (proj2 (proj2 Y))).
  destruct (K G) as (hs' & O').
  exists (hs ++ hs'). eapply outcome_bind; [exact O | intros _; exact O'].
Qed.

Lemma value_eq {A} (m : I A) st v v' b :
  (exists hs, outcome m st v hs b) -> v = v' ->
  exists hs, outcome m st v' hs b.
Proof. intros O <-. exact O. Qed.

Ltac vbind L :=
  eapply value_bind; [L | let G := fresh "G" in intros G; cbv beta iota].

Lemma rollback_memory_value (r : Z) st b :
  g_bbapi (mw st) = b -> exists hs, outcome (rollback_memory r) st r hs b.
Proof. intros G. eexists. apply rollback_memory_outcome. exact G. Qed.

Lemma rollback_power_value (r : Z) st b :
  g_bbapi (mw st) = b -> exists hs, outcome (rollback_power r) st r hs b.
Proof.
  intros G. unfold rollback_power.
  vbind ltac:(apply outcome_lift; [apply internal_supports_power | exact G]).
  vbind ltac:(apply unregister_outcome; eassumption).
  apply rollback_memory_value. assumption.
Qed.

Lemma rollback_sups_value (r : Z) st b :
  g_bbapi (mw st) = b -> exists hs, outcome (rollback_sups r) st r hs b.
Proof.
  intros G. unfold rollback_sups.
  vbind ltac:(apply outcome_lift; [apply internal_supports_sups | exact G]).
  vbind ltac:(apply unregister_outcome; eassumption).
  apply rollback_power_value. assumption.
Qed.

(** Names the answer of the probe that has just run. *)
Ltac name_power a area st :=
  match goal with
  | |- context [fst (bbapi_supports_power ?w)] =>
      change (fst (bbapi_supports_power w)) with (power_answer a area st)
  end.

Ltac name_sups a area st :=
  match goal with
  | |- context [fst (bbapi_supports_sups ?w)] =>
      change (fst (bbapi_supports_sups w)) with (sups_answer a area st)
  end.

(** The value module init returns once discovery has succeeded. *)
Lemma init_value (a : arch) (area : Z) st :
  let r := bbapi_find_bios a (g_bbapi (mw st)) area in
  let b := snd (fst r) in
  fst (fst r) = 0 ->
  exists hs,
    outcome (bbapi_init_module a area) st
      (init_result (power_answer a area st) (sups_answer a area st)) hs b.
Proof.
  intros r b Hr.
  assert (Od : outcome (discover a area) (snd (istep MMutexInit st))
                 (fst (fst r)) (map MDiscovery (snd r)) b)
    by exact (outcome_discover a area (snd (istep MMutexInit st))).
  clearbody b r.
  unfold bbapi_init_module, init_result.
  destruct (is_zero (platform_device_register bbapi_power)) eqn:Ep;
  destruct (is_zero (platform_device_register bbapi_sups)) eqn:Es;
  destruct (is_zero simple_cdev_init) eqn:Ec;
  destruct (power_answer a area st) eqn:Hp;
  destruct (sups_answer a area st) eqn:Hs; cbn [andb negb].
  all: eapply value_eq;
    [ vbind ltac:(apply outcome_step; [reflexivity | reflexivity]);
      vbind ltac:(exact Od);
      rewrite Hr; cbn [is_zero Z.eqb negb];
      vbind ltac:(apply outcome_lift;
                  [apply internal_supports_power | eassumption]);
      name_power a area st; rewrite Hp; cbv beta iota;
      vbind ltac:(first [apply outcome_register | apply outcome_ret];
                  eassumption);
      rewrite ?Ep; cbn [is_zero Z.eqb negb];
      first
        [ apply rollback_memory_value; assumption
        | vbind ltac:(apply outcome_lift;
                      [apply internal_supports_sups | eassumption]);
          name_sups a area st; rewrite Hs; cbv beta iota;
          vbind ltac:(first [apply outcome_register | apply outcome_ret];
                      eassumption);
          rewrite ?Es, ?Ep; cbn [is_zero Z.eqb negb];
          first
            [ apply rollback_power_value; assumption
            | vbind ltac:(apply outcome_cdev_init; eassumption);
              rewrite ?Ec; cbn [negb];
              first [ apply rollback_sups_value; assumption
                    | eexists; apply display_outcome; assumption ] ] ]
    | reflexivity ].
Qed.

(** The steps of a module init that returns 0. *)
Lemma init_success_run (a : arch) (area : Z) st :
  let r := bbapi_find_bios a (g_bbapi (mw st)) area in
  let b := snd (fst r) in
  let p := power_answer a area st in
  let s := sups_answer a area st in
  fst (fst r) = 0 -> init_result p s = 0 ->
  outcome (bbapi_init_module a area) st 0
    (MMutexInit :: map MDiscovery (snd r) ++ init_host_steps p s (memory b)) b.
Proof.
  intros r b p s Hr. unfold p, s. clear p s.
  assert (Od : outcome (discover a area) (snd (istep MMutexInit st))
                 (fst (fst r)) (map MDiscovery (snd r)) b)
    by exact (outcome_discover a area (snd (istep MMutexInit st))).
  clearbody b r.
  unfold bbapi_init_module, init_result, init_host_steps.
  destruct (is_zero (platform_device_register bbapi_power)) eqn:Ep;
  destruct (is_zero (platform_device_register bbapi_sups)) eqn:Es;
  destruct (is_zero simple_cdev_init) eqn:Ec;
  destruct (power_answer a area st) eqn:Hp;
  destruct (sups_answer a area st) eqn:Hs; cbn [andb negb app]; intros Hz.
  all: try (exfalso; unfold is_zero in *; tests_to_prop; congruence).
  all: eapply outcome_eq;
    [ bind_with ltac:(apply outcome_step; [reflexivity | reflexivity]);
      bind_with ltac:(exact Od);
      rewrite Hr; cbn [is_zero Z.eqb negb];
      bind_with ltac:(apply outcome_lift;
                      [apply internal_supports_power | eassumption]);
      name_power a area st; rewrite Hp; cbv beta iota;
      bind_with ltac:(first [apply outcome_register | apply outcome_ret];
                      eassumption);
      rewrite ?Ep; cbn [is_zero Z.eqb negb];
      bind_with ltac:(apply outcome_lift;
                      [apply internal_supports_sups | eassumption]);
      name_sups a area st; rewrite Hs; cbv beta iota;
      bind_with ltac:(first [apply outcome_register | apply outcome_ret];
                      eassumption);
      rewrite ?Es, ?Ep; cbn [is_zero Z.eqb negb];
      bind_with ltac:(apply outcome_cdev_init; eassumption);
      rewrite ?Ec; cbn [negb];
      apply display_outcome; assumption
    | reflexivity
    | reflexivity ].
Qed.

Ltac result_cases :=
  unfold init_result, init_host_steps in *;
  destruct (is_zero (platform_device_register bbapi_power)) eqn:Ep;
  destruct (is_zero (platform_device_register bbapi_sups)) eqn:Es;
  destruct (is_zero simple_cdev_init) eqn:Ec;
  cbn [andb negb app is_zero Z.eqb] in *.

(** X26.  After a successful discovery module init returns 0 exactly
    when every registration it attempted returned 0, whatever the BIOS
    answers: the statuses of the display calls and of the init call play
    no part.  A successful init unregisters and frees nothing, registers
    exactly the devices its own probes reported (the power probe as run
    right after discovery, the S-UPS probe as run after it), each once,
    and its last step against the host is the creation of the character
    device. *)
Theorem successful_init_keeps_resources (a : arch) (area : Z) (st : machine) :
  let r := bbapi_find_bios a (g_bbapi (mw st)) area in
  let b := snd (fst r) in
  let run := bbapi_init_module a area st in
  let t := appended (bbapi_init_module a area) st in
  let p := power_answer a area st in
  let s := sups_answer a area st in
  fst (fst r) = 0 ->
  (fst run = 0 <->
   (p = true -> platform_device_register bbapi_power = 0) /\
   (s = true -> platform_device_register bbapi_sups = 0) /\
   simple_cdev_init = 0) /\
  (fst run = 0 ->
   count frees t = 0%nat /\
   (forall d, count (unregisters d) t = 0%nat) /\
   count (registers bbapi_power) t = (if p then 1 else 0)%nat /\
   count (registers bbapi_sups) t = (if s then 1 else 0)%nat /\
   last (host_steps t) MMutexInit = MCdevInit 0 /\
   g_bbapi (mw (snd run)) = b).
Proof.
  intros r b run t p s Hr.
  destruct (init_value a area st Hr) as (hs0 & O).
  destruct (outcome_appended _ _ _ _ _ O) as (Hv & _ & _). clear O hs0.
  fold run p s in Hv.
  pose proof (init_success_run a area st Hr) as Hrun. fold r b p s in Hrun.
  clearbody p s.
  rewrite Hv. split.
  - clear Hrun. destruct p, s; result_cases; unfold is_zero in *;
      tests_to_prop; intuition congruence.
  - intros Hz.
    destruct (outcome_appended _ _ _ _ _ (Hrun Hz)) as (_ & Ht & Hb).
    fold t in Ht. fold run in Hb. clear Hrun.
    assert (Hlast : exists pre,
              init_host_steps p s (memory b) = pre ++ [MCdevInit 0]).
    { exists (removelast (init_host_steps p s (memory b))).
      clear Ht. destruct p, s; result_cases; unfold is_zero in *;
        tests_to_prop; try congruence; rewrite Ec; reflexivity. }
    split; [| split; [| split; [| split; [| split]]]].
    + rewrite (count_trace frees t _ _ (fun _ => eq_refl)
                 (fun _ => eq_refl) eq_refl Ht).
      clear Ht Hlast. destruct p, s; result_cases; count_steps;
        unfold is_zero in *; tests_to_prop; congruence.
    + intros d.
      rewrite (count_trace (unregisters d) t _ _ (fun _ => eq_refl)
                 (fun _ => eq_refl) eq_refl Ht).
      clear Ht Hlast. destruct d, p, s; result_cases; count_steps;
        unfold is_zero in *; tests_to_prop; congruence.
    + rewrite (count_trace (registers bbapi_power) t _ _ (fun _ => eq_refl)
                 (fun _ => eq_refl) eq_refl Ht).
      clear Ht Hlast. destruct p, s; result_cases; count_steps;
        unfold is_zero in *; tests_to_prop; congruence.
    + rewrite (count_trace (registers bbapi_sups) t _ _ (fun _ => eq_refl)
                 (fun _ => eq_refl) eq_refl Ht).
      clear Ht Hlast. destruct p, s; result_cases; count_steps;
        unfold is_zero in *; tests_to_prop; congruence.
    + rewrite Ht. destruct Hlast as (pre & ->).
      change (MMutexInit :: map MDiscovery (snd r) ++ pre ++ [MCdevInit 0])
        with ((MMutexInit :: map MDiscovery (snd r)) ++ pre ++ [MCdevInit 0]).
      rewrite !app_assoc. apply last_last.
    + exact Hb.
Qed.

(** X27.  Module exit does nothing at all on a bridge without an image
    buffer.  On a bridge that holds one it removes the character device,
    unregisters the S-UPS device and then the power device, each exactly
    when the BIOS supports it, and frees the image buffer exactly once,
    as its last step; the bridge object keeps the stale address. *)
Theorem exit_releases_everything (st : machine) :
  let b := g_bbapi (mw st) in
  let t := appended bbapi_exit st in
  let p := power_supported (fw (mw st)) in
  let s := sups_supported (fw (mw st)) in
  (memory b = NULL -> bbapi_exit st = (tt, st)) /\
  (memory b <> NULL -> entry b <> NULL -> probe_stable ->
   host_steps t =
     MCdevRemove :: (if s then [MUnregister bbapi_sups] else []) ++
     (if p then [MUnregister bbapi_power] else []) ++ [MVfree (memory b)] /\
   count frees t = 1%nat /\
   (forall d, count (registers d) t = 0%nat) /\
   g_bbapi (mw (snd (bbapi_exit st))) = b).
Proof.
  intros b t p s. split.
  - intros Hm. unfold bbapi_exit. fold b. rewrite Hm. reflexivity.
  - intros Hm He St.
    destruct (outcome_appended _ _ _ _ _
                (exit_run st b (fw (mw st)) St eq_refl He Hm)) as (_ & Ht & Hb).
    fold t p s in Ht. unfold exit_host_steps in Ht.
    split; [exact Ht |]. split; [| split; [| exact Hb]].
    + rewrite <- (count_host_steps frees t (fun _ => eq_refl)), Ht.
      destruct s, p; reflexivity.
    + intros d.
      rewrite <- (count_host_steps (registers d) t (fun _ => eq_refl)), Ht.
      destruct d, s, p; reflexivity.
Qed.

(** X28.  One load and unload of the module is balanced whenever
    discovery succeeds: whether init fails half way or the module is
    later unloaded, each device is unregistered as often as it was
    registered, at most once, and the image buffer is freed exactly
    once. *)
Theorem load_unload_balanced (a : arch) (area : Z) (st : machine) :
  let r := bbapi_find_bios a (g_bbapi (mw st)) area in
  let b := snd (fst r) in
  let t := appended (load_unload a area) st in
  fst (fst r) = 0 -> entry b <> NULL -> probe_stable ->
  (forall d, count (registers d) t = count (unregisters d) t /\
             (count (registers d) t <= 1)%nat) /\
  count frees t = 1%nat /\
  fst (load_unload a area st) = fst (bbapi_init_module a area st).
Proof.
  intros r b t Hr He St.
  pose proof (init_run a area st (fw (mw st)) Hr He St) as Hi.
  pose proof (found_memory a (g_bbapi (mw st)) area Hr) as Hm.
  fold r b in Hi, Hm.
  set (p := power_supported (fw (mw st))) in *.
  set (s := sups_supported (fw (mw st))) in *.
  assert (Hc : outcome (load_unload a area) st (init_result p s)
                 ((MMutexInit :: map MDiscovery (snd r) ++
                   init_host_steps p s (memory b)) ++
                  (if is_zero (init_result p s)
                   then exit_host_steps p s (memory b) else []) ++ []) b).
  { unfold load_unload.
    bind_with ltac:(exact Hi).
    bind_with ltac:(destruct (is_zero (init_result p s));
                    [apply (exit_run _ b (fw (mw st)) St); eassumption
                    | apply outcome_ret; eassumption]).
    apply outcome_ret. assumption. }
  destruct (outcome_appended _ _ _ _ _ Hc) as (Hv & Ht & _).
  destruct (outcome_appended _ _ _ _ _ Hi) as (Hv' & _ & _).
  fold t in Ht. rewrite app_nil_r in Ht.
  change ((MMutexInit :: map MDiscovery (snd r) ++ init_host_steps p s (memory b)) ++
          (if is_zero (init_result p s) then exit_host_steps p s (memory b) else []))
    with (MMutexInit :: (map MDiscovery (snd r) ++ init_host_steps p s (memory b)) ++
          (if is_zero (init_result p s) then exit_host_steps p s (memory b) else []))
    in Ht.
  rewrite <- app_assoc in Ht.
  split; [| split; [| congruence]].
  - intros d.
    rewrite (count_trace (registers d) t _ _ (fun _ => eq_refl)
               (fun _ => eq_refl) eq_refl Ht).
    rewrite (count_trace (unregisters d) t _ _ (fun _ => eq_refl)
               (fun _ => eq_refl) eq_refl Ht).
    clear Ht Hc Hi Hv Hv'. unfold p, s.
    destruct d; host_cases; count_steps; split; auto.
  - rewrite (count_trace frees t _ _ (fun _ => eq_refl)
               (fun _ => eq_refl) eq_refl Ht).
    clear Ht Hc Hi Hv Hv'. unfold p, s. host_cases; count_steps.
Qed.

(** *** Where the handshakes fall *)

Lemma grows_bind {A B} (m : I A) (k : A -> I B) :
  grows m -> (forall v, grows (k v)) -> grows (ibind m k).
Proof.
  intros Hm Hk st. rewrite ibind_run.
  destruct (Hm st) as (t & Ht).
  destruct (Hk (fst (m st)) (snd (m st))) as (t' & Ht').
  exists (t ++ t'). rewrite Ht', Ht, app_assoc. reflexivity.
Qed.

Lemma grows_ret {A} (a : A) : grows (iret a).
Proof. intros st. exists []. simpl. rewrite app_nil_r. reflexivity. Qed.

Lemma grows_step (s : mstep) : grows (istep s).
Proof. intros st. exists [s]. reflexivity. Qed.

Lemma grows_lift {A} (m : M A) : grows (lift m).
Proof. intros st. eexists. reflexivity. Qed.

Lemma grows_vfree : grows vfree_memory.
Proof. intros st. eexists. reflexivity. Qed.

Lemma grows_exit_tail :
  grows (sups <~ lift bbapi_supports_sups ;;
         (if sups then istep (MUnregister bbapi_sups) else iret tt) ;;~
         power <~ lift bbapi_supports_power ;;
         (if power then istep (MUnregister bbapi_power) else iret tt) ;;~
         vfree_memory).
Proof.
  apply grows_bind; [apply grows_lift | intros sups].
  apply grows_bind; [destruct sups; [apply grows_step | apply grows_ret] |].
  intros _. apply grows_bind; [apply grows_lift | intros power].
  apply grows_bind; [destruct power; [apply grows_step | apply grows_ret] |].
  intros _. apply grows_vfree.
Qed.

Lemma finishes_bind {A B} (m : I A) (k : A -> I B) st v hs b P :
  outcome m st v hs b ->
  (g_bbapi (mw (snd (m st))) = b -> finishes (k v) (snd (m st)) P) ->
  finishes (ibind m k) st P.
Proof.
  intros (t & (V & T & B0) & _) F.
  destruct (F B0) as (pre & l & Hl & HP).
  exists (t ++ pre), l. split; [| exact HP].
  rewrite ibind_run, V, Hl, T, <- !app_assoc. reflexivity.
Qed.

Ltac fbind L :=
  eapply finishes_bind; [L | let G := fresh "G" in intros G; cbv beta iota].

Lemma init_finishes (a : arch) (area : Z) st :
  let r := bbapi_find_bios a (g_bbapi (mw st)) area in
  let b := snd (fst r) in
  fst (fst r) = 0 -> entry b <> NULL ->
  init_result (power_answer a area st) (sups_answer a area st) = 0 ->
  finishes (bbapi_init_module a area) st (handshake 0xFE).
Proof.
  intros r b Hr He.
  assert (Od : outcome (discover a area) (snd (istep MMutexInit st))
                 (fst (fst r)) (map MDiscovery (snd r)) b)
    by exact (outcome_discover a area (snd (istep MMutexInit st))).
  clearbody b r.
  unfold bbapi_init_module, init_result.
  destruct (is_zero (platform_device_register bbapi_power)) eqn:Ep;
  destruct (is_zero (platform_device_register bbapi_sups)) eqn:Es;
  destruct (is_zero simple_cdev_init) eqn:Ec;
  destruct (power_answer a area st) eqn:Hp;
  destruct (sups_answer a area st) eqn:Hs; cbn [andb negb]; intros Hz.
  all: try (exfalso; unfold is_zero in *; tests_to_prop; congruence).
  all: fbind ltac:(apply outcome_step; [reflexivity | reflexivity]);
    fbind ltac:(exact Od);
    rewrite Hr; cbn [is_zero Z.eqb negb];
    fbind ltac:(apply outcome_lift;
                [apply internal_supports_power | eassumption]);
    name_power a area st; rewrite Hp; cbv beta iota;
    fbind ltac:(first [apply outcome_register | apply outcome_ret]; eassumption);
    rewrite ?Ep; cbn [is_zero Z.eqb negb];
    fbind ltac:(apply outcome_lift;
                [apply internal_supports_sups | eassumption]);
    name_sups a area st; rewrite Hs; cbv beta iota;
    fbind ltac:(first [apply outcome_register | apply outcome_ret]; eassumption);
    rewrite ?Es, ?Ep; cbn [is_zero Z.eqb negb];
    fbind ltac:(apply outcome_cdev_init; eassumption);
    rewrite ?Ec; cbn [negb];
    fbind ltac:(apply outcome_lift; [apply internal_supports_display | eassumption]);
    fbind ltac:(apply update_display_if_outcome; eassumption).
  all: match goal with
       | G : g_bbapi (mw ?st') = _ |- finishes _ ?st' _ =>
           destruct (init_bios_steps (mw st')) as (x & n & Hx);
           [rewrite G; exact He |];
           exists [], (map MGateway (steps bbapi_init_bios (mw st')));
           split; [reflexivity | rewrite Hx; exists x, n; reflexivity]
       end.
Qed.

(** X29.  The two handshakes bracket the life of the module, whatever
    the BIOS answers.  A module init that returns 0 ends with the call
    to group 0, offset 0xFE, made under the lock after every
    registration; module exit on a bridge with an image starts with the
    call to offset 0xFF, before the character device is removed. *)
Theorem handshakes_bracket_the_module (a : arch) (area : Z) (st : machine) :
  (let r := bbapi_find_bios a (g_bbapi (mw st)) area in
   let b := snd (fst r) in
   fst (fst r) = 0 -> entry b <> NULL ->
   fst (bbapi_init_module a area st) = 0 ->
   exists pre l,
     appended (bbapi_init_module a area) st = pre ++ l /\ handshake 0xFE l) /\
  (let b := g_bbapi (mw st) in
   memory b <> NULL -> entry b <> NULL ->
   exists l rest,
     appended bbapi_exit st = l ++ MCdevRemove :: rest /\ handshake 0xFF l).
Proof.
  split.
  - intros r b Hr He Hz.
    destruct (init_value a area st Hr) as (hs0 & O).
    destruct (outcome_appended _ _ _ _ _ O) as (Hv & _ & _).
    rewrite Hv in Hz.
    destruct (init_finishes a area st Hr He Hz) as (pre & l & Hl & HP).
    exists pre, l. split; [| exact HP].
    unfold appended. rewrite Hl. apply skipn_length_app.
  - intros b Hm He.
    destruct (exit_bios_steps (mw st) He) as (x & n & Hx).
    destruct (grows_exit_tail
                (snd (istep MCdevRemove (snd (lift bbapi_exit_bios st)))))
      as (rest & Hrest).
    exists (map MGateway (steps bbapi_exit_bios (mw st))), rest. split.
    + unfold appended, bbapi_exit. fold b.
      destruct (is_zero (memory b)) eqn:Ez.
      { unfold is_zero in Ez. apply Z.eqb_eq in Ez. contradiction. }
      rewrite !ibind_run. rewrite !ibind_run in Hrest. rewrite Hrest.
      cbn [istep lift snd mtrace].
      rewrite <- !app_assoc. rewrite skipn_length_app. reflexivity.
    + rewrite Hx. exists x, n. reflexivity.
Qed.

End LifecycleProofs.

(** ** Closed instances of the further properties *)

Lemma reserved_field_rejected_witness :
  let F := fixed_firmware 0 [] 0 in
  let w := sample_world F ready_bbapi 0%nat in
  let d := request 0 0x10 0x1000 4 0x1800 4 0 0x1 in
  @is_legacy sample_headers 0x5000 = false /\ pMode d <> NULL /\
  fst (@bbapi_ioctl sample_headers F sample_after_out 0x5000 (Some d) w)
  = - EINVAL.
Proof.
  intros F w d.
  assert (Hl : @is_legacy sample_headers 0x5000 = false) by reflexivity.
  assert (Hm : pMode d <> NULL) by (vm_compute; discriminate).
  split; [exact Hl |]. split; [exact Hm |].
  destruct (@reserved_field_rejected sample_headers F sample_after_out w
              0x5000 d Hl Hm) as (Hr & _).
  exact Hr.
Defined.

Lemma legacy_ignores_trailing_fields_witness :
  let F := fixed_firmware 0 [] 0 in
  let w := sample_world F ready_bbapi 0%nat in
  let d := request 0 0x10 0x1000 4 0x1800 4 0 0 in
  let d' := request 0 0x10 0x1000 4 0x1800 4 0x1234 0x1 in
  @is_legacy legacy_headers 0x4000 = true /\ same_short_form d d' /\
  @bbapi_ioctl legacy_headers F sample_after_out 0x4000 (Some d) w =
  @bbapi_ioctl legacy_headers F sample_after_out 0x4000 (Some d') w.
Proof.
  intros F w d d'.
  assert (Hl : @is_legacy legacy_headers 0x4000 = true) by reflexivity.
  assert (Hs : same_short_form d d') by (repeat split; reflexivity).
  split; [exact Hl |]. split; [exact Hs |].
  destruct (@legacy_ignores_trailing_fields legacy_headers F sample_after_out
              w 0x4000 d d' Hl Hs) as (He & _).
  exact He.
Defined.

Lemma malformed_call_rejected_witness :
  let F := fixed_firmware 0 [] 0 in
  let w := sample_world F ready_bbapi 0%nat in
  let d := request 0 0x10 0x1000 4 0x1800 4 0 0 in
  @is_legacy sample_headers 0x1234 = false /\
  0x1234 <> @BBAPI_CMD sample_headers /\
  fst (@bbapi_ioctl sample_headers F sample_after_out 0x1234 (Some d) w)
  = - EINVAL.
Proof.
  intros F w d.
  assert (Hl : @is_legacy sample_headers 0x1234 = false) by reflexivity.
  assert (Hc : 0x1234 <> @BBAPI_CMD sample_headers)
    by (vm_compute; discriminate).
  split; [exact Hl |]. split; [exact Hc |].
  destruct (@malformed_call_rejected sample_headers F sample_after_out w 0x1234)
    as (Hcmd & _).
  destruct (Hcmd Hl Hc (Some d)) as (Hr & _).
  exact Hr.
Defined.

Lemma valid_request_enters_firmware_witness :
  let F := fixed_firmware 0 [] 0 in
  let w := sample_world F ready_bbapi 0%nat in
  let d := request 1 0x10 0x1000 4 0x1800 4 0 0 in
  let run := @bbapi_ioctl sample_headers F sample_after_out 0x5000 (Some d) w in
  @validated sample_headers F w 0x5000 d /\ input_readable w d /\
  fw (snd run) = 1%nat /\
  firstn 4 (in_ (g_bbapi (snd run))) = repeat Byte.x41 4.
Proof.
  intros F w d run.
  assert (Hv : @validated sample_headers F w 0x5000 d).
  { split; [vm_compute; discriminate |].
    split; [right; split; reflexivity |].
    split; [reflexivity |]. split; vm_compute; discriminate. }
  assert (Hi : input_readable w d) by reflexivity.
  split; [exact Hv |]. split; [exact Hi |].
  destruct (@valid_request_enters_firmware sample_headers F sample_after_out
              w 0x5000 d Hv Hi) as (_ & Hfw & _ & Hin).
  split; [exact Hfw |].
  fold run in Hin. rewrite Hin. reflexivity.
Defined.

Lemma input_fault_rejected_witness :
  let F := fixed_firmware 0 [] 0 in
  let w := sample_world F ready_bbapi 0%nat in
  let d := request 1 0x10 0x3000 4 0x1800 4 0 0 in
  let run := @bbapi_ioctl sample_headers F sample_after_out 0x5000 (Some d) w in
  @validated sample_headers F w 0x5000 d /\ ~ input_readable w d /\
  fst run = - EFAULT /\ fw (snd run) = 0%nat.
Proof.
  intros F w d run.
  assert (Hv : @validated sample_headers F w 0x5000 d).
  { split; [vm_compute; discriminate |].
    split; [right; split; reflexivity |].
    split; [reflexivity |]. split; vm_compute; discriminate. }
  assert (Hi : ~ input_readable w d) by (vm_compute; discriminate).
  split; [exact Hv |]. split; [exact Hi |].
  destruct (@input_fault_rejected sample_headers F sample_after_out
              w 0x5000 d Hv Hi) as (Hr & _ & Hfw & _).
  split; [exact Hr | exact Hfw].
Defined.

Lemma output_fault_rejected_witness :
  let F := fixed_firmware 0 [] 4 in
  let w := sample_world F ready_bbapi 0%nat in
  let d := request 1 0x10 0x1000 4 0x3000 4 0x1900 0 in
  let run := @bbapi_ioctl sample_headers F sample_after_out 0x5000 (Some d) w in
  @validated sample_headers F w 0x5000 d /\ input_readable w d /\
  fst run = - EFAULT.
Proof.
  intros F w d run.
  assert (Hv : @validated sample_headers F w 0x5000 d).
  { split; [vm_compute; discriminate |].
    split; [right; split; reflexivity |].
    split; [reflexivity |]. split; vm_compute; discriminate. }
  assert (Hi : input_readable w d) by reflexivity.
  split; [exact Hv |]. split; [exact Hi |].
  destruct (@output_fault_rejected sample_headers F sample_after_out
              w 0x5000 d Hv Hi) as (Hr & _).
  - reflexivity.
  - vm_compute. discriminate.
  - exact Hr.
Defined.

Lemma rw_enters_firmware_once_witness :
  let F := fixed_firmware 5 [] 0 in
  let w := sample_world F ready_bbapi 0%nat in
  entry (g_bbapi w) <> NULL /\
  steps (@bbapi_rw sample_headers F 1 0x10 [] 0 [] 0 0) w =
    [EvMutexLock; EvFirmware 1 0x10 5 0; EvMutexUnlock] /\
  fw (snd (@bbapi_rw sample_headers F 1 0x10 [] 0 [] 0 0 w)) = 1%nat.
Proof.
  intros F w.
  assert (He : entry (g_bbapi w) <> NULL) by (vm_compute; discriminate).
  split; [exact He |].
  destruct (@rw_enters_firmware_once sample_headers F w 1 0x10 [] 0 [] 0 0 He)
    as (Hs & _ & _ & _ & _ & _ & Hfw).
  split; [exact Hs | exact Hfw].
Defined.

Lemma probe_effects_witness :
  let F := fixed_firmware 0 [] 0 in
  let w := sample_world F ready_bbapi 0%nat in
  entry (g_bbapi w) <> NULL /\
  fst (@bbapi_supports sample_headers F 0x9000 0x10 w) = false.
Proof.
  intros F w.
  assert (He : entry (g_bbapi w) <> NULL) by (vm_compute; discriminate).
  split; [exact He |].
  destruct (@probe_effects sample_headers F w 0x9000 0x10 He)
    as (_ & _ & _ & _ & Habsent).
  apply Habsent.
  - reflexivity.
  - vm_compute. discriminate.
  - vm_compute. discriminate.
Defined.

Lemma scan_reads_inside_window_witness :
  let io := window_of (marker_bytes x86_64 37 0x2000) in
  let io' := fun p => if p <? 64 then io p else Byte.xff in
  agree_within 64 io io' /\ scan x86_64 io 64 = scan x86_64 io' 64.
Proof.
  intros io io'.
  assert (Ha : agree_within 64 io io').
  { intros p Hp. unfold io'. destruct (p <? 64) eqn:E; [reflexivity |].
    apply Z.ltb_ge in E. lia. }
  split; [exact Ha |].
  exact (scan_reads_inside_window x86_64 64 io io' Ha).
Defined.

Lemma unsearchable_windows_witness :
  let io := window_of (marker_bytes x86_64 0 0x2000) in
  0x200000 > @BBIOSAPI_SIGNATURE_SEARCH_AREA sample_headers /\
  @bbapi_find_bios sample_headers (sample_kernel io) x86_64 unset_bbapi 0x200000
  = (- EFAULT, unset_bbapi, []).
Proof.
  intros io.
  assert (Hbig : 0x200000 > @BBIOSAPI_SIGNATURE_SEARCH_AREA sample_headers)
    by reflexivity.
  split; [exact Hbig |].
  destruct (@unsearchable_windows sample_headers (sample_kernel io) x86_64
              unset_bbapi 0x200000) as (Hfar & _).
  exact (Hfar Hbig).
Defined.

Lemma mapping_released_witness :
  let io := window_of (marker_bytes x86_64 37 0x2000) in
  let K := sample_kernel io in
  64 <= @BBIOSAPI_SIGNATURE_SEARCH_AREA sample_headers /\
  @ioremap K 64 = Some io /\
  exists mid,
    snd (@bbapi_find_bios sample_headers K x86_64 unset_bbapi 64) =
      KIoremap 64 :: mid ++ [KIounmap] /\
    existsb maps_or_unmaps mid = false.
Proof.
  intros io K.
  assert (Ha : 64 <= @BBIOSAPI_SIGNATURE_SEARCH_AREA sample_headers)
    by (vm_compute; discriminate).
  assert (Hm : @ioremap K 64 = Some io) by reflexivity.
  split; [exact Ha |]. split; [exact Hm |].
  exact (@mapping_released sample_headers K x86_64 unset_bbapi 64 io Ha Hm).
Defined.

Lemma failed_discovery_publishes_nothing_witness :
  let io := window_of (marker_bytes x86_64 37 0x2000) in
  let r := @bbapi_find_bios sample_headers (sample_kernel io) x86_64
             unset_bbapi 48 in
  fst (fst r) <> 0 /\ entry (snd (fst r)) = NULL /\
  existsb copies_image (snd r) = false.
Proof.
  intros io r.
  assert (Hf : fst (fst r) <> 0) by (vm_compute; discriminate).
  split; [exact Hf |].
  destruct (@failed_discovery_publishes_nothing sample_headers
              (sample_kernel io) x86_64 unset_bbapi 48) as (_ & Hfail).
  destruct (Hfail Hf) as (He & _ & _ & Hc & _).
  split; [exact He | exact Hc].
Defined.

Lemma successful_discovery_publishes_image_witness :
  let io := window_of (marker_bytes x86_64 37 0x10) in
  let r := @bbapi_find_bios sample_headers (sample_kernel io) x86_64
             unset_bbapi 64 in
  fst (fst r) = 0 /\ memory (snd (fst r)) <> NULL.
Proof.
  intros io r.
  assert (Hr : fst (fst r) = 0) by (vm_compute; reflexivity).
  split; [exact Hr |].
  destruct (@successful_discovery_publishes_image sample_headers
              (sample_kernel io) x86_64 unset_bbapi 64 Hr)
    as (io' & pos & _ & _ & Hm & _).
  exact Hm.
Defined.

Lemma board_is_compares_c_strings_witness :
  let F := fixed_firmware 0 [] 0 in
  let w := sample_world F unset_bbapi 0%nat in
  entry (g_bbapi w) = NULL /\
  fst (@bbapi_board_is sample_headers sample_devdef F [] w) = true.
Proof.
  intros F w.
  assert (He : entry (g_bbapi w) = NULL) by reflexivity.
  split; [exact He |].
  destruct (@board_is_compares_c_strings sample_headers sample_devdef F w [])
    as (Hunset & _).
  destruct (Hunset He) as (Hiff & _).
  apply Hiff. reflexivity.
Defined.

Lemma ioctl_read_outcome_witness :
  let F := fixed_firmware 0 [] 0 in
  let w := sample_world F ready_bbapi 0%nat in
  let run := @ioctl_read sample_headers F sample_after_out 1 0x10 0x1800 4 w in
  (@is_legacy sample_headers UNITTEST_BBAPI_CMD = true \/
   UNITTEST_BBAPI_CMD = @BBAPI_CMD sample_headers) /\
  entry (g_bbapi w) <> NULL /\ 0x10 < 0xB0 /\
  4 <= sizeof (out (g_bbapi w)) /\
  fw (snd run) = 1%nat /\ in_ (g_bbapi (snd run)) = in_ (g_bbapi w).
Proof.
  intros F w run.
  assert (Hc : @is_legacy sample_headers UNITTEST_BBAPI_CMD = true \/
               UNITTEST_BBAPI_CMD = @BBAPI_CMD sample_headers)
    by (right; reflexivity).
  assert (He : entry (g_bbapi w) <> NULL) by (vm_compute; discriminate).
  assert (Ho : 0x10 < 0xB0) by reflexivity.
  assert (Hs : 4 <= sizeof (out (g_bbapi w))) by (vm_compute; discriminate).
  split; [exact Hc |]. split; [exact He |]. split; [exact Ho |].
  split; [exact Hs |].
  destruct (@ioctl_read_outcome sample_headers F sample_after_out w 1 0x10
              0x1800 4 Hc He Ho Hs) as (Hin & Hfw & _).
  split; [exact Hfw | exact Hin].
Defined.

Lemma ioctl_write_outcome_witness :
  let F := fixed_firmware 0 [] 0 in
  let w := sample_world F ready_bbapi 0%nat in
  (@is_legacy sample_headers UNITTEST_BBAPI_CMD = true \/
   UNITTEST_BBAPI_CMD = @BBAPI_CMD sample_headers) /\
  entry (g_bbapi w) <> NULL /\ 0x10 < 0xB0 /\
  4 <= sizeof (in_ (g_bbapi w)) /\
  length (read_user (user w) 0x1000 (Z.to_nat 4)) = Z.to_nat 4 /\
  user w NULL = None /\
  fst (@ioctl_write sample_headers F sample_after_out 1 0x10 0x1000 4 w) = 0.
Proof.
  intros F w.
  assert (Hc : @is_legacy sample_headers UNITTEST_BBAPI_CMD = true \/
               UNITTEST_BBAPI_CMD = @BBAPI_CMD sample_headers)
    by (right; reflexivity).
  assert (He : entry (g_bbapi w) <> NULL) by (vm_compute; discriminate).
  assert (Ho : 0x10 < 0xB0) by reflexivity.
  assert (Hs : 4 <= sizeof (in_ (g_bbapi w))) by (vm_compute; discriminate).
  assert (Hr : length (read_user (user w) 0x1000 (Z.to_nat 4)) = Z.to_nat 4)
    by reflexivity.
  assert (Hn : user w NULL = None) by reflexivity.
  split; [exact Hc |]. split; [exact He |]. split; [exact Ho |].
  split; [exact Hs |]. split; [exact Hr |]. split; [exact Hn |].
  exact (@ioctl_write_outcome sample_headers F sample_after_out w 1 0x10
           0x1000 4 Hc He Ho Hs Hr Hn eq_refl).
Defined.

Lemma update_display_sequence_witness :
  let F := fixed_firmware 0 [] 0 in
  let w := sample_world F ready_bbapi 0%nat in
  let run := @update_display sample_headers sample_devdef (sample_host 0 0 0)
               F w in
  entry (g_bbapi w) <> NULL /\ fw (snd run) = 4%nat /\
  g_bbapi (snd run) = ready_bbapi.
Proof.
  intros F w run.
  assert (He : entry (g_bbapi w) <> NULL) by (vm_compute; discriminate).
  split; [exact He |].
  destruct (@update_display_sequence sample_headers sample_devdef
              (sample_host 0 0 0) F w) as (_ & _ & _ & Hready).
  destruct (Hready He) as (Hfw & _ & _ & Hb & _).
  split; [exact Hfw | exact Hb].
Defined.

Lemma bios_handshake_witness :
  let F := fixed_firmware 7 [] 0 in
  let w := sample_world F ready_bbapi 0%nat in
  let H := sample_host 0 0 0 in
  entry (g_bbapi w) <> NULL /\
  fst (@bbapi_init_bios sample_headers H F w) = 0 /\
  steps (@bbapi_init_bios sample_headers H F) w =
    [EvMutexLock; EvFirmware 0 0xFE 7 0; EvMutexUnlock].
Proof.
  intros F w H.
  assert (He : entry (g_bbapi w) <> NULL) by (vm_compute; discriminate).
  split; [exact He |].
  destruct (@bios_handshake sample_headers H F w) as (Hz & _ & Hready).
  destruct (Hready He) as (Hs & _).
  split; [exact Hz | exact Hs].
Defined.

Lemma init_stops_when_discovery_fails_witness :
  let F := fixed_firmware 2 [] 0 in
  let io := window_of (marker_bytes x86_64 37 0x2000) in
  let K := sample_kernel io in
  let st := sample_machine F unset_bbapi 0%nat in
  let r := @bbapi_find_bios sample_headers K x86_64 (g_bbapi (mw st)) 48 in
  fst (fst r) <> 0 /\
  fst (@bbapi_init_module sample_headers sample_devdef (sample_host 0 0 0) K F
         x86_64 48 st) = - EFAULT.
Proof.
  intros F io K st r.
  assert (Hf : fst (fst r) <> 0) by (vm_compute; discriminate).
  split; [exact Hf |].
  destruct (@init_stops_when_discovery_fails sample_headers sample_devdef
              (sample_host 0 0 0) K F x86_64 48 st Hf) as (Hr & _).
  rewrite Hr. reflexivity.
Defined.

Lemma failed_init_rolls_back_witness :
  let F := fixed_firmware 2 [] 0 in
  let io := window_of (marker_bytes x86_64 37 0x10) in
  let K := sample_kernel io in
  let Hm := sample_host 0 0 (-12) in
  let st := sample_machine F unset_bbapi 0%nat in
  let r := @bbapi_find_bios sample_headers K x86_64 (g_bbapi (mw st)) 64 in
  let run := @bbapi_init_module sample_headers sample_devdef Hm K F
               x86_64 64 st in
  let t := appended (@bbapi_init_module sample_headers sample_devdef Hm K F
                       x86_64 64) st in
  fst (fst r) = 0 /\ entry (snd (fst r)) <> NULL /\ @probe_stable F /\
  fst run <> 0 /\
  count frees t = 1%nat /\
  count (registers bbapi_power) t = count (unregisters bbapi_power) t.
Proof.
  intros F io K Hm st r run t.
  assert (Hre : fst (fst r) = 0 /\ entry (snd (fst r)) <> NULL)
    by (vm_compute; split; [reflexivity | discriminate]).
  destruct Hre as (Hr & He).
  assert (St : @probe_stable F) by (intros s s' g o; reflexivity).
  assert (Hn : fst run <> 0) by (vm_compute; discriminate).
  split; [exact Hr |]. split; [exact He |]. split; [exact St |].
  split; [exact Hn |].
  destruct (@failed_init_rolls_back sample_headers sample_devdef Hm K F
              x86_64 64 st Hr He St Hn) as (Hbal & Hfree & _).
  split; [exact Hfree | exact (Hbal bbapi_power)].
Defined.

Lemma successful_init_keeps_resources_witness :
  let F := fading_firmware 1 in
  let io := window_of (marker_bytes x86_64 37 0x10) in
  let K := sample_kernel io in
  let Hm := sample_host 0 0 0 in
  let st := sample_machine F unset_bbapi 0%nat in
  let r := @bbapi_find_bios sample_headers K x86_64 (g_bbapi (mw st)) 64 in
  let run := @bbapi_init_module sample_headers sample_devdef Hm K F
               x86_64 64 st in
  let t := appended (@bbapi_init_module sample_headers sample_devdef Hm K F
                       x86_64 64) st in
  fst (fst r) = 0 /\
  fst run = 0 /\ count frees t = 0%nat /\
  count (registers bbapi_power) t = 1%nat /\
  count (registers bbapi_sups) t = 0%nat.
Proof.
  intros F io K Hm st r run t.
  assert (Hr : fst (fst r) = 0) by (vm_compute; reflexivity).
  split; [exact Hr |].
  destruct (@successful_init_keeps_resources sample_headers sample_devdef Hm
              K F x86_64 64 st Hr) as (Hiff & Hok).
  assert (Hz : fst run = 0).
  { apply Hiff. repeat split; reflexivity. }
  split; [exact Hz |].
  destruct (Hok Hz) as (Hfree & _ & Hp & Hs & _).
  split; [exact Hfree |]. split.
  - etransitivity; [exact Hp | vm_compute; reflexivity].
  - etransitivity; [exact Hs | vm_compute; reflexivity].
Defined.

Lemma exit_releases_everything_witness :
  let F := fixed_firmware 2 [] 0 in
  let st := sample_machine F ready_bbapi 0%nat in
  let t := appended (@bbapi_exit sample_headers sample_devdef F) st in
  memory (g_bbapi (mw st)) <> NULL /\ entry (g_bbapi (mw st)) <> NULL /\
  @probe_stable F /\
  host_steps t =
    [MCdevRemove; MUnregister bbapi_sups; MUnregister bbapi_power;
     MVfree 0x100000].
Proof.
  intros F st t.
  assert (Hm : memory (g_bbapi (mw st)) <> NULL) by (vm_compute; discriminate).
  assert (He : entry (g_bbapi (mw st)) <> NULL) by (vm_compute; discriminate).
  assert (St : @probe_stable F) by (intros s s' g o; reflexivity).
  split; [exact Hm |]. split; [exact He |]. split; [exact St |].
  destruct (@exit_releases_everything sample_headers sample_devdef F st)
    as (_ & Hheld).
  destruct (Hheld Hm He St) as (Ht & _).
  exact Ht.
Defined.

Lemma load_unload_balanced_witness :
  let F := fixed_firmware 2 [] 0 in
  let io := window_of (marker_bytes x86_64 37 0x10) in
  let K := sample_kernel io in
  let Hm := sample_host 0 0 0 in
  let st := sample_machine F unset_bbapi 0%nat in
  let r := @bbapi_find_bios sample_headers K x86_64 (g_bbapi (mw st)) 64 in
  let t := appended (@load_unload sample_headers sample_devdef Hm K F
                       x86_64 64) st in
  fst (fst r) = 0 /\ entry (snd (fst r)) <> NULL /\ @probe_stable F /\
  count frees t = 1%nat /\
  count (registers bbapi_sups) t = count (unregisters bbapi_sups) t.
Proof.
  intros F io K Hm st r t.
  assert (Hre : fst (fst r) = 0 /\ entry (snd (fst r)) <> NULL)
    by (vm_compute; split; [reflexivity | discriminate]).
  destruct Hre as (Hr & He).
  assert (St : @probe_stable F) by (intros s s' g o; reflexivity).
  split; [exact Hr |]. split; [exact He |]. split; [exact St |].
  destruct (@load_unload_balanced sample_headers sample_devdef Hm K F
              x86_64 64 st Hr He St) as (Hbal & Hfree & _).
  split; [exact Hfree | exact (proj1 (Hbal bbapi_sups))].
Defined.

Lemma handshakes_bracket_the_module_witness :
  let F := fading_firmware 1 in
  let io := window_of (marker_bytes x86_64 37 0x10) in
  let K := sample_kernel io in
  let Hm := sample_host 0 0 0 in
  let st := sample_machine F unset_bbapi 0%nat in
  let r := @bbapi_find_bios sample_headers K x86_64 (g_bbapi (mw st)) 64 in
  let init := @bbapi_init_module sample_headers sample_devdef Hm K F
                x86_64 64 in
  fst (fst r) = 0 /\ entry (snd (fst r)) <> NULL /\
  fst (init st) = 0 /\
  exists pre l, appended init st = pre ++ l /\ handshake 0xFE l.
Proof.
  intros F io K Hm st r init.
  assert (Hre : fst (fst r) = 0 /\ entry (snd (fst r)) <> NULL)
    by (vm_compute; split; [reflexivity | discriminate]).
  destruct Hre as (Hr & He).
  assert (Hz : fst (init st) = 0) by (vm_compute; reflexivity).
  split; [exact Hr |]. split; [exact He |]. split; [exact Hz |].
  destruct (@handshakes_bracket_the_module sample_headers sample_devdef Hm K F
              x86_64 64 st) as (Hinit & _).
  exact (Hinit Hr He Hz).
Defined.

(** The stability of the probes is needed for the balance of a failed
    init: with a BIOS that stops reporting the power supply after two
    calls, an init that fails at the S-UPS registration probes again,
    finds no power supply and leaves the power device registered. *)
Lemma unstable_probe_leaks_registration :
  let F := fading_firmware 2 in
  let io := window_of (marker_bytes x86_64 37 0x10) in
  let init := @bbapi_init_module sample_headers sample_devdef
                (sample_host 0 (-12) 0) (sample_kernel io) F x86_64 64 in
  let st := sample_machine F unset_bbapi 0%nat in
  let t := appended init st in
  fst (init st) = -12 /\
  count (registers bbapi_power) t = 1%nat /\
  count (unregisters bbapi_power) t = 0%nat.
Proof.
  vm_compute. repeat split.
Qed.
